(** * Tool orchestration service: attach/prune engine, sync engine, caches

    A shallow embedding of [api_server.py], [fetch_all_tools.py],
    [sync_service.py] and [weaviate_tool_search.py].

    Conventions of the embedding:
    - a JSON object (Python [dict]) describing a tool is the record [Tool]
      where the code reads it with [d.get(key)], a field that is absent
      or [null] being [None], and the record [Sync.Descriptor] where the
      code also tests [key in d], which tells an absent key from
      [null];
    - Python [set]s of tool ids are [gset string]; the order in which Python
      iterates over a set is not specified, it is the parameter [set_iter],
      about which only "enumerates the set once" is assumed;
    - the Python float [drop_rate] is an IEEE 754 binary64 number and the
      arithmetic on it rounds to nearest even ([Float]); [math.floor]
      raises on NaN and on the infinities; the scores [distance] and
      [match_score] are exact rationals [Q];
    - every remote call is answered by an oracle of the environment; a
      coroutine that raises is [Raised], one that returns is [Returned];
    - the HTTP traffic of a call is recorded as a list of [Event]s. *)

From Stdlib Require Import QArith Qround.
From Stdlib Require SpecFloat.
From stdpp Require Import gmap strings list fin_sets functions pretty.

Open Scope nat_scope.

Set Warnings "-clear-no-such-hyp".

(** ** Python values *)

Module Py.

(** Truth value of an optional string: [None] and [""] are falsy. *)
Definition truthy (v : option string) : bool :=
  match v with
  | Some s => negb (String.eqb s "")
  | None => false
  end.

(** [a or b] *)
Definition or_ (a b : option string) : option string :=
  if truthy a then a else b.

(** [d.get(k, dflt)] on a string field *)
Definition get_default (v : option string) (dflt : string) : string :=
  default dflt v.

(** Result of a coroutine awaited through
    [asyncio.gather(..., return_exceptions=True)]. *)
Inductive TaskResult (A : Type) :=
| Returned (a : A)
| Raised (msg : string).
Arguments Returned {A} a.
Arguments Raised {A} msg.

End Py.

(** ** Python floats

    A Python [float] is an IEEE 754 binary64 number; [+], [-], [*] and
    [/] round to nearest, ties to even. *)

Module Float.

Definition float := SpecFloat.spec_float.

Definition prec : Z := 53.
Definition emax : Z := 1024.

Definition sub : float → float → float := SpecFloat.SFsub prec emax.
Definition mul : float → float → float := SpecFloat.SFmul prec emax.
Definition div : float → float → float := SpecFloat.SFdiv prec emax.

(** The conversion of a Python [int] in [n * x]: the nearest double, or
    OverflowError. *)
Definition of_int (n : Z) : string + float :=
  match SpecFloat.binary_normalize prec emax n 0 false with
  | SpecFloat.S754_infinity _ => inl "int too large to convert to float"
  | x => inr x
  end.

(** A double given by its mantissa and exponent: [m * 2^e]. *)
Definition finite (m : positive) (e : Z) : float :=
  SpecFloat.S754_finite false m e.

Definition zero : float := SpecFloat.S754_zero false.

(** The literal [1.0] *)
Definition one : float := finite 4503599627370496 (-52).

(** The literal [0.8] *)
Definition eight_tenths : float := finite 7205759403792794 (-53).

(** The double a decimal literal [a/b] of small integers is read as:
    the quotient of two exact doubles, rounded once. *)
Definition ratio (a b : Z) : float :=
  div (SpecFloat.binary_normalize prec emax a 0 false)
      (SpecFloat.binary_normalize prec emax b 0 false).

(** [math.floor(x)]: the message of the exception, or the integer. *)
Definition floor (x : float) : string + Z :=
  match x with
  | SpecFloat.S754_zero _ => inr 0%Z
  | SpecFloat.S754_finite s m e =>
      let signed := if s then Zneg m else Zpos m in
      inr (match e with
           | Zneg k => Z.shiftr signed (Zpos k)
           | _ => Z.shiftl signed e
           end)
  | SpecFloat.S754_infinity _ => inl "cannot convert float infinity to integer"
  | SpecFloat.S754_nan => inl "cannot convert float NaN to integer"
  end.

(** The real number a double stands for; [None] for NaN and the
    infinities. *)
Definition to_Q (x : float) : option Q :=
  match x with
  | SpecFloat.S754_zero _ => Some 0%Q
  | SpecFloat.S754_finite s m e =>
      Some (inject_Z (if s then Zneg m else Zpos m) * Qpower 2 e)%Q
  | _ => None
  end.

End Float.

(** ** Tool descriptors *)

Record Tool := mkTool {
  t_id : option string;              (* "id" *)
  t_tool_id : option string;         (* "tool_id" *)
  t_name : option string;            (* "name" *)
  t_tool_type : option string;       (* "tool_type" *)
  t_mcp_server_name : option string; (* "mcp_server_name" *)
  t_source_type : option string;     (* "source_type" *)
  t_distance : option Q              (* "distance" *)
}.

Definition external_mcp : string := "external_mcp".

(** [tool.get("tool_type") == "external_mcp"] *)
Definition is_external_mcp (t : Tool) : bool :=
  bool_decide (t_tool_type t = Some external_mcp).

(** [tool.get('id') or tool.get('tool_id')] *)
Definition id_or_tool_id (t : Tool) : option string :=
  Py.or_ (t_id t) (t_tool_id t).

(** [tool.get('tool_id') or tool.get('id')] *)
Definition tool_id_or_id (t : Tool) : option string :=
  Py.or_ (t_tool_id t) (t_id t).

(** [tool['id'] = v; tool['tool_id'] = v] *)
Definition set_ids (v : option string) (t : Tool) : Tool :=
  mkTool v v (t_name t) (t_tool_type t) (t_mcp_server_name t)
         (t_source_type t) (t_distance t).

Definition set_id (v : option string) (t : Tool) : Tool :=
  mkTool v (t_tool_id t) (t_name t) (t_tool_type t) (t_mcp_server_name t)
         (t_source_type t) (t_distance t).

Definition set_tool_id (v : option string) (t : Tool) : Tool :=
  mkTool (t_id t) v (t_name t) (t_tool_type t) (t_mcp_server_name t)
         (t_source_type t) (t_distance t).

Definition set_mcp_server_name (v : option string) (t : Tool) : Tool :=
  mkTool (t_id t) (t_tool_id t) (t_name t) (t_tool_type t) v
         (t_source_type t) (t_distance t).

Definition set_tool_type (v : option string) (t : Tool) : Tool :=
  mkTool (t_id t) (t_tool_id t) (t_name t) v (t_mcp_server_name t)
         (t_source_type t) (t_distance t).

Definition set_source_type (v : option string) (t : Tool) : Tool :=
  mkTool (t_id t) (t_tool_id t) (t_name t) (t_tool_type t)
         (t_mcp_server_name t) v (t_distance t).

Definition set_distance (v : option Q) (t : Tool) : Tool :=
  mkTool (t_id t) (t_tool_id t) (t_name t) (t_tool_type t)
         (t_mcp_server_name t) (t_source_type t) v.

(** ** Remote calls and their traces *)

(** What one HTTP request to the Agent Platform comes back with.
    [HttpStatus code body]: an answer whose body can be read; [body] is
    [str(response_data)], the parsed JSON body as Python prints it, or
    [{'text': ...}] around the text of a body that is not sent as JSON.
    [HttpUnparsable code msg]: an answer with that status whose body
    cannot be read: [response.json()] raises the exception [msg], a JSON
    syntax error for instance. *)
Inductive HttpOutcome :=
| HttpStatus (code : nat) (body : string)
| HttpUnparsable (code : nat) (msg : string)
| HttpTimeout                (* asyncio.TimeoutError *)
| HttpException (msg : string).

Inductive Event :=
| EvFetchAgent
| EvSearch (query : string) (limit : nat)
| EvRegister (server tool_name : string)
| EvDetachRequest (tool_id : string)
| EvDetachReturn (tool_id : string)
| EvAttachRequest (tool_id : string)
| EvAttachReturn (tool_id : string)
| EvPruneBegin.

(** The tool ids for which a detach request was sent, in order. *)
Definition detach_requests (trace : list Event) : list string :=
  omap (λ e, match e with EvDetachRequest tool_id => Some tool_id | _ => None end)
       trace.

(** The platform gives one id to one tool: two descriptors of a listing
    that carry the same id are of the same type. *)
Definition ids_identify_tools (tools : list Tool) : Prop :=
  ∀ t1 t2 tool_id,
    t1 ∈ tools → t2 ∈ tools →
    id_or_tool_id t1 = Some tool_id → id_or_tool_id t2 = Some tool_id →
    t_tool_type t1 = t_tool_type t2.

(** ** [detach_tool] (api_server.py) *)

Record DetachResult := mkDetachResult {
  dr_success : bool;
  dr_tool_id : string;
  dr_error : option string;
  dr_warning : option string
}.

Definition detach_tool (http_session : bool) (tool_id : string)
    (response : HttpOutcome) : DetachResult :=
  if negb http_session then
    mkDetachResult false tool_id (Some "HTTP session not available") None
  else
    match response with
    | HttpStatus code body =>
        if code =? 200 then mkDetachResult true tool_id None None
        else if code =? 404 then
          mkDetachResult true tool_id None
            (Some "Tool not found or already detached")
        else
          mkDetachResult false tool_id
            (Some ("HTTP " +:+ pretty code +:+ ": " +:+ body)) None
    | HttpUnparsable _ msg =>
        (* the body is parsed before the status is looked at *)
        mkDetachResult false tool_id (Some msg) None
    | HttpTimeout =>
        mkDetachResult false tool_id (Some "Request timed out") None
    | HttpException msg =>
        mkDetachResult false tool_id (Some msg) None
    end.

(** The requests a [detach_tool] coroutine puts on the wire. *)
Definition detach_tool_events (http_session : bool) (tool_id : string)
    : list Event :=
  if http_session then [EvDetachRequest tool_id; EvDetachReturn tool_id]
  else [].

(** ** [search_tools] (weaviate_tool_search.py) *)

Module Search.

(** One object of a hybrid query result: its properties and its metadata
    ([None]: no metadata; [Some None]: metadata whose score is [None]). *)
Record Hit := mkHit {
  hit_properties : Tool;
  hit_metadata : option (option Q)
}.

(** The Vector Store: [hybrid query limit] stands for
    [collection.query.hybrid(query=preprocess_query(query), alpha=0.75,
    limit=limit, ...)]; [None] when the client or the query raises. *)
Definition Hybrid := string → nat → option (list Hit).

(** [tool_data["distance"]] of one hit *)
Definition hit_distance (h : Hit) : Q :=
  match hit_metadata h with
  | Some score => 1 - default (1 # 2) score
  | None => 1 # 2
  end.

Definition search_tools (hybrid : Hybrid) (query : string) (limit : nat)
    : list Tool :=
  match hybrid query limit with
  | Some objects =>
      (λ obj, set_distance (Some (hit_distance obj)) (hit_properties obj))
        <$> objects
  | None => []
  end.

End Search.

(** ** [_perform_tool_pruning] (api_server.py) *)

Module Prune.

Record Env := mkEnv {
  http_session : bool;
  (** [GET /agents/{id}/tools]; [None] when the request raises *)
  agent_tools : string → option (list Tool);
  (** the Vector Store behind [search_tools] *)
  hybrid : Search.Hybrid;
  (** answer to the [i]-th detach request of the batch *)
  detach_response : nat → HttpOutcome
}.

Record DetachInfo := mkDetachInfo {
  di_tool_id : string;
  di_name : string;
  di_error : option string
}.

Record Details := mkDetails {
  tools_on_agent_before_total : nat;
  mcp_tools_on_agent_before : nat;
  core_tools_preserved_count : nat;
  target_mcp_tools_to_keep_after_pruning : nat;
  relevant_library_tools_found_count : nat;
  final_mcp_tool_ids_kept_on_agent : list string;
  final_core_tool_ids_on_agent : list string;
  actual_total_tools_on_agent_after_pruning : nat;
  mcp_tools_detached_count : nat;
  mcp_tools_failed_detachment_count : nat;
  successful_detachments_mcp : list DetachInfo;
  failed_detachments_mcp : list DetachInfo
}.

Inductive Response :=
| Failure (error : string)                       (* success: False *)
| NothingToPrune (core_count : nat) (final_tool_ids_on_agent : list string)
| Completed (details : Details).

(** [fetch_agent_tools] *)
Definition fetch_agent_tools (env : Env) (agent_id : string)
    : option (list Tool) :=
  if http_session env then agent_tools env agent_id else None.

(** Step 1: the loop that splits the agent's tools into core and MCP
    tools, skipping tools without an id: result is [(core, mcp)]. *)
Fixpoint categorize (tools : list Tool) : list Tool * list Tool :=
  match tools with
  | [] => ([], [])
  | tool :: rest =>
      let '(core, mcp) := categorize rest in
      let tool_id := id_or_tool_id tool in
      if negb (Py.truthy tool_id) then (core, mcp)
      else
        let tool' := set_ids tool_id tool in
        if is_external_mcp tool' then (core, tool' :: mcp)
        else (tool' :: core, mcp)
  end.

(** [{tool['id'] for tool in tools}]; every tool of the lists built by
    [categorize] has its ["id"] set. *)
Definition id_set (tools : list Tool) : gset string :=
  list_to_set (omap t_id tools).

(** [math.floor(n * r)] for an int [n] and a float [r]: the message of
    the exception raised, or the integer. *)
Definition floor_scaled (n : nat) (r : Float.float) : string + Z :=
  match Float.of_int (Z.of_nat n) with
  | inl e => inl e
  | inr x => Float.floor (Float.mul x r)
  end.

(** Step 2: [math.floor(num_currently_attached_mcp * (1.0 - drop_rate))],
    raised to 0 when negative. *)
Definition num_mcp_tools_to_keep (n : nat) (drop_rate : Float.float)
    : string + nat :=
  match floor_scaled n (Float.sub Float.one drop_rate) with
  | inl e => inl e
  | inr k => inr (Z.to_nat (if (k <? 0)%Z then 0%Z else k))
  end.

(** [max(1, math.floor(num_currently_attached_mcp * 0.8))] *)
Definition aggressive_target (n : nat) : string + nat :=
  match floor_scaled n Float.eight_tenths with
  | inl e => inl e
  | inr k => inr (Nat.max 1 (Z.to_nat k))
  end.

(** What the specification says of the target: [floor(N·(1 − drop_rate))]
    over the reals, at the number the double [drop_rate] stands for. *)
Definition exact_target (n : nat) (drop_rate : Float.float) : option Z :=
  match Float.to_Q drop_rate with
  | Some q => Some (Qfloor (inject_Z (Z.of_nat n) * (1 - q)))
  | None => None
  end.

(** What the specification says of the alternate target:
    [max(1, floor(0.8·N))] over the reals. *)
Definition exact_aggressive_target (n : nat) : nat :=
  Nat.max 1 (Z.to_nat (Qfloor (inject_Z (Z.of_nat n) * (8 # 10)))).

Definition search_limit (num_keep : nat) : nat :=
  Nat.max (num_keep + 50) 100.

(** Step 3: [ordered_top_library_tool_info], first occurrence of an id. *)
Fixpoint library_info (data : list Tool) (seen_top_ids : gset string)
    : list (string * string * option string) :=
  match data with
  | [] => []
  | tool_data :: rest =>
      match id_or_tool_id tool_data with
      | Some tool_id =>
          if Py.truthy (Some tool_id) && bool_decide (tool_id ∉ seen_top_ids)
          then (tool_id, Py.get_default (t_name tool_data) "Unknown",
                t_tool_type tool_data)
               :: library_info rest ({[tool_id]} ∪ seen_top_ids)
          else library_info rest seen_top_ids
      | None => library_info rest seen_top_ids
      end
  end.

Definition add_if_on_agent (current acc : gset string) (tool_id : string)
    : gset string :=
  if bool_decide (tool_id ∈ current) then {[tool_id]} ∪ acc else acc.

Definition prioritize_newly (current : gset string) (target : nat)
    (acc : gset string) (tool_id : string) : gset string :=
  if bool_decide (tool_id ∈ current) && (size acc <? target)
  then {[tool_id]} ∪ acc else acc.

Definition prioritize_library (keeps : gset string) (target : nat)
    (acc : gset string) (info : string * string * option string)
    : gset string :=
  let '(tool_id, _, tool_type) := info in
  if bool_decide (tool_type = Some external_mcp)
     && bool_decide (tool_id ∈ keeps)
     && bool_decide (tool_id ∉ acc)
     && (size acc <? target)
  then {[tool_id]} ∪ acc else acc.

Definition is_additional_keep (current keeps : gset string)
    (info : string * string * option string) : bool :=
  let '(tool_id, _, tool_type) := info in
  bool_decide (tool_type = Some external_mcp)
  && bool_decide (tool_id ∈ current)
  && bool_decide (tool_id ∉ keeps).

(** [id_to_name_map]: a later tool with the same id overwrites. *)
Definition id_to_name_map (mcp : list Tool) : gmap string string :=
  foldl (λ m tool,
           match t_id tool with
           | Some i => <[i := Py.get_default (t_name tool) "Unknown"]> m
           | None => m
           end) ∅ mcp.

(** One entry of the loop over [detach_results]:
    [inl] goes to [successful_detachments_info], [inr] to
    [failed_detachments_info]. *)
Definition record_detach (names : gmap string string) (tool_id : string)
    (result : Py.TaskResult DetachResult) : DetachInfo + DetachInfo :=
  let name := default "Unknown" (names !! tool_id) in
  match result with
  | Py.Raised msg => inr (mkDetachInfo tool_id name (Some msg))
  | Py.Returned r =>
      if dr_success r then inl (mkDetachInfo tool_id name None)
      else inr (mkDetachInfo tool_id name
                  (Some (default "Unknown detachment failure" (dr_error r))))
  end.

Definition lefts {A B} (l : list (A + B)) : list A :=
  omap (λ x, match x with inl a => Some a | inr _ => None end) l.

Definition rights {A B} (l : list (A + B)) : list B :=
  omap (λ x, match x with inl _ => None | inr b => Some b end) l.

Section Engine.
(** Iteration order of a Python set. *)
Variable set_iter : gset string → list string.
(** Interleaving of the requests of one [asyncio.gather]. *)
Variable schedule : list Event → list Event.

(** Step 4, first part: the tools that must be kept. *)
Definition must_keep (current newly keep : gset string) : gset string :=
  foldl (add_if_on_agent current)
        (foldl (add_if_on_agent current) ∅ (set_iter newly))
        (set_iter keep).

(** Step 4, the aggressive branch, once [aggressive_target] is known. *)
Definition aggressive_keeps (current newly keeps : gset string)
    (info : list (string * string * option string)) (target : nat)
    : gset string :=
  if target <? size keeps then
    foldl (prioritize_library keeps target)
          (foldl (prioritize_newly current target) ∅ (set_iter newly))
          info
  else keeps.

(** Step 4, the other branch: the free slots go to the most relevant
    other MCP tools of the agent. *)
Definition filled_keeps (current keeps : gset string)
    (info : list (string * string * option string)) (num_keep : nat)
    : gset string :=
  let potential_additional_keeps :=
    (λ i, i.1.1) <$> filter (λ i, is_additional_keep current keeps i = true) info in
  let num_slots_to_fill := num_keep - size keeps in
  foldl (λ acc tool_id, {[tool_id]} ∪ acc) keeps
        (take num_slots_to_fill potential_additional_keeps).

(** Step 4: [final_mcp_tool_ids_to_keep], or the message of the
    exception [math.floor] raises in the aggressive branch. *)
Definition final_mcp_tool_ids_to_keep (current newly keep : gset string)
    (info : list (string * string * option string)) (num_keep : nat)
    : string + gset string :=
  let keeps := must_keep current newly keep in
  if num_keep <=? size keeps then
    match aggressive_target (size current) with
    | inl e => inl e
    | inr target => inr (aggressive_keeps current newly keeps info target)
    end
  else inr (filled_keeps current keeps info num_keep).

(** The decision taken by one call: the MCP ids on the agent, the ids
    kept and the ids to detach, in the order the detach batch uses. *)
Record Plan := mkPlan {
  current_mcp_tool_ids : gset string;
  kept : gset string;
  mcp_tools_to_detach_ids : list string
}.

Definition plan (tools : list Tool) (library : list Tool)
    (num_keep : nat) (keep_tool_ids newly_matched_tool_ids : list string)
    : string + Plan :=
  let current := id_set (categorize tools).2 in
  match final_mcp_tool_ids_to_keep current
          (list_to_set newly_matched_tool_ids) (list_to_set keep_tool_ids)
          (library_info library ∅) num_keep with
  | inl e => inl e
  | inr final => inr (mkPlan current final (set_iter (current ∖ final)))
  end.

(** Step 6: the detach batch. *)
Definition detach_batch (env : Env) (ids : list string)
    : list (Py.TaskResult DetachResult) :=
  imap (λ i tool_id,
          Py.Returned (detach_tool (http_session env) tool_id
                                   (detach_response env i))) ids.

(** [drop_rate] is the float handed in; an int that passes the check of
    the endpoint, 0 or 1, acts in [1.0 - drop_rate] as the double of the
    same value. An exception inside the [try] block gives
    [{"success": False, "error": str(e)}]. *)
Definition _perform_tool_pruning (env : Env) (agent_id user_prompt : string)
    (drop_rate : Float.float)
    (keep_tool_ids newly_matched_tool_ids : list string)
    : Response * list Event :=
  match fetch_agent_tools env agent_id with
  | None => (Failure "fetch_agent_tools raised", [EvFetchAgent])
  | Some tools =>
      let '(core, mcp) := categorize tools in
      let current := id_set mcp in
      let current_core := id_set core in
      let n_mcp := size current in
      let n_core := size current_core in
      if n_mcp =? 0 then
        (NothingToPrune n_core (set_iter current_core), [EvFetchAgent])
      else
        match num_mcp_tools_to_keep n_mcp drop_rate with
        | inl e => (Failure e, [EvFetchAgent])
        | inr num_keep =>
            let limit := search_limit num_keep in
            let library :=
              Search.search_tools (hybrid env) user_prompt limit in
            let info := library_info library ∅ in
            match plan tools library num_keep keep_tool_ids
                       newly_matched_tool_ids with
            | inl e => (Failure e, [EvFetchAgent; EvSearch user_prompt limit])
            | inr p =>
                let ids := mcp_tools_to_detach_ids p in
                let results := detach_batch env ids in
                let names := id_to_name_map mcp in
                let recorded := zip_with (record_detach names) ids results in
                (Completed
                   (mkDetails (n_mcp + n_core) n_mcp n_core num_keep
                      (length info)
                      (set_iter (kept p)) (set_iter current_core)
                      (size (current_core ∪ kept p))
                      (length (lefts recorded)) (length (rights recorded))
                      (lefts recorded) (rights recorded)),
                 [EvFetchAgent; EvSearch user_prompt limit]
                   ++ schedule (ids ≫= detach_tool_events (http_session env)))
            end
        end
  end.

(** What the specification says of normal mode, its target read over the
    reals: a call whose must-keep set is smaller than
    [floor(N·(1 − drop_rate))] keeps every must-keep id and sends no
    detach request for it. *)
Definition keep_set_claim (env : Env) (agent_id user_prompt : string)
    (drop_rate : Float.float) (keep newly : list string) : Prop :=
  ∀ tools target,
    fetch_agent_tools env agent_id = Some tools →
    0 < size (id_set (categorize tools).2) →
    exact_target (size (id_set (categorize tools).2)) drop_rate
    = Some target →
    (Z.of_nat (size ((list_to_set keep ∪ list_to_set newly)
                     ∩ id_set (categorize tools).2)) < target)%Z →
    ∃ details trace,
      _perform_tool_pruning env agent_id user_prompt drop_rate keep newly
      = (Completed details, trace)
      ∧ ∀ tool_id,
          tool_id ∈ (list_to_set keep ∪ list_to_set newly)
                    ∩ id_set (categorize tools).2 →
          tool_id ∈ final_mcp_tool_ids_kept_on_agent details
          ∧ tool_id ∉ detach_requests trace.

(** What the specification says of aggressive mode, its targets read
    over the reals: a call whose must-keep set has at least
    [floor(N·(1 − drop_rate))] ids sends at least
    [N − max(1, floor(0.8·N))] detach requests. *)
Definition aggressive_progress_claim (env : Env)
    (agent_id user_prompt : string) (drop_rate : Float.float)
    (keep newly : list string) : Prop :=
  ∀ tools target,
    fetch_agent_tools env agent_id = Some tools →
    0 < size (id_set (categorize tools).2) →
    exact_target (size (id_set (categorize tools).2)) drop_rate
    = Some target →
    (target ≤ Z.of_nat (size ((list_to_set keep ∪ list_to_set newly)
                              ∩ id_set (categorize tools).2)))%Z →
    ∃ details trace,
      _perform_tool_pruning env agent_id user_prompt drop_rate keep newly
      = (Completed details, trace)
      ∧ size (id_set (categorize tools).2)
        - exact_aggressive_target (size (id_set (categorize tools).2))
        ≤ length (detach_requests trace).

End Engine.

End Prune.

(** ** [attach_tool], [process_tools], [attach_tools] (api_server.py) *)

Module Attach.

Record AttachResult := mkAttachResult {
  ar_success : bool;
  ar_tool_id : option string;
  ar_name : option string;
  ar_match_score : option Q;
  ar_error : option string
}.

(** [100 * (1 - tool.get("distance", 0)) if "distance" in tool else 100] *)
Definition match_score (tool : Tool) : Q :=
  match t_distance tool with
  | Some d => 100 * (1 - d)
  | None => 100
  end.

Definition attach_tool (http_session : bool) (tool : Tool)
    (response : HttpOutcome) : AttachResult :=
  let tool_name := Py.get_default (t_name tool) "Unknown" in
  let tool_id := tool_id_or_id tool in
  if negb http_session then
    mkAttachResult false tool_id (Some tool_name) None
      (Some "HTTP session not available")
  else if negb (Py.truthy tool_id) then
    mkAttachResult false None (Some tool_name) None
      (Some "No tool ID available")
  else
    match response with
    | HttpStatus code _ | HttpUnparsable code _ =>
        (* the body is not read *)
        if code =? 200 then
          mkAttachResult true tool_id (t_name tool)
            (Some (match_score tool)) None
        else mkAttachResult false tool_id (t_name tool) None None
    | HttpTimeout | HttpException _ =>
        mkAttachResult false tool_id (t_name tool) None None
    end.

(** The requests an [attach_tool] coroutine puts on the wire. *)
Definition attach_tool_events (http_session : bool) (tool : Tool)
    : list Event :=
  match tool_id_or_id tool with
  | Some tool_id =>
      if http_session && Py.truthy (Some tool_id)
      then [EvAttachRequest tool_id; EvAttachReturn tool_id] else []
  | None => []
  end.

(** An entry of [tools_to_detach]: [{"id", "tool_id", "name"}]. *)
Record ToolRef := mkToolRef { tr_tool_id : string; tr_name : string }.

Inductive FailedAttachment :=
| FailedResult (tool_id : option string) (name : string) (error : string)
| FailedCandidate (tool : Tool).

Record ProcessResult := mkProcessResult {
  detached_tools : list string;
  failed_detachments : list (option string);
  successful_attachments : list AttachResult;
  failed_attachments : list FailedAttachment;
  pr_error : option string
}.

Record Env := mkEnv {
  http_session : bool;
  (** [GET /agents/{id}]: the agent's name, [None] when it raises *)
  agent_info : string → option string;
  (** [GET /agents/{id}/tools], [None] when it raises *)
  agent_tools : string → option (list Tool);
  (** [weaviate_client and weaviate_client.is_ready()] *)
  weaviate_ready : bool;
  (** the same after [init_weaviate_client()] *)
  weaviate_ready_after_reinit : bool;
  hybrid : Search.Hybrid;
  (** [read_tool_cache()] *)
  tool_cache : list Tool;
  (** [POST /tools/mcp/servers/{server}/{tool}], [None] when it raises *)
  register_response : string → string → option Tool;
  (** answers to the [i]-th request of the detach and attach batches *)
  detach_response : nat → HttpOutcome;
  attach_response : nat → HttpOutcome;
  (** [DEFAULT_DROP_RATE] *)
  default_drop_rate : Float.float;
  (** the platform and the store as the chained pruning finds them *)
  prune_env : Prune.Env
}.

(** [keep_tool_ids] of [process_tools] *)
Definition keep_tool_id_set (keep_tools : list string)
    (matching_tools : list Tool) : gset string :=
  list_to_set (filter (λ tool_id, Py.truthy (Some tool_id) = true) keep_tools)
  ∪ list_to_set
      (omap (λ tool, let tool_id := id_or_tool_id tool in
                     if Py.truthy tool_id then tool_id else None)
            matching_tools).

Definition tools_to_detach (mcp_tools : list Tool) (keep : gset string)
    : list ToolRef :=
  omap (λ tool,
          match tool_id_or_id tool with
          | Some tool_id =>
              if Py.truthy (Some tool_id) && bool_decide (tool_id ∉ keep)
              then Some (mkToolRef tool_id
                           (Py.get_default (t_name tool) "Unknown"))
              else None
          | None => None
          end) mcp_tools.

(** The loop that turns exceptions of the detach batch into results. *)
Definition processed_detach_result (tool_id_for_error : string)
    (result : Py.TaskResult DetachResult) : DetachResult :=
  match result with
  | Py.Raised msg => mkDetachResult false tool_id_for_error (Some msg) None
  | Py.Returned r => r
  end.

(** One round of the loop over [attach_results]. *)
Definition record_attach (tool_info : Tool)
    (result : Py.TaskResult AttachResult)
    : AttachResult + FailedAttachment :=
  let tool_id_for_error := tool_id_or_id tool_info in
  let tool_name_for_error := Py.get_default (t_name tool_info) "Unknown" in
  match result with
  | Py.Raised msg =>
      inr (FailedResult tool_id_for_error tool_name_for_error msg)
  | Py.Returned r =>
      if ar_success r then inl r
      else inr (FailedResult tool_id_for_error tool_name_for_error
                  (default "Unknown attachment failure" (ar_error r)))
  end.

(** The detach batch: one [detach_tool] per entry, by position. *)
Definition detach_gather (http_session : bool)
    (response : nat → HttpOutcome) (tools : list ToolRef)
    : list (Py.TaskResult DetachResult) :=
  imap (λ i tool,
          Py.Returned (detach_tool http_session (tr_tool_id tool)
                                   (response i))) tools.

Definition detach_results (tools : list ToolRef)
    (gathered : list (Py.TaskResult DetachResult)) : list DetachResult :=
  zip_with (λ tool r, processed_detach_result (tr_tool_id tool) r)
           tools gathered.

(** The attach batch: one [attach_tool] per matching tool, by position. *)
Definition attach_gather (http_session : bool)
    (response : nat → HttpOutcome) (matching_tools : list Tool)
    : list (Py.TaskResult AttachResult) :=
  imap (λ i tool, Py.Returned (attach_tool http_session tool (response i)))
       matching_tools.

Definition attach_outcomes (matching_tools : list Tool)
    (gathered : list (Py.TaskResult AttachResult))
    : list (AttachResult + FailedAttachment) :=
  zip_with record_attach matching_tools gathered.

(** [register_tool] *)
Definition register_tool (env : Env) (tool_name server_name : string)
    : Py.TaskResult (option Tool) :=
  if negb (http_session env) then Py.Raised "HTTP session not available"
  else
    match register_response env server_name tool_name with
    | None => Py.Raised "registration request failed"
    | Some registered_tool =>
        let i := t_id registered_tool in
        let ti := t_tool_id registered_tool in
        if Py.truthy i || Py.truthy ti then
          Py.Returned
            (Some (if Py.truthy i && negb (Py.truthy ti)
                   then set_tool_id i registered_tool
                   else if Py.truthy ti && negb (Py.truthy i)
                        then set_id ti registered_tool
                        else registered_tool))
        else Py.Returned None
    end.

(** [process_matching_tool]: the descriptor to attach for one search hit,
    looked up by name in the catalog cache, registered on a miss. *)
Definition process_matching_tool (env : Env) (tool : Tool)
    (letta_tools_cache : list Tool) : option Tool * list Event :=
  match t_name tool with
  | None => (None, [])
  | Some tool_name =>
      if negb (Py.truthy (Some tool_name)) then (None, [])
      else
        let existing_tool :=
          List.find (λ t, bool_decide (t_name t = Some tool_name))
                    letta_tools_cache in
        let registration :=
          match t_mcp_server_name tool with
          | Some originating_server =>
              if Py.truthy (Some originating_server) then
                (match register_tool env tool_name originating_server with
                 | Py.Returned (Some registered_tool) => Some registered_tool
                 | Py.Returned None | Py.Raised _ => None
                 end,
                 if http_session env
                 then [EvRegister originating_server tool_name] else [])
              else (None, [])
          | None => (None, [])
          end in
        match existing_tool with
        | Some existing =>
            let tool_id := id_or_tool_id existing in
            if Py.truthy tool_id then (Some (set_ids tool_id existing), [])
            else registration
        | None => registration
        end
  end.

(** Step 2 of [attach_tools]: the agent's MCP tools, one per id. *)
Fixpoint unique_mcp_tools (tools : list Tool) (seen_tool_ids : gset string)
    : list Tool :=
  match tools with
  | [] => []
  | tool :: rest =>
      if is_external_mcp tool then
        match id_or_tool_id tool with
        | Some tool_id =>
            if Py.truthy (Some tool_id)
               && bool_decide (tool_id ∉ seen_tool_ids)
            then set_ids (Some tool_id) tool
                 :: unique_mcp_tools rest ({[tool_id]} ∪ seen_tool_ids)
            else unique_mcp_tools rest seen_tool_ids
        | None => unique_mcp_tools rest seen_tool_ids
        end
      else unique_mcp_tools rest seen_tool_ids
  end.

(** The JSON body of [POST /api/v1/tools/attach]; [None]: key absent. *)
Record Request := mkRequest {
  rq_query : option string;
  rq_limit : option nat;
  rq_agent_id : option string;
  rq_keep_tools : option (list string)
}.

Record Details := mkDetails {
  d_detached_tools : list string;
  d_failed_detachments : list (option string);
  d_processed_count : nat;
  d_passed_filter_count : nat;
  d_success_count : nat;
  d_failure_count : nat;
  d_successful_attachments : list AttachResult;
  d_failed_attachments : list FailedAttachment;
  d_preserved_tools : list string;
  d_target_agent : string
}.

Inductive Response :=
| BadRequest (error : string)                    (* 400 *)
| EngineUnavailable (error : string)             (* 500, {"error"} *)
| ServerError (error : string)                   (* 500, success: False *)
| Success (details : Details).                   (* 200, success: True *)

Definition status_code (r : Response) : nat :=
  match r with
  | BadRequest _ => 400
  | EngineUnavailable _ | ServerError _ => 500
  | Success _ => 200
  end.

(** ["success"] of the response body, when the body has the key. *)
Definition success_field (r : Response) : option bool :=
  match r with
  | BadRequest _ | EngineUnavailable _ => None
  | ServerError _ => Some false
  | Success _ => Some true
  end.

(** What one call did: the response, the result of the chained pruning
    when it was invoked, and the requests in the order they happened. *)
Record Run := mkRun {
  response : Response;
  pruning : option Prune.Response;
  trace : list Event
}.

Section Engine.
Variable set_iter : gset string → list string.
Variable schedule : list Event → list Event.

Definition process_tools (env : Env) (mcp_tools matching_tools : list Tool)
    (keep_tools : list string) : ProcessResult * list Event :=
  let keep_tool_ids := keep_tool_id_set keep_tools matching_tools in
  if negb (http_session env) then
    (mkProcessResult [] (tool_id_or_id <$> mcp_tools) []
       (FailedCandidate <$> matching_tools)
       (Some "HTTP session not available"), [])
  else
    let to_detach := tools_to_detach mcp_tools keep_tool_ids in
    let det :=
      detach_results to_detach
        (detach_gather (http_session env) (detach_response env) to_detach) in
    let detached := dr_tool_id <$> filter (λ r, dr_success r = true) det in
    let failed_detach :=
      (λ r, Some (dr_tool_id r)) <$> filter (λ r, dr_success r = false) det in
    let att :=
      attach_outcomes matching_tools
        (attach_gather (http_session env) (attach_response env)
                       matching_tools) in
    (mkProcessResult detached failed_detach (Prune.lefts att)
       (Prune.rights att) None,
     schedule (to_detach ≫=
                 (λ t, detach_tool_events (http_session env) (tr_tool_id t)))
     ++ schedule (matching_tools ≫= attach_tool_events (http_session env))).

(** The inner [try] block of [attach_tools]: steps 1 to 6. *)
Definition manage_tools (env : Env) (agent_id query : string) (limit : nat)
    (keep_tools : list string) : Run :=
  if negb (http_session env) then
    mkRun (ServerError "HTTP session not available") None []
  else
    match agent_info env agent_id, agent_tools env agent_id with
    | Some agent_name, Some current_agent_tools =>
        let mcp_tools := unique_mcp_tools current_agent_tools ∅ in
        if negb (weaviate_ready env || weaviate_ready_after_reinit env) then
          mkRun (EngineUnavailable
                   "Weaviate client not available after re-attempt")
                None [EvFetchAgent]
        else
          let matching_tools_from_search :=
            Search.search_tools (hybrid env) query limit in
          let processed :=
            (λ tool, process_matching_tool env tool (tool_cache env))
              <$> matching_tools_from_search in
          let processed_tools := omap fst processed in
          let results :=
            process_tools env mcp_tools processed_tools keep_tools in
          let before_pruning :=
            [EvFetchAgent; EvSearch query limit]
            ++ (processed ≫= snd) ++ results.2 in
          let details :=
            mkDetails (detached_tools results.1)
              (failed_detachments results.1)
              (length matching_tools_from_search)
              (length processed_tools)
              (length (successful_attachments results.1))
              (length (failed_attachments results.1))
              (successful_attachments results.1)
              (failed_attachments results.1)
              keep_tools agent_id in
          if Py.truthy (Some query)
             && negb (bool_decide (successful_attachments results.1 = []))
          then
            let successful_attachment_ids :=
              omap ar_tool_id (successful_attachments results.1) in
            let pruned :=
              Prune._perform_tool_pruning set_iter schedule
                (prune_env env) agent_id query
                (default_drop_rate env) keep_tools
                successful_attachment_ids in
            mkRun (Success details) (Some pruned.1)
                  (before_pruning ++ EvPruneBegin :: pruned.2)
          else mkRun (Success details) None before_pruning
    | _, _ =>
        mkRun (ServerError "fetching the agent failed") None [EvFetchAgent]
    end.

(** [if not data]: no body, or an empty JSON object. *)
Definition no_body (data : option Request) : bool :=
  match data with
  | None => true
  | Some (mkRequest None None None None) => true
  | Some _ => false
  end.

Definition attach_tools (env : Env) (data : option Request) : Run :=
  match data with
  | None => mkRun (BadRequest "Request body must be JSON") None []
  | Some body =>
      if no_body data then
        mkRun (BadRequest "Request body must be JSON") None []
      else
        let query := default "" (rq_query body) in
        let limit := default 10 (rq_limit body) in
        let keep_tools := default [] (rq_keep_tools body) in
        match rq_agent_id body with
        | None => mkRun (BadRequest "agent_id is required") None []
        | Some agent_id =>
            if negb (Py.truthy (Some agent_id)) then
              mkRun (BadRequest "agent_id is required") None []
            else manage_tools env agent_id query limit keep_tools
        end
  end.

End Engine.

(** What the specification says of a call with an empty query: it
    succeeds, attaches nothing and does not prune. *)
Definition empty_query_claim (set_iter : gset string → list string)
    (schedule : list Event → list Event) (env : Env) (body : Request)
    : Prop :=
  default "" (rq_query body) = "" →
  let run := attach_tools set_iter schedule env (Some body) in
  pruning run = None
  ∧ ∃ details, response run = Success details ∧ d_success_count details = 0.

(** What the specification says of [match_score]: it is computed from
    the distance of the search candidate the attachment comes from. *)
Definition expected_match_score (candidate : Tool) : Q :=
  match t_distance candidate with
  | Some distance => 100 * (1 - distance)
  | None => 100
  end.

End Attach.

(** ** [fetch_all_tools_async] (fetch_all_tools.py) and [sync_tools]
       (sync_service.py) *)

Module Sync.

(** A string-valued key of a JSON object: the key is not there, it is
    there with the value [null], or it holds a string. *)
Inductive Field :=
| NoKey
| Null
| Str (s : string).

(** [d.get(key)] *)
Definition get (f : Field) : option string :=
  match f with
  | Str s => Some s
  | NoKey | Null => None
  end.

(** [key in d] *)
Definition present (f : Field) : bool :=
  match f with
  | NoKey => false
  | Null | Str _ => true
  end.

(** [d[key] = v] for a value [v] that is a string or [None] *)
Definition of_value (v : option string) : Field :=
  match v with
  | Some s => Str s
  | None => Null
  end.

(** [d.get(key, dflt)]: the default stands in for a missing key only. *)
Definition get_or (f : Field) (dflt : string) : option string :=
  match f with
  | NoKey => Some dflt
  | Null => None
  | Str s => Some s
  end.

(** A tool descriptor as the platform and the MCP servers send it. *)
Record Descriptor := mkDescriptor {
  d_id : Field;              (* "id" *)
  d_tool_id : Field;         (* "tool_id" *)
  d_name : Field;            (* "name" *)
  d_tool_type : Field;       (* "tool_type" *)
  d_mcp_server_name : Field; (* "mcp_server_name" *)
  d_source_type : Field      (* "source_type" *)
}.

Definition with_id (v : Field) (t : Descriptor) : Descriptor :=
  mkDescriptor v (d_tool_id t) (d_name t) (d_tool_type t)
               (d_mcp_server_name t) (d_source_type t).

Definition with_tool_type (v : Field) (t : Descriptor) : Descriptor :=
  mkDescriptor (d_id t) (d_tool_id t) (d_name t) v
               (d_mcp_server_name t) (d_source_type t).

Definition with_mcp_server_name (v : Field) (t : Descriptor) : Descriptor :=
  mkDescriptor (d_id t) (d_tool_id t) (d_name t) (d_tool_type t) v
               (d_source_type t).

Definition with_source_type (v : Field) (t : Descriptor) : Descriptor :=
  mkDescriptor (d_id t) (d_tool_id t) (d_name t) (d_tool_type t)
               (d_mcp_server_name t) v.

(** A key of [tools_by_name]: the value under ["name"], a string or
    [None]. *)
Definition Key := option string.

(** [tool['name']] when ['name' in tool] *)
Definition name_key (t : Descriptor) : option Key :=
  match d_name t with
  | NoKey => None
  | Null => Some None
  | Str n => Some (Some n)
  end.

(** A Python [dict] from tool names to descriptors, in insertion order. *)
Definition Dict := list (Key * Descriptor).

(** [d[k] = v]: overwrite in place, or append. *)
Fixpoint dict_set (k : Key) (v : Descriptor) (d : Dict) : Dict :=
  match d with
  | [] => [(k, v)]
  | (k', v') :: rest =>
      if bool_decide (k = k') then (k, v) :: rest
      else (k', v') :: dict_set k v rest
  end.

Definition dict_get (k : Key) (d : Dict) : option Descriptor :=
  snd <$> List.find (λ kv, bool_decide (kv.1 = k)) d.

(** An entry of [tools_to_register]: [(server_name, name, tool_data)]. *)
Definition Pending := (string * Key * Descriptor)%type.

Inductive WriteOutcome :=
| WriteOk
| OpenFails      (* the file could not be opened: it keeps its content *)
| WriteFails.    (* the write broke off after the file was truncated *)

Record Env := mkEnv {
  (** [LETTA_PASSWORD] is set *)
  letta_password : bool;
  (** [OPENAI_API_KEY], [LETTA_API_URL] and [LETTA_PASSWORD] are set *)
  required_vars : bool;
  (** [GET /tools], all pages, a list of objects; [None] when building
      the map of the main tools raises *)
  main_tools : option (list Descriptor);
  (** keys of the object [GET /tools/mcp/servers] returns, [None] when
      the request raises *)
  mcp_servers : option (list string);
  (** [GET /tools/mcp/servers/{server}/tools], [None] when it raises *)
  server_tools : string → option (list Descriptor);
  (** body of a 200 answer to [POST /tools/mcp/servers/{server}/{tool}],
      [None] for every other status, a timeout or an exception *)
  register_response : string → Key → option Descriptor;
  cache_write : WriteOutcome;
  (** one of the steps of [sync_tools] that follow the cache write (the
      connection to the Vector Store, its schema) raises *)
  later_step_raises : bool
}.

(** [{tool['name']: tool for tool in letta_tools if 'name' in tool}] *)
Definition by_name (letta_tools : list Descriptor) : Dict :=
  foldl (λ d tool,
           match name_key tool with
           | Some n => dict_set n tool d
           | None => d
           end) [] letta_tools.

(** Body of the loop over the tools one MCP server lists. *)
Definition process_mcp_tool (server_name : string)
    (st : Dict * list Pending) (tool_data : Descriptor)
    : Dict * list Pending :=
  let '(tools_by_name, tools_to_register) := st in
  match name_key tool_data with
  | None => st
  | Some name =>
      let tagged := with_mcp_server_name (Str server_name) tool_data in
      let tagged :=
        if present (d_tool_type tagged) then tagged
        else with_tool_type (Str external_mcp) tagged in
      match dict_get name tools_by_name with
      | None =>
          (tools_by_name, tools_to_register ++ [(server_name, name, tagged)])
      | Some existing =>
          if present (d_mcp_server_name existing) then st
          else
            (dict_set name
               (with_mcp_server_name (Str server_name) existing)
               tools_by_name,
             tools_to_register)
      end
  end.

Definition process_server (env : Env) (st : Dict * list Pending)
    (server_name : string) : Dict * list Pending :=
  match server_tools env server_name with
  | None => st
  | Some mcp_tools_list => foldl (process_mcp_tool server_name) st mcp_tools_list
  end.

(** [register_tool_async] *)
Definition register_tool_async (env : Env) (p : Pending)
    : option Descriptor :=
  let '(server_name, tool_name, _) := p in
  match register_response env server_name tool_name with
  | Some registered_tool =>
      if present (d_id registered_tool) && present (d_name registered_tool)
      then Some registered_tool
      else None
  | None => None
  end.

(** Body of the loop over [registration_results]. *)
Definition apply_registration (tools_to_register : list Pending)
    (tools_by_name : Dict) (result : option Descriptor) : Dict :=
  match result with
  | Some r =>
      match name_key r with
      | Some registered_tool_name =>
          match List.find (λ e : Pending,
                             bool_decide (e.1.2 = registered_tool_name))
                          tools_to_register with
          | Some (_, _, original_tool_data) =>
              dict_set registered_tool_name
                (with_id (of_value (Py.or_ (get (d_id r)) (get (d_tool_id r))))
                         original_tool_data)
                tools_by_name
          | None => dict_set registered_tool_name r tools_by_name
          end
      | None => tools_by_name
      end
  | None => tools_by_name
  end.

(** Body of the loop that keeps the tools whose registration failed. *)
Definition add_unregistered (tools_by_name : Dict) (p : Pending) : Dict :=
  let '(s_name, t_name', t_data) := p in
  match dict_get t_name' tools_by_name with
  | Some _ => tools_by_name
  | None =>
      let t_data :=
        with_source_type (of_value (get_or (d_source_type t_data) "python"))
                         t_data in
      let t_data :=
        with_tool_type (of_value (get_or (d_tool_type t_data) external_mcp))
                       t_data in
      dict_set t_name' (with_mcp_server_name (Str s_name) t_data)
               tools_by_name
  end.

(** The obsolescence filter: [true] when the tool stays in the map. *)
Definition keeps (active_server_names : gset string) (tool_data : Descriptor)
    : bool :=
  if bool_decide (get (d_tool_type tool_data) = Some external_mcp) then
    match get (d_mcp_server_name tool_data) with
    | Some server_origin =>
        Py.truthy (Some server_origin)
        && bool_decide (server_origin ∈ active_server_names)
    | None => false
    end
  else true.

Definition filtered_tools_by_name (active_server_names : gset string)
    (tools_by_name : Dict) : Dict :=
  filter (λ kv, keeps active_server_names kv.2 = true) tools_by_name.

(** [set(mcp_servers.keys())]; [mcp_servers] stays [{}] when the fetch
    raises. *)
Definition active_server_names (env : Env) : gset string :=
  list_to_set (default [] (mcp_servers env)).

(** The map before the filter: main tools, tools found on MCP servers,
    registrations. *)
Definition collected (env : Env) : Dict :=
  let tools_by_name := by_name (default [] (main_tools env)) in
  let servers := default [] (mcp_servers env) in
  let '(tools_by_name, tools_to_register) :=
    foldl (process_server env) (tools_by_name, []) servers in
  let registration_results := register_tool_async env <$> tools_to_register in
  let tools_by_name :=
    foldl (apply_registration tools_to_register) tools_by_name
          registration_results in
  foldl add_unregistered tools_by_name tools_to_register.

Definition is_null (f : Field) : bool :=
  match f with
  | Null => true
  | NoKey | Str _ => false
  end.

(** [sorted(values)] over a set of strings and [None]: comparing [None]
    with a string raises TypeError. A missing key reads as the string
    [''] there. *)
Definition sorted_raises (values : list Field) : bool :=
  existsb is_null values && existsb (λ f, negb (is_null f)) values.

(** [categorize_tools] only prints, but it raises TypeError on a name
    that is [None] (["__" in name]) and when it sorts source types or
    tool types among which [None] stands next to a string. *)
Definition categorize_tools_raises (tools : list Descriptor) : bool :=
  existsb (λ tool, is_null (d_name tool)) tools
  || sorted_raises (d_source_type <$> tools)
  || sorted_raises (d_tool_type <$> tools).

(** [fetch_all_tools_async]: the list returned, [None] when the call
    raises. *)
Definition fetch_all_tools_async (env : Env) : option (list Descriptor) :=
  if negb (letta_password env) then Some []
  else
    let all_tools_with_origin :=
      snd <$> filtered_tools_by_name (active_server_names env)
                                     (collected env) in
    if categorize_tools_raises all_tools_with_origin then None
    else Some all_tools_with_origin.

(** The tool catalog cache file. *)
Inductive CacheFile :=
| Absent
| Holds (tools : list Descriptor)
| Torn.

(** [write_tool_cache]: errors are logged, not raised. *)
Definition write_tool_cache (env : Env) (tools_data : list Descriptor)
    (file : CacheFile) : CacheFile :=
  match cache_write env with
  | WriteOk => Holds tools_data
  | OpenFails => file
  | WriteFails => Torn
  end.

(** How one call of [sync_tools] ends. *)
Inductive Cycle :=
| Aborted     (* an early [return]: variables missing, nothing fetched *)
| Failed      (* an exception reached the outer [except] *)
| Finished.   (* the body ran to its end *)

(** One cycle of [sync_tools]: how it ends, and the cache file after
    it. *)
Definition sync_tools (env : Env) (file : CacheFile) : Cycle * CacheFile :=
  if negb (required_vars env) then (Aborted, file)
  else
    match fetch_all_tools_async env with
    | None => (Failed, file)
    | Some [] => (Aborted, file)
    | Some letta_tools =>
        (if later_step_raises env then Failed else Finished,
         write_tool_cache env letta_tools file)
    end.

(** A descriptor the cache must not hold: an [external_mcp] tool whose
    server name is missing or not among the active servers. *)
Definition obsolete (active : gset string) (tool : Descriptor) : Prop :=
  get (d_tool_type tool) = Some external_mcp ∧
  match get (d_mcp_server_name tool) with
  | None => True
  | Some server => server ∉ active
  end.

(** What the specification says of a cycle that completes: the cache
    holds no obsolete descriptor. *)
Definition obsolescence_claim (env : Env) (file : CacheFile) : Prop :=
  (sync_tools env file).1 = Finished →
  ∀ tools tool,
    (sync_tools env file).2 = Holds tools → tool ∈ tools →
    ¬ obsolete (active_server_names env) tool.

End Sync.

(** ** Cache files: [write_tool_cache], [write_mcp_servers_cache]
       (sync_service.py) and their readers *)

Module Cache.

Definition TOOL_CACHE_FILE_PATH : string :=
  "/app/runtime_cache/tool_cache.json".
Definition MCP_SERVERS_CACHE_FILE_PATH : string :=
  "/app/runtime_cache/mcp_servers_cache.json".

(** The cache directory: path to content. *)
Definition FileSystem := gmap string string.

(** What [aiofiles.open(path, mode='w')] followed by [f.write(text)] does
    to the file, one system call at a time: opening for writing truncates
    the file, then the text reaches it in pieces as the buffer is
    flushed. *)
Inductive Step :=
| Truncate
| Append (chunk : string).

Definition step (path : string) (st : Step) (fs : gmap string string)
    : gmap string string :=
  match st with
  | Truncate => <[path := ""]> fs
  | Append chunk => <[path := default "" (fs !! path) +:+ chunk]> fs
  end.

(** [write_cache path chunks]: the steps of writing the text
    [concat chunks] to [path]. The tool cache and the MCP-server cache
    are written by the same code at different paths. *)
Definition write_cache (chunks : list string) : list Step :=
  Truncate :: (Append <$> chunks).

Definition text (chunks : list string) : string :=
  foldr String.append "" chunks.

Definition write_tool_cache := write_cache.
Definition write_mcp_servers_cache := write_cache.

(** One reader's [f.read()] of the whole file. *)
Definition read (path : string) (fs : gmap string string) : option string :=
  fs !! path.

(** A run of one writer against readers: at each tick the writer takes
    its next step or a reader reads. *)
Inductive Tick := WriterStep | ReaderRead.

Fixpoint run (path : string) (pending : list Step) (ticks : list Tick)
    (fs : gmap string string) : list (option string) :=
  match ticks with
  | [] => []
  | ReaderRead :: ticks' => read path fs :: run path pending ticks' fs
  | WriterStep :: ticks' =>
      match pending with
      | [] => run path [] ticks' fs
      | st :: pending' => run path pending' ticks' (step path st fs)
      end
  end.

(** The writer's remaining steps and the file system after the ticks. *)
Fixpoint after (path : string) (pending : list Step) (ticks : list Tick)
    (fs : gmap string string) : list Step * gmap string string :=
  match ticks with
  | [] => (pending, fs)
  | ReaderRead :: ticks' => after path pending ticks' fs
  | WriterStep :: ticks' =>
      match pending with
      | [] => after path [] ticks' fs
      | st :: pending' => after path pending' ticks' (step path st fs)
      end
  end.

(** [p] is an initial part of [s]. *)
Definition initial_part (p s : string) : Prop := ∃ rest, p +:+ rest = s.

(** Atomic replacement as the specification words it: whatever the
    interleaving, a reader sees the old content or the new one. *)
Definition atomic_for_readers (path : string) (chunks : list string)
    (fs : gmap string string) : Prop :=
  ∀ ticks observed,
    observed ∈ run path (write_cache chunks) ticks fs →
    observed = fs !! path ∨ observed = Some (text chunks).

End Cache.

(** ** [health_check] (api_server.py) *)

Module Health.

(** What a method of the Weaviate client does when called. *)
Inductive Call :=
| Answers (b : bool)
| AttributeError
| Throws (msg : string).

Record Client := mkClient { is_connected : Call; is_ready : Call }.

(** The MCP-server cache file as the check finds it. *)
Inductive McpFile :=
| NotFound
| Unreadable (error : string)      (* open, read or json.loads raises *)
| Readable (size : nat).

Record State := mkState {
  weaviate_client : option Client;
  _tool_cache : option (list Tool);
  tool_cache_file_exists : bool;
  mcp_servers_cache_file : McpFile
}.

Definition weaviate_ok (s : State) : bool :=
  match weaviate_client s with
  | None => false
  | Some c =>
      match is_connected c with
      | Answers true =>
          match is_ready c with
          | Answers true => true
          | _ => false
          end
      | _ => false
      end
  end.

Definition tool_cache_in_memory_status (s : State) : string :=
  match _tool_cache s with
  | Some _ => "OK"
  | None =>
      if negb (tool_cache_file_exists s)
      then "Error: File not found and not loaded"
      else "Error: File exists but not loaded in memory"
  end.

Definition mcp_servers_cache_file_status (s : State) : string :=
  match mcp_servers_cache_file s with
  | Readable _ => "OK"
  | NotFound => "Error: File not found"
  | Unreadable e => "Error reading file: " +:+ e
  end.

Definition overall_status_string (s : State) : string :=
  let is_fully_healthy :=
    weaviate_ok s
    && bool_decide (tool_cache_in_memory_status s = "OK")
    && bool_decide (mcp_servers_cache_file_status s = "OK") in
  if is_fully_healthy then "OK"
  else if weaviate_ok s then "DEGRADED"
  else "ERROR".

(** [(response_payload["status"], HTTP status code)] *)
Definition health_check (s : State) : string * nat :=
  (overall_status_string s,
   if bool_decide (overall_status_string s = "OK") then 200 else 503).

(** The three checks of the specification. *)
Definition vector_store_passes (s : State) : bool := weaviate_ok s.
Definition tool_cache_passes (s : State) : bool :=
  bool_decide (tool_cache_in_memory_status s = "OK").
Definition mcp_cache_passes (s : State) : bool :=
  bool_decide (mcp_servers_cache_file_status s = "OK").

(** The status as the specification words it: OK when all three checks
    pass, DEGRADED when the Vector Store check is the only one that
    passes, ERROR otherwise. *)
Definition spec_status (vector_store tool_cache mcp_cache : bool) : string :=
  if vector_store && tool_cache && mcp_cache then "OK"
  else if vector_store && negb tool_cache && negb mcp_cache then "DEGRADED"
  else "ERROR".

Definition spec_claim (s : State) : Prop :=
  (health_check s).1
  = spec_status (vector_store_passes s) (tool_cache_passes s)
                (mcp_cache_passes s)
  ∧ ((health_check s).2 = 200 ↔ (health_check s).1 = "OK")
  ∧ ((health_check s).2 = 503 ↔ (health_check s).1 ≠ "OK").

(** Weaviate is up, the tool cache is loaded, the MCP-server cache file
    is missing. *)
Definition mcp_file_missing : State :=
  mkState (Some (mkClient (Answers true) (Answers true))) (Some []) true
          NotFound.

End Health.

Module SyncScenario.
Import Sync.

Definition named (name : string) : Descriptor :=
  mkDescriptor NoKey NoKey (Str name) NoKey NoKey NoKey.

(** The tool of a server that is no longer listed. *)
Definition old_tool : Descriptor :=
  mkDescriptor (Str "t-old") NoKey (Str "old_tool") (Str external_mcp)
               (Str "gone") NoKey.

(** The platform lists a core tool, a tool of the server ["gone"], which
    is no longer listed, and a tool of the listed server ["chat"]; that
    server also offers a tool the platform does not know yet. *)
Definition platform_tools : list Descriptor :=
  [ mkDescriptor (Str "c1") NoKey (Str "core_memory_append")
                 (Str "letta_core") NoKey NoKey;
    old_tool;
    mkDescriptor (Str "t-chat") NoKey (Str "send_message")
                 (Str external_mcp) NoKey NoKey ].

Definition chat_tools : list Descriptor :=
  [ named "send_message"; named "read_channel" ].

Definition env_writing (cache_write : WriteOutcome) : Env :=
  mkEnv true true (Some platform_tools) (Some ["chat"])
    (λ server, if bool_decide (server = "chat") then Some chat_tools else None)
    (λ server tool,
       Some (mkDescriptor (Str "t-new") NoKey (of_value tool)
                          (Str external_mcp) NoKey NoKey))
    cache_write false.

Definition env : Env := env_writing WriteOk.

(** The same platform when the cache file cannot be opened for
    writing. *)
Definition env_read_only : Env := env_writing OpenFails.

(** The cache a cycle left when the server ["gone"] was still listed. *)
Definition stale_cache : CacheFile := Holds [old_tool].

(** The platform sends the source type of one tool as [null]. *)
Definition env_null_source_type : Env :=
  mkEnv true true
    (Some [ mkDescriptor (Str "c1") NoKey (Str "core_memory_append")
                         (Str "letta_core") NoKey (Str "python");
            mkDescriptor (Str "c2") NoKey (Str "send_message")
                         (Str "letta_core") NoKey Null ])
    (Some []) (λ _, None) (λ _ _, None) WriteOk false.

End SyncScenario.

(** ** Scenarios used as test inputs *)

Module Scenario.

Definition mcp_tool (i : string) : Tool :=
  mkTool (Some i) None (Some i) (Some external_mcp) (Some "srv") None None.

Definition core_tool (i : string) : Tool :=
  mkTool (Some i) None (Some i) (Some "letta_core") None None None.

Definition hit (t : Tool) (score : Q) : Search.Hit :=
  Search.mkHit t (Some (Some score)).

(** An agent with one core tool and three MCP tools. *)
Definition small_agent : list Tool :=
  [core_tool "c1"; mcp_tool "t1"; mcp_tool "t2"; mcp_tool "t3"].

(** An agent with one core tool and ten MCP tools. *)
Definition agent10 : list Tool :=
  core_tool "c1"
  :: (mcp_tool <$> ["t1"; "t2"; "t3"; "t4"; "t5"; "t6"; "t7"; "t8"; "t9"; "t10"]).

(** An agent with one core tool and five MCP tools. *)
Definition agent5 : list Tool :=
  core_tool "c1" :: (mcp_tool <$> ["t1"; "t2"; "t3"; "t4"; "t5"]).

(** The library answers with these tools, best first. *)
Definition library : Search.Hybrid :=
  λ _ _, Some ((λ i, hit (mcp_tool i) (9 # 10))
                 <$> ["x1"; "t2"; "x3"; "x4"; "t5"; "x6"; "t1"; "t9"]).

Definition prune_env (tools : list Tool) : Prune.Env :=
  Prune.mkEnv true (λ _, Some tools) library (λ _, HttpStatus 200 "").

(** The ids ["t1"], ..., ["tn"]. *)
Definition numbered (n : nat) : list string :=
  (λ i, "t" +:+ pretty i) <$> seq 1 n.

(** An agent with one core tool and seventy-one MCP tools. *)
Definition agent71 : list Tool :=
  core_tool "c1" :: (mcp_tool <$> numbered 71).

(** The double [0.1267605633802817]. *)
Definition drop_71 : Float.float := Float.finite 4567030608037686 (-55).

(** The same platform in front of a Vector Store that finds nothing. *)
Definition silent_env (tools : list Tool) : Prune.Env :=
  Prune.mkEnv true (λ _, Some tools) (λ _ _, Some [])
              (λ _, HttpStatus 200 "").

End Scenario.

(** ** Batches of mutations *)

Module Batch.

(** A batch of [n] mutations is a [gather] that starts one coroutine per
    item, fed with the platform's answers by position, followed by a
    loop [collect] over the gathered results. It is well behaved when
    it yields [n] outcomes whatever the answers and whichever coroutines
    raise, and when the outcome of an item does not depend on the answer
    to, or the failure of, another item. *)
Definition well_behaved {R O : Type} (n : nat)
    (gather : (nat → HttpOutcome) → list (Py.TaskResult R))
    (collect : list (Py.TaskResult R) → list O) : Prop :=
  (∀ answers, length (gather answers) = n)
  ∧ (∀ gathered, length gathered = n → length (collect gathered) = n)
  ∧ (∀ answers (j : nat) (answer : HttpOutcome) i,
       i ≠ j → gather (<[j := answer]> answers) !! i = gather answers !! i)
  ∧ (∀ gathered j result i,
       i ≠ j → collect (<[j := result]> gathered) !! i = collect gathered !! i).

(** The platform accepted a detachment: status 200, or 404 for a tool
    that is already detached, with a body that can be read. *)
Definition detach_accepted (answer : HttpOutcome) : Prop :=
  ∃ code body, answer = HttpStatus code body ∧ (code = 200 ∨ code = 404).

(** The platform accepted an attachment: status 200. *)
Definition attach_accepted (answer : HttpOutcome) : Prop :=
  ∃ body, answer = HttpStatus 200 body ∨ answer = HttpUnparsable 200 body.

(** The detach batch of [process_tools]. *)
Definition process_detach_gather (http_session : bool)
    (to_detach : list Attach.ToolRef) (answers : nat → HttpOutcome) :=
  Attach.detach_gather http_session answers to_detach.

(** The attach batch of [process_tools]. *)
Definition process_attach_gather (http_session : bool)
    (matching_tools : list Tool) (answers : nat → HttpOutcome) :=
  Attach.attach_gather http_session answers matching_tools.

(** The detach batch of [_perform_tool_pruning]. *)
Definition prune_detach_gather (env : Prune.Env) (ids : list string)
    (answers : nat → HttpOutcome) :=
  Prune.detach_batch
    (Prune.mkEnv (Prune.http_session env) (Prune.agent_tools env)
                 (Prune.hybrid env) answers) ids.

Definition prune_detach_collect (names : gmap string string)
    (ids : list string) (gathered : list (Py.TaskResult DetachResult)) :=
  zip_with (Prune.record_detach names) ids gathered.

End Batch.

(** ** Reading the trace of an attach call *)

Module Order.

Definition is_detach (e : Event) : Prop :=
  match e with
  | EvDetachRequest _ | EvDetachReturn _ => True
  | _ => False
  end.

Definition is_attach (e : Event) : Prop :=
  match e with
  | EvAttachRequest _ | EvAttachReturn _ => True
  | _ => False
  end.

(** The trace up to the point where the chained pruning begins. *)
Fixpoint until_pruning (trace : list Event) : list Event :=
  match trace with
  | [] => []
  | EvPruneBegin :: _ => []
  | e :: rest => e :: until_pruning rest
  end.


End Order.

Module AttachScenario.

Definition candidate : Tool :=
  mkTool None None (Some "send_message") (Some external_mcp) (Some "chat")
         None None.

(** The catalog cache knows the candidate under the id ["tool-1"]. *)
Definition cached : Tool :=
  mkTool (Some "tool-1") None (Some "send_message") (Some external_mcp)
         (Some "chat") None None.

(** The Vector Store returns the candidate with score 0.75, whatever the
    query. *)
Definition store : Search.Hybrid :=
  λ _ _, Some [Scenario.hit candidate (3 # 4)].

Definition empty_store : Search.Hybrid := λ _ _, Some [].

Definition env (hybrid : Search.Hybrid) : Attach.Env :=
  Attach.mkEnv true (λ _, Some "agent") (λ _, Some Scenario.small_agent)
    true true hybrid [cached] (λ _ _, None)
    (λ _, HttpStatus 200 "") (λ _, HttpStatus 200 "") (Float.ratio 1 10)
    (Scenario.prune_env [Scenario.core_tool "c1"; cached]).

Definition request (query : string) : Attach.Request :=
  Attach.mkRequest (Some query) (Some 3) (Some "agent-1") None.

End AttachScenario.

(** ** [read_tool_cache] (api_server.py): the in-memory mirror *)

Module ToolCache.

(** What the tool cache file holds, as [json.loads] sees it. The file is
    written by [write_tool_cache], which dumps a list of descriptors; a
    write that broke off leaves a text that does not parse. *)
Inductive Content :=
| Unreadable                  (* opening or reading the file raises *)
| Garbled                     (* [json.loads] raises JSONDecodeError *)
| JsonNull                    (* the text [null] *)
| JsonList (tools : list Tool).

Inductive File :=
| Missing
| Present (mtime : Q) (content : Content).

(** The globals [_tool_cache] and [_tool_cache_last_modified]. *)
Record Mirror := mkMirror {
  _tool_cache : option (list Tool);
  _tool_cache_last_modified : Q
}.

(** The mirror when the server starts. *)
Definition initial : Mirror := mkMirror None 0.

(** The mirror after any error. *)
Definition reset : Mirror := mkMirror (Some []) 0.

(** [force_reload or _tool_cache is None
     or current_mtime > _tool_cache_last_modified] *)
Definition must_reload (force_reload : bool) (current_mtime : Q) (m : Mirror)
    : bool :=
  force_reload
  || bool_decide (_tool_cache m = None)
  || negb (Qle_bool current_mtime (_tool_cache_last_modified m)).

(** [read_tool_cache(force_reload)]: the list returned and the mirror left
    behind. *)
Definition read_tool_cache (force_reload : bool) (file : File) (m : Mirror)
    : list Tool * Mirror :=
  match file with
  | Missing => ([], reset)
  | Present current_mtime content =>
      if must_reload force_reload current_mtime m then
        match content with
        | Unreadable | Garbled => ([], reset)
        | JsonNull => ([], mkMirror None current_mtime)
        | JsonList tools => (tools, mkMirror (Some tools) current_mtime)
        end
      else (default [] (_tool_cache m), m)
  end.

(** The in-memory check of [health_check] on a mirror. *)
Definition in_memory_status (m : Mirror) (file_exists : bool) : string :=
  Health.tool_cache_in_memory_status
    (Health.mkState None (_tool_cache m) file_exists Health.NotFound).

End ToolCache.

(** ** Invariants of the map built by [fetch_all_tools_async] *)

Module SyncInv.
Import Sync.

(** A well-formed map: no key twice, each descriptor filed under its own
    name. *)
Definition keyed_by_name (d : Dict) : Prop :=
  NoDup d.*1 ∧ ∀ k v, (k, v) ∈ d → name_key v = Some k.

(** A well-formed registration list: each entry carries the name and the
    server of its descriptor. *)
Definition tagged (pending : list Pending) : Prop :=
  ∀ s n td, (s, n, td) ∈ pending →
            name_key td = Some n ∧ d_mcp_server_name td = Str s.

End SyncInv.

(** * Properties *)

(** ** Pruning *)

Module PruneFacts.
Import Prune.

Lemma truthy_Some_nonempty (v : option string) :
  Py.truthy v = true → ∃ s, v = Some s ∧ s ≠ "".
Proof.
  destruct v as [s|]; simpl; [|done].
  intros H. exists s. split; [done|]. intros ->. done.
Qed.

Lemma categorize_mcp_origin tools t :
  t ∈ (categorize tools).2 →
  ∃ t0 tool_id, t0 ∈ tools ∧ t_tool_type t0 = Some external_mcp ∧
                id_or_tool_id t0 = Some tool_id ∧ t_id t = Some tool_id.
Proof.
  induction tools as [|tool rest IH]; simpl.
  - intros H. by apply elem_of_nil in H.
  - destruct (categorize rest) as [core mcp] eqn:E. simpl in IH.
    destruct (Py.truthy (id_or_tool_id tool)) eqn:Ht; simpl.
    + unfold is_external_mcp; simpl. case_bool_decide as Hty; simpl.
      * intros [->|Hin]%elem_of_cons.
        -- apply truthy_Some_nonempty in Ht as (s & Hs & _).
           exists tool, s. rewrite Hs. simpl. split_and!; try done. by left.
        -- destruct (IH Hin) as (t0 & i & ? & ? & ? & ?).
           exists t0, i. split_and!; try done. by right.
      * intros Hin. destruct (IH Hin) as (t0 & i & ? & ? & ? & ?).
        exists t0, i. split_and!; try done. by right.
    + intros Hin. destruct (IH Hin) as (t0 & i & ? & ? & ? & ?).
      exists t0, i. split_and!; try done. by right.
Qed.

Lemma elem_of_id_set tools x :
  x ∈ id_set tools ↔ ∃ t, t ∈ tools ∧ t_id t = Some x.
Proof.
  unfold id_set. rewrite elem_of_list_to_set, list_elem_of_omap.
  naive_solver.
Qed.

(** An id among the agent's current MCP ids is the id of an
    [external_mcp] tool of the listing. *)
Lemma current_mcp_id_origin tools x :
  x ∈ id_set (categorize tools).2 →
  ∃ t0, t0 ∈ tools ∧ t_tool_type t0 = Some external_mcp ∧
        id_or_tool_id t0 = Some x.
Proof.
  intros (t & Hin & Hid)%elem_of_id_set.
  destruct (categorize_mcp_origin _ _ Hin) as (t0 & i & ? & ? & ? & Hi).
  exists t0. rewrite Hi in Hid. by simplify_eq.
Qed.

Lemma foldl_add_if_on_agent current l acc :
  foldl (add_if_on_agent current) acc l = acc ∪ (list_to_set l ∩ current).
Proof.
  revert acc. induction l as [|x l IH]; intros acc; simpl.
  - set_solver.
  - rewrite IH. unfold add_if_on_agent. case_bool_decide; set_solver.
Qed.

Lemma foldl_add_all (l : list string) (acc : gset string) :
  foldl (λ acc tool_id, {[tool_id]} ∪ acc) acc l = acc ∪ list_to_set l.
Proof.
  revert acc. induction l as [|x l IH]; intros acc; simpl.
  - set_solver.
  - rewrite IH. set_solver.
Qed.

Lemma size_add_le (x : string) (acc : gset string) :
  size ({[x]} ∪ acc) ≤ S (size acc).
Proof.
  rewrite size_union_alt, size_singleton.
  assert (acc ∖ {[x]} ⊆ acc) as Hsub by set_solver.
  apply subseteq_size in Hsub. lia.
Qed.

Lemma prioritize_newly_bound current target l acc :
  size acc ≤ target →
  size (foldl (prioritize_newly current target) acc l) ≤ target.
Proof.
  revert acc. induction l as [|x l IH]; intros acc Hacc; simpl; [done|].
  apply IH. unfold prioritize_newly.
  destruct (bool_decide (x ∈ current)); simpl; [|done].
  destruct (Nat.ltb_spec (size acc) target); [|done].
  pose proof (size_add_le x acc). lia.
Qed.

Lemma prioritize_library_bound keeps target l acc :
  size acc ≤ target →
  size (foldl (prioritize_library keeps target) acc l) ≤ target.
Proof.
  revert acc. induction l as [|[[x n] ty] l IH]; intros acc Hacc; simpl; [done|].
  apply IH.
  destruct (bool_decide (ty = Some external_mcp) && bool_decide (x ∈ keeps)
            && bool_decide (x ∉ acc)); simpl; [|done].
  destruct (Nat.ltb_spec (size acc) target); [|done].
  pose proof (size_add_le x acc). lia.
Qed.

Lemma size_difference_ge (X Y : gset string) :
  size X - size Y ≤ size (X ∖ Y).
Proof.
  rewrite size_difference_alt.
  assert (size (X ∩ Y) ≤ size Y) by (apply subseteq_size; set_solver).
  lia.
Qed.

Section Facts.
Variable set_iter : gset string → list string.
Hypothesis set_iter_perm : ∀ s, set_iter s ≡ₚ elements s.
Variable schedule : list Event → list Event.
Hypothesis schedule_perm : ∀ l, schedule l ≡ₚ l.

Lemma elem_of_set_iter s x : x ∈ set_iter s ↔ x ∈ s.
Proof. rewrite (set_iter_perm s). apply elem_of_elements. Qed.

Lemma list_to_set_set_iter s : list_to_set (set_iter s) = s.
Proof. rewrite (set_iter_perm s). apply list_to_set_elements_L. Qed.

Lemma length_set_iter s : length (set_iter s) = size s.
Proof. by rewrite (set_iter_perm s). Qed.

Lemma must_keep_eq current newly keep :
  must_keep set_iter current newly keep = (keep ∪ newly) ∩ current.
Proof.
  unfold must_keep. rewrite !foldl_add_if_on_agent, !list_to_set_set_iter.
  set_solver.
Qed.

(** In the branch taken when the must-keep set is below the target,
    nothing of the must-keep set is dropped. *)
Lemma final_keeps_must_keep current newly keep info num_keep :
  size (must_keep set_iter current newly keep) < num_keep →
  ∃ final,
    final_mcp_tool_ids_to_keep set_iter current newly keep info num_keep
    = inr final
    ∧ must_keep set_iter current newly keep ⊆ final.
Proof.
  intros Hlt. unfold final_mcp_tool_ids_to_keep.
  destruct (Nat.leb_spec num_keep (size (must_keep set_iter current newly keep)));
    [lia|].
  eexists. split; [reflexivity|].
  unfold filled_keeps. rewrite foldl_add_all. set_solver.
Qed.

(** The aggressive branch keeps at most [target] ids. *)
Lemma aggressive_keeps_bound current newly keeps info target :
  size (aggressive_keeps set_iter current newly keeps info target) ≤ target.
Proof.
  unfold aggressive_keeps.
  destruct (Nat.ltb_spec target (size keeps)); [|done].
  apply prioritize_library_bound, prioritize_newly_bound.
  rewrite size_empty. lia.
Qed.

(** In the aggressive branch at most [aggressive_target] ids are kept. *)
Lemma final_size_aggressive current newly keep info num_keep target :
  num_keep ≤ size (must_keep set_iter current newly keep) →
  aggressive_target (size current) = inr target →
  ∃ final,
    final_mcp_tool_ids_to_keep set_iter current newly keep info num_keep
    = inr final
    ∧ size final ≤ target.
Proof.
  intros Hle Htarget. unfold final_mcp_tool_ids_to_keep.
  destruct (Nat.leb_spec num_keep (size (must_keep set_iter current newly keep)));
    [|lia].
  rewrite Htarget. eexists. split; [reflexivity|].
  apply aggressive_keeps_bound.
Qed.

Lemma detach_requests_batch session ids :
  detach_requests (schedule (ids ≫= detach_tool_events session))
  ≡ₚ if session then ids else [].
Proof.
  unfold detach_requests. rewrite (schedule_perm _).
  induction ids as [|x ids IH]; simpl.
  - by destruct session.
  - destruct session; simpl in *; [by rewrite IH | done].
Qed.

(** The shape of a call that finds MCP tools on the agent and computes
    its targets. *)
Lemma pruning_completed env agent_id user_prompt drop_rate keep newly tools
    num_keep final :
  fetch_agent_tools env agent_id = Some tools →
  0 < size (id_set (categorize tools).2) →
  num_mcp_tools_to_keep (size (id_set (categorize tools).2)) drop_rate
  = inr num_keep →
  final_mcp_tool_ids_to_keep set_iter (id_set (categorize tools).2)
    (list_to_set newly) (list_to_set keep)
    (library_info
       (Search.search_tools (hybrid env) user_prompt (search_limit num_keep))
       ∅) num_keep
  = inr final →
  ∃ details trace,
    _perform_tool_pruning set_iter schedule env agent_id user_prompt
      drop_rate keep newly = (Completed details, trace)
    ∧ final_mcp_tool_ids_kept_on_agent details = set_iter final
    ∧ target_mcp_tools_to_keep_after_pruning details = num_keep
    ∧ mcp_tools_on_agent_before details = size (id_set (categorize tools).2)
    ∧ detach_requests trace
      ≡ₚ set_iter (id_set (categorize tools).2 ∖ final).
Proof.
  intros Hfetch Hpos Hkeep Hfinal.
  unfold _perform_tool_pruning, plan. rewrite Hfetch.
  destruct (categorize tools) as [core mcp] eqn:Hcat. simpl in *.
  destruct (Nat.eqb_spec (size (id_set mcp)) 0) as [Hz|_]; [lia|].
  rewrite Hkeep, Hfinal.
  eexists _, _. split; [reflexivity|]. split_and!; [reflexivity..|].
  simpl. rewrite detach_requests_batch.
  unfold fetch_agent_tools in Hfetch.
  destruct (http_session env); [done|discriminate].
Qed.

(** Whatever the outcome, a detach request names an MCP id of the
    listing that is not kept. *)
Lemma pruning_requests env agent_id user_prompt drop_rate keep newly tool_id :
  tool_id ∈ detach_requests
              (_perform_tool_pruning set_iter schedule env agent_id
                 user_prompt drop_rate keep newly).2 →
  ∃ tools, fetch_agent_tools env agent_id = Some tools
           ∧ tool_id ∈ id_set (categorize tools).2.
Proof.
  intros Hin.
  destruct (fetch_agent_tools env agent_id) as [tools|] eqn:Hfetch.
  - exists tools. split; [done|].
    destruct (decide (0 < size (id_set (categorize tools).2))) as [Hpos|Hz].
    + destruct (num_mcp_tools_to_keep (size (id_set (categorize tools).2))
                  drop_rate) as [e|num_keep] eqn:Hkeep.
      { unfold _perform_tool_pruning in Hin. rewrite Hfetch in Hin.
        destruct (categorize tools) as [core mcp]. simpl in *.
        destruct (Nat.eqb_spec (size (id_set mcp)) 0); [lia|].
        rewrite Hkeep in Hin. simpl in Hin. by apply elem_of_nil in Hin. }
      destruct (final_mcp_tool_ids_to_keep set_iter
                  (id_set (categorize tools).2)
                  (list_to_set newly) (list_to_set keep)
                  (library_info
                     (Search.search_tools (hybrid env) user_prompt
                        (search_limit num_keep)) ∅) num_keep)
        as [e|final] eqn:Hfinal.
      { unfold _perform_tool_pruning, plan in Hin.
        rewrite Hfetch in Hin.
        destruct (categorize tools) as [core mcp]. simpl in *.
        destruct (Nat.eqb_spec (size (id_set mcp)) 0); [lia|].
        rewrite Hkeep, Hfinal in Hin. simpl in Hin.
        by apply elem_of_nil in Hin. }
      destruct (pruning_completed env agent_id user_prompt drop_rate
                  keep newly tools num_keep final Hfetch Hpos Hkeep Hfinal)
        as (details & tr & Hrun & _ & _ & _ & Hreq).
      rewrite Hrun in Hin. simpl in Hin. rewrite Hreq in Hin.
      by apply elem_of_set_iter, elem_of_difference in Hin as [Hcur _].
    + unfold _perform_tool_pruning in Hin. rewrite Hfetch in Hin.
      destruct (categorize tools) as [core mcp]. simpl in Hz.
      destruct (Nat.eqb_spec (size (id_set mcp)) 0); [|lia].
      simpl in Hin. by apply elem_of_nil in Hin.
  - unfold _perform_tool_pruning in Hin. rewrite Hfetch in Hin.
    simpl in Hin. by apply elem_of_nil in Hin.
Qed.

(** C1 — Core invariance. Whatever the call, every detach request that
    [_perform_tool_pruning] sends carries the id of an [external_mcp]
    tool currently attached to the agent; hence, ids being proper to
    one tool, no request carries the id of a tool of another type and
    every core tool attached before the call is still attached. *)
Theorem prune_core_invariance env agent_id user_prompt drop_rate keep newly :
  let trace :=
    (_perform_tool_pruning set_iter schedule env agent_id user_prompt
       drop_rate keep newly).2 in
  (∀ tool_id, tool_id ∈ detach_requests trace →
     ∃ tools tool,
       agent_tools env agent_id = Some tools ∧ tool ∈ tools ∧
       t_tool_type tool = Some external_mcp ∧
       id_or_tool_id tool = Some tool_id)
  ∧ (∀ tools core_tool tool_id,
       agent_tools env agent_id = Some tools →
       ids_identify_tools tools →
       core_tool ∈ tools →
       t_tool_type core_tool ≠ Some external_mcp →
       id_or_tool_id core_tool = Some tool_id →
       tool_id ∉ detach_requests trace).
Proof.
  intros trace.
  assert (∀ tool_id, tool_id ∈ detach_requests trace →
     ∃ tools tool,
       agent_tools env agent_id = Some tools ∧ tool ∈ tools ∧
       t_tool_type tool = Some external_mcp ∧
       id_or_tool_id tool = Some tool_id) as Hsub.
  { intros tool_id Hin. subst trace.
    apply pruning_requests in Hin as (tools & Hfetch & Hcur).
    apply current_mcp_id_origin in Hcur as (t0 & ? & ? & ?).
    exists tools, t0. split_and!; try done.
    unfold fetch_agent_tools in Hfetch.
    by destruct (http_session env). }
  split; [exact Hsub|].
  intros tools core_tool tool_id Htools Hids Hcore Hty Hid Hin.
  destruct (Hsub tool_id Hin) as (tools' & tool & Htools' & Htool & Hmcp & Hid').
  rewrite Htools in Htools'. simplify_eq.
  apply Hty. rewrite <- Hmcp. by eapply Hids.
Qed.

(** C2 — Keep-set invariant (normal mode), with the target as the engine
    computes it. When the agent has [N > 0] MCP tools, the engine's
    target [T], the floor of the double product [N * (1.0 - drop_rate)],
    is computed, and the must-keep set [K = (keep ∪ newly) ∩ M_cur] is
    smaller than [T], the call completes, every id of [K] is in the
    final kept set and no detach request is sent for it. *)
Theorem prune_keeps_must_keep env agent_id user_prompt drop_rate keep newly
    tools target :
  fetch_agent_tools env agent_id = Some tools →
  0 < size (id_set (categorize tools).2) →
  num_mcp_tools_to_keep (size (id_set (categorize tools).2)) drop_rate
  = inr target →
  size ((list_to_set keep ∪ list_to_set newly)
        ∩ id_set (categorize tools).2) < target →
  ∃ details trace,
    _perform_tool_pruning set_iter schedule env agent_id user_prompt
      drop_rate keep newly = (Completed details, trace)
    ∧ ∀ tool_id,
        tool_id ∈ (list_to_set keep ∪ list_to_set newly)
                  ∩ id_set (categorize tools).2 →
        tool_id ∈ final_mcp_tool_ids_kept_on_agent details
        ∧ tool_id ∉ detach_requests trace.
Proof.
  intros Hfetch Hpos Htarget Hlt.
  rewrite <- must_keep_eq in Hlt.
  destruct (final_keeps_must_keep (id_set (categorize tools).2)
              (list_to_set newly) (list_to_set keep)
              (library_info
                 (Search.search_tools (hybrid env) user_prompt
                    (search_limit target)) ∅) target Hlt)
    as (final & Hfinal & Hsub).
  destruct (pruning_completed env agent_id user_prompt drop_rate keep newly
              tools target final Hfetch Hpos Htarget Hfinal)
    as (details & trace & Hrun & Hkept & _ & _ & Hreq).
  exists details, trace. split; [done|]. intros tool_id HK.
  rewrite <- must_keep_eq in HK. apply Hsub in HK.
  split.
  - rewrite Hkept. by apply elem_of_set_iter.
  - rewrite Hreq. rewrite elem_of_set_iter, elem_of_difference.
    intros [_ Hnot]. by apply Hnot.
Qed.

(** C3 — Aggressive-mode progress, with the targets as the engine
    computes them. When the agent has [N > 0] MCP tools, the engine's
    target [T], the floor of the double product [N * (1.0 - drop_rate)],
    and its alternate target [T' = max(1, floor(N * 0.8))] are computed,
    and the must-keep set has at least [T] elements, the call completes
    and sends detach requests for at least [N − T'] MCP tools. *)
Theorem prune_aggressive_progress env agent_id user_prompt drop_rate keep
    newly tools target alternate :
  fetch_agent_tools env agent_id = Some tools →
  0 < size (id_set (categorize tools).2) →
  num_mcp_tools_to_keep (size (id_set (categorize tools).2)) drop_rate
  = inr target →
  aggressive_target (size (id_set (categorize tools).2)) = inr alternate →
  target ≤ size ((list_to_set keep ∪ list_to_set newly)
                 ∩ id_set (categorize tools).2) →
  ∃ details trace,
    _perform_tool_pruning set_iter schedule env agent_id user_prompt
      drop_rate keep newly = (Completed details, trace)
    ∧ size (id_set (categorize tools).2) - alternate
      ≤ length (detach_requests trace).
Proof.
  intros Hfetch Hpos Htarget Halt Hge.
  rewrite <- must_keep_eq in Hge.
  destruct (final_size_aggressive (id_set (categorize tools).2)
              (list_to_set newly) (list_to_set keep)
              (library_info
                 (Search.search_tools (hybrid env) user_prompt
                    (search_limit target)) ∅) target alternate Hge Halt)
    as (final & Hfinal & Hsize).
  destruct (pruning_completed env agent_id user_prompt drop_rate keep newly
              tools target final Hfetch Hpos Htarget Hfinal)
    as (details & trace & Hrun & _ & _ & _ & Hreq).
  exists details, trace. split; [done|].
  rewrite Hreq, length_set_iter.
  etrans; [|apply size_difference_ge]. lia.
Qed.

End Facts.
(** The iteration order and the interleaving used to run the scenarios. *)
Lemma elements_enumerates (s : gset string) : elements s ≡ₚ elements s.
Proof. reflexivity. Defined.

Lemma sequential_schedule (l : list Event) : id l ≡ₚ l.
Proof. reflexivity. Defined.

Lemma small_agent_ids : ids_identify_tools Scenario.small_agent.
Proof.
  intros t1 t2 tool_id H1 H2 E1 E2.
  unfold Scenario.small_agent in *.
  repeat (apply elem_of_cons in H1 as [->|H1]);
    [..|by apply elem_of_nil in H1];
    (repeat (apply elem_of_cons in H2 as [->|H2]);
      [..|by apply elem_of_nil in H2]);
    vm_compute in E1, E2; congruence.
Defined.

(** Pruning the small agent at drop rate 0.6 leaves the core tool alone. *)
Lemma prune_core_invariance_witness :
  "c1" ∉ detach_requests
           (_perform_tool_pruning elements id
              (Scenario.prune_env Scenario.small_agent) "A" "p"
              (Float.ratio 6 10) [] []).2.
Proof.
  pose proof (prune_core_invariance elements elements_enumerates id
                sequential_schedule
                (Scenario.prune_env Scenario.small_agent) "A" "p"
                (Float.ratio 6 10) [] [])
    as [_ Hcore].
  apply (Hcore Scenario.small_agent (Scenario.core_tool "c1") "c1").
  - reflexivity.
  - exact small_agent_ids.
  - apply list_elem_of_here.
  - vm_compute. discriminate.
  - reflexivity.
Defined.

(** The specification's target, read over the reals, is not the engine's.
    Seventy-one MCP tools, drop rate 0.1267605633802817, sixty-one of them
    to keep: [floor(71·(1 − drop_rate))] is 62 over the reals, so the
    must-keep set is below it; the engine computes 61 in doubles, enters
    aggressive mode with the alternate target 56 and, the search finding
    nothing to rank, detaches the must-keep tools too. *)
Theorem exact_target_breaks_keep_set :
  ¬ keep_set_claim elements id (Scenario.silent_env Scenario.agent71)
      "A" "p" Scenario.drop_71 (Scenario.numbered 61) [].
Proof.
  intros Hclaim.
  destruct (Hclaim Scenario.agent71 62%Z)
    as (details & trace & Hrun & Hall).
  - reflexivity.
  - vm_compute. lia.
  - vm_compute. reflexivity.
  - vm_compute. reflexivity.
  - destruct (Hall "t1") as [_ Hnot].
    + apply (bool_decide_unpack _). vm_compute. exact I.
    + apply Hnot. vm_compute in Hrun. injection Hrun as _ <-.
      apply (bool_decide_unpack _). vm_compute. exact I.
Qed.

(** Ten MCP tools, drop rate 0.6, ["t3"] to keep: it stays. *)
Lemma prune_keeps_must_keep_witness :
  ∃ details trace,
    _perform_tool_pruning elements id (Scenario.prune_env Scenario.agent10)
      "A" "p" (Float.ratio 6 10) ["t3"] [] = (Completed details, trace)
    ∧ ∀ tool_id,
        tool_id ∈ (list_to_set ["t3"] ∪ list_to_set [])
                  ∩ id_set (categorize Scenario.agent10).2 →
        tool_id ∈ final_mcp_tool_ids_kept_on_agent details
        ∧ tool_id ∉ detach_requests trace.
Proof.
  apply (prune_keeps_must_keep elements elements_enumerates id
           sequential_schedule (Scenario.prune_env Scenario.agent10)
           "A" "p" (Float.ratio 6 10) ["t3"] [] Scenario.agent10 4).
  - reflexivity.
  - vm_compute. lia.
  - vm_compute. reflexivity.
  - vm_compute. lia.
Defined.

(** The specification's targets, read over the reals, are not the
    engine's. Ten MCP tools, the default drop rate 0.1, eight of them to
    keep: [floor(10·(1 − drop_rate))] is 8 over the reals, the double
    0.1 being above one tenth, so the must-keep set reaches it and two
    detachments are promised; the engine computes 9 in doubles, stays in
    normal mode, fills the ninth slot with ["t9"] and detaches one
    tool. *)
Theorem exact_target_breaks_progress :
  ¬ aggressive_progress_claim elements id
      (Scenario.prune_env Scenario.agent10) "A" "p" (Float.ratio 1 10)
      ["t1"; "t2"; "t3"; "t4"; "t5"; "t6"; "t7"; "t8"] [].
Proof.
  intros Hclaim.
  destruct (Hclaim Scenario.agent10 8%Z)
    as (details & trace & Hrun & Hcount).
  - reflexivity.
  - vm_compute. lia.
  - vm_compute. reflexivity.
  - vm_compute. discriminate.
  - vm_compute in Hrun. injection Hrun as _ <-.
    vm_compute in Hcount. lia.
Qed.

(** Five MCP tools, drop rate 0.1, all five to keep: at least one goes. *)
Lemma prune_aggressive_progress_witness :
  ∃ details trace,
    _perform_tool_pruning elements id (Scenario.prune_env Scenario.agent5)
      "A" "p" (Float.ratio 1 10) ["t1"; "t2"; "t3"; "t4"; "t5"] []
    = (Completed details, trace)
    ∧ 5 - 4 ≤ length (detach_requests trace).
Proof.
  apply (prune_aggressive_progress elements elements_enumerates id
           sequential_schedule (Scenario.prune_env Scenario.agent5)
           "A" "p" (Float.ratio 1 10) ["t1"; "t2"; "t3"; "t4"; "t5"] []
           Scenario.agent5 4 4).
  - reflexivity.
  - vm_compute. lia.
  - vm_compute. reflexivity.
  - vm_compute. reflexivity.
  - vm_compute. lia.
Defined.

(** The scenarios of the specification, run. *)
Example prune_ten_tools_drop_06 :
  ∃ details trace,
    _perform_tool_pruning elements id (Scenario.prune_env Scenario.agent10)
      "A" "p" (Float.ratio 6 10) [] [] = (Completed details, trace)
    ∧ target_mcp_tools_to_keep_after_pruning details = 4
    ∧ list_to_set (final_mcp_tool_ids_kept_on_agent details)
      = ({["t2"; "t5"; "t1"; "t9"]} : gset string)
    ∧ length (detach_requests trace) = 6.
Proof. eexists _, _. split; [vm_compute; reflexivity|]. by vm_compute. Qed.

Example prune_five_tools_keep_all :
  ∃ details trace,
    _perform_tool_pruning elements id (Scenario.prune_env Scenario.agent5)
      "A" "p" (Float.ratio 1 10) ["t1"; "t2"; "t3"; "t4"; "t5"] []
    = (Completed details, trace)
    ∧ target_mcp_tools_to_keep_after_pruning details = 4
    ∧ length (final_mcp_tool_ids_kept_on_agent details) = 3
    ∧ length (detach_requests trace) = 2.
Proof. eexists _, _. split; [vm_compute; reflexivity|]. by vm_compute. Qed.

(** The run behind the first of the two: target 61, nothing kept, all
    seventy-one MCP tools sent a detach request. *)
Example prune_seventy_one_tools_keep_sixty_one :
  ∃ details trace,
    _perform_tool_pruning elements id
      (Scenario.silent_env Scenario.agent71) "A" "p" Scenario.drop_71
      (Scenario.numbered 61) [] = (Completed details, trace)
    ∧ target_mcp_tools_to_keep_after_pruning details = 61
    ∧ final_mcp_tool_ids_kept_on_agent details = []
    ∧ length (detach_requests trace) = 71.
Proof. eexists _, _. split; [vm_compute; reflexivity|]. by vm_compute. Qed.

(** A drop rate that is not a number: [math.floor] raises, the call
    fails after it has fetched the agent's tools and sends nothing
    else. *)
Example prune_with_nan_drop_rate :
  _perform_tool_pruning elements id (Scenario.prune_env Scenario.agent10)
    "A" "p" SpecFloat.S754_nan [] []
  = (Failure "cannot convert float NaN to integer", [EvFetchAgent]).
Proof. reflexivity. Qed.

(** The engine's target against the real-number floor, run: the default
    drop rate on ten tools, and two rates where the double product falls
    below an integer the real product reaches. *)
Example targets_in_doubles :
  num_mcp_tools_to_keep 10 (Float.ratio 1 10) = inr 9
  ∧ exact_target 10 (Float.ratio 1 10) = Some 8%Z
  ∧ num_mcp_tools_to_keep 71 Scenario.drop_71 = inr 61
  ∧ exact_target 71 Scenario.drop_71 = Some 62%Z
  ∧ num_mcp_tools_to_keep 250 (Float.ratio 68 1000) = inr 232
  ∧ aggressive_target 10 = inr 8 ∧ aggressive_target 71 = inr 56.
Proof. by vm_compute. Qed.

End PruneFacts.

(** ** Batches *)

Module BatchFacts.
Import Batch.

Lemma lefts_rights_length {A B} (l : list (A + B)) :
  length (Prune.lefts l) + length (Prune.rights l) = length l.
Proof.
  induction l as [|[a|b] l IH]; simpl; [done| |]; unfold Prune.lefts,
    Prune.rights in *; simpl; lia.
Qed.

Lemma success_split (l : list DetachResult) :
  length (filter (λ r, dr_success r = true) l)
  + length (filter (λ r, dr_success r = false) l) = length l.
Proof.
  induction l as [|r l IH]; [done|].
  rewrite !filter_cons. destruct (dr_success r) eqn:E.
  - rewrite decide_True, decide_False by done. simpl. lia.
  - rewrite decide_False, decide_True by done. simpl. lia.
Qed.

Lemma zip_with_insert_ne {A B C} (f : A → B → C) (l : list A) (k : list B)
    (j i : nat) (y : B) :
  i ≠ j → zip_with f l (<[j := y]> k) !! i = zip_with f l k !! i.
Proof.
  intros Hne. rewrite !lookup_zip_with.
  by rewrite list_lookup_insert_ne by done.
Qed.

Lemma imap_answers_insert_ne {A B} (f : HttpOutcome → A → B) (l : list A)
    (answers : nat → HttpOutcome) (j i : nat) (answer : HttpOutcome) :
  i ≠ j →
  imap (λ n a, f ((<[j := answer]> answers) n) a) l !! i
  = imap (λ n a, f (answers n) a) l !! i.
Proof.
  intros Hne. rewrite !list_lookup_imap.
  by rewrite fn_lookup_insert_ne by done.
Qed.

Lemma process_detach_well_behaved http_session to_detach :
  well_behaved (length to_detach)
    (process_detach_gather http_session to_detach)
    (Attach.detach_results to_detach).
Proof.
  unfold well_behaved, process_detach_gather, Attach.detach_gather,
    Attach.detach_results.
  split_and!.
  - intros answers. apply length_imap.
  - intros gathered Hlen. by apply length_zip_with_l_eq.
  - intros answers j answer i Hne.
    apply (imap_answers_insert_ne
             (λ o tool, Py.Returned
                          (detach_tool http_session (Attach.tr_tool_id tool) o))
             to_detach answers j i answer Hne).
  - intros gathered j result i Hne. by apply zip_with_insert_ne.
Qed.

Lemma process_attach_well_behaved http_session matching_tools :
  well_behaved (length matching_tools)
    (process_attach_gather http_session matching_tools)
    (Attach.attach_outcomes matching_tools).
Proof.
  unfold well_behaved, process_attach_gather, Attach.attach_gather,
    Attach.attach_outcomes.
  split_and!.
  - intros answers. apply length_imap.
  - intros gathered Hlen. by apply length_zip_with_l_eq.
  - intros answers j answer i Hne.
    apply (imap_answers_insert_ne
             (λ o tool, Py.Returned (Attach.attach_tool http_session tool o))
             matching_tools answers j i answer Hne).
  - intros gathered j result i Hne. by apply zip_with_insert_ne.
Qed.

Lemma prune_detach_well_behaved env ids names :
  well_behaved (length ids) (prune_detach_gather env ids)
    (prune_detach_collect names ids).
Proof.
  unfold well_behaved, prune_detach_gather, Prune.detach_batch,
    prune_detach_collect. simpl.
  split_and!.
  - intros answers. apply length_imap.
  - intros gathered Hlen. by apply length_zip_with_l_eq.
  - intros answers j answer i Hne.
    apply (imap_answers_insert_ne
             (λ o tool_id, Py.Returned
                             (detach_tool (Prune.http_session env) tool_id o))
             ids answers j i answer Hne).
  - intros gathered j result i Hne. by apply zip_with_insert_ne.
Qed.

(** *** What one item of a batch comes back as *)

Lemma detach_accepted_dec (answer : HttpOutcome) :
  detach_accepted answer ∨ ¬ detach_accepted answer.
Proof.
  destruct answer as [code body| | |]; try (right; intros (? & ? & ? & _); done).
  destruct (decide (code = 200)) as [->|H200].
  { left. exists 200, body. split; [done|by left]. }
  destruct (decide (code = 404)) as [->|H404].
  { left. exists 404, body. split; [done|by right]. }
  right. intros (c & b & [= <- <-] & [?|?]); done.
Qed.

Lemma attach_accepted_dec (answer : HttpOutcome) :
  attach_accepted answer ∨ ¬ attach_accepted answer.
Proof.
  destruct answer as [code body|code msg| |];
    try (right; intros (? & [?|?]); done);
    (destruct (decide (code = 200)) as [->|Hne];
      [left; eexists; (by left) || (by right)
      |right; intros (? & [[= ?]|[= ?]]); done]).
Qed.

(** [detach_tool] succeeds exactly on an accepted answer, names its own
    tool, and says why when it fails. *)
Lemma detach_tool_outcome session tool_id answer :
  dr_tool_id (detach_tool session tool_id answer) = tool_id
  ∧ (dr_success (detach_tool session tool_id answer) = true
     ↔ session = true ∧ detach_accepted answer)
  ∧ (dr_success (detach_tool session tool_id answer) = false →
     is_Some (dr_error (detach_tool session tool_id answer)))
  ∧ (session = true → answer = HttpTimeout →
     dr_error (detach_tool session tool_id answer)
     = Some "Request timed out").
Proof.
  unfold detach_tool. destruct session; simpl.
  - destruct answer as [code body|code msg| |msg]; simpl.
    + destruct (Nat.eqb_spec code 200) as [->|H200]; simpl.
      { split_and!; try done. split; [|done]. intros _. split; [done|].
        exists 200, body. split; [done|by left]. }
      destruct (Nat.eqb_spec code 404) as [->|H404]; simpl.
      { split_and!; try done. split; [|done]. intros _. split; [done|].
        exists 404, body. split; [done|by right]. }
      split_and!; try done.
      split; [done|]. intros [_ (c & b & [= <- <-] & [?|?])]; done.
    + split_and!; try done.
      split; [done|]. intros [_ (? & ? & ? & _)]. done.
    + split_and!; try done.
      split; [done|]. intros [_ (? & ? & ? & _)]. done.
    + split_and!; try done.
      split; [done|]. intros [_ (? & ? & ? & _)]. done.
  - split_and!; try done. split; [done|]. by intros [? _].
Qed.

(** [attach_tool] succeeds exactly when the tool has an id and the
    answer is accepted. *)
Lemma attach_tool_outcome session tool answer :
  Attach.ar_success (Attach.attach_tool session tool answer) = true
  ↔ session = true ∧ Py.truthy (tool_id_or_id tool) = true
    ∧ attach_accepted answer.
Proof.
  unfold Attach.attach_tool. destruct session; simpl.
  - destruct (Py.truthy (tool_id_or_id tool)); simpl.
    + destruct answer as [code body|code msg| |msg]; simpl.
      * destruct (Nat.eqb_spec code 200) as [->|Hne]; simpl.
        -- split; [|done]. intros _. split_and!; try done.
           exists body. by left.
        -- split; [done|]. intros (_ & _ & b & [[= ?]|?]); done.
      * destruct (Nat.eqb_spec code 200) as [->|Hne]; simpl.
        -- split; [|done]. intros _. split_and!; try done.
           exists msg. by right.
        -- split; [done|]. intros (_ & _ & b & [?|[= ?]]); done.
      * split; [done|]. intros (_ & _ & b & [?|?]); done.
      * split; [done|]. intros (_ & _ & b & [?|?]); done.
    + split; [done|]. by intros (_ & ? & _).
  - split; [done|]. by intros (? & _).
Qed.

Lemma elem_of_lefts_lookup {A B} (l : list (A + B)) i a :
  l !! i = Some (inl a) → a ∈ Prune.lefts l.
Proof.
  intros Hi. unfold Prune.lefts. apply list_elem_of_omap.
  exists (inl a). split; [by eapply list_elem_of_lookup_2|done].
Qed.

Lemma elem_of_rights_lookup {A B} (l : list (A + B)) i b :
  l !! i = Some (inr b) → b ∈ Prune.rights l.
Proof.
  intros Hi. unfold Prune.rights. apply list_elem_of_omap.
  exists (inr b). split; [by eapply list_elem_of_lookup_2|done].
Qed.

(** The [i]-th result of the detach batch of [process_tools] is what
    [detach_tool] makes of the [i]-th answer. *)
Lemma process_detach_item http_session to_detach answers i tool :
  to_detach !! i = Some tool →
  Attach.detach_results to_detach
    (process_detach_gather http_session to_detach answers) !! i
  = Some (detach_tool http_session (Attach.tr_tool_id tool) (answers i)).
Proof.
  intros Hi. unfold Attach.detach_results, process_detach_gather,
    Attach.detach_gather.
  rewrite lookup_zip_with, Hi. simpl.
  by rewrite list_lookup_imap, Hi.
Qed.

Lemma process_attach_item http_session matching_tools answers i tool :
  matching_tools !! i = Some tool →
  Attach.attach_outcomes matching_tools
    (process_attach_gather http_session matching_tools answers) !! i
  = Some (Attach.record_attach tool
            (Py.Returned (Attach.attach_tool http_session tool (answers i)))).
Proof.
  intros Hi. unfold Attach.attach_outcomes, process_attach_gather,
    Attach.attach_gather.
  rewrite lookup_zip_with, Hi. simpl.
  by rewrite list_lookup_imap, Hi.
Qed.

Lemma prune_detach_item penv ids names answers i tool_id :
  ids !! i = Some tool_id →
  prune_detach_collect names ids (prune_detach_gather penv ids answers) !! i
  = Some (Prune.record_detach names tool_id
            (Py.Returned (detach_tool (Prune.http_session penv) tool_id
                            (answers i)))).
Proof.
  intros Hi. unfold prune_detach_collect, prune_detach_gather,
    Prune.detach_batch. simpl.
  rewrite lookup_zip_with, Hi. simpl.
  by rewrite list_lookup_imap, Hi.
Qed.

(** What [record_detach] files under success is an accepted answer. *)
Lemma record_detach_outcome names session tool_id answer :
  match Prune.record_detach names tool_id
          (Py.Returned (detach_tool session tool_id answer)) with
  | inl info =>
      Prune.di_tool_id info = tool_id
      ∧ session = true ∧ detach_accepted answer
  | inr info =>
      Prune.di_tool_id info = tool_id ∧ is_Some (Prune.di_error info)
      ∧ ¬ (session = true ∧ detach_accepted answer)
  end.
Proof.
  destruct (detach_tool_outcome session tool_id answer)
    as (_ & Hiff & _ & _).
  unfold Prune.record_detach.
  destruct (dr_success (detach_tool session tool_id answer)) eqn:Hs; simpl.
  - split; [done|]. by apply Hiff.
  - split_and!; [done..|]. intros H. apply Hiff in H. congruence.
Qed.

Section Engine.
Variable set_iter : gset string → list string.
Variable schedule : list Event → list Event.
Hypothesis schedule_perm : ∀ l, schedule l ≡ₚ l.

(** The lists [process_tools] reports hold one entry per mutation. *)
Lemma process_tools_counts env mcp_tools matching_tools keep_tools :
  Attach.http_session env = true →
  let r := (Attach.process_tools schedule env mcp_tools matching_tools
              keep_tools).1 in
  length (Attach.detached_tools r) + length (Attach.failed_detachments r)
  = length (Attach.tools_to_detach mcp_tools
              (Attach.keep_tool_id_set keep_tools matching_tools))
  ∧ length (Attach.successful_attachments r)
    + length (Attach.failed_attachments r)
    = length matching_tools.
Proof.
  intros Hs. unfold Attach.process_tools. rewrite Hs. simpl. split.
  - rewrite !length_fmap, success_split.
    unfold Attach.detach_results, Attach.detach_gather.
    apply length_zip_with_l_eq. by rewrite length_imap.
  - rewrite lefts_rights_length.
    unfold Attach.attach_outcomes, Attach.attach_gather.
    apply length_zip_with_l_eq. by rewrite length_imap.
Qed.

(** Each detachment of [process_tools] is reported where its own answer
    puts it. *)
Lemma process_tools_detach_reports env mcp_tools matching_tools keep_tools
    i tool :
  Attach.http_session env = true →
  Attach.tools_to_detach mcp_tools
    (Attach.keep_tool_id_set keep_tools matching_tools) !! i = Some tool →
  let r := (Attach.process_tools schedule env mcp_tools matching_tools
              keep_tools).1 in
  (detach_accepted (Attach.detach_response env i) →
   Attach.tr_tool_id tool ∈ Attach.detached_tools r)
  ∧ (¬ detach_accepted (Attach.detach_response env i) →
     Some (Attach.tr_tool_id tool) ∈ Attach.failed_detachments r).
Proof.
  intros Hs Hi. unfold Attach.process_tools. rewrite Hs. simpl.
  pose proof (process_detach_item true _ (Attach.detach_response env) i tool
                Hi) as Hitem.
  unfold process_detach_gather in Hitem.
  apply list_elem_of_lookup_2 in Hitem.
  destruct (detach_tool_outcome true (Attach.tr_tool_id tool)
              (Attach.detach_response env i)) as (Hid & Hiff & _ & _).
  split; intros Hacc.
  - apply list_elem_of_fmap. eexists. split; [|apply list_elem_of_filter].
    + by rewrite Hid.
    + split; [|done]. by apply Hiff.
  - apply list_elem_of_fmap. eexists. split; [|apply list_elem_of_filter].
    + by rewrite Hid.
    + split; [|done].
      destruct (dr_success _) eqn:E; [|done].
      exfalso. apply Hacc. by apply Hiff.
Qed.

(** Each attachment of [process_tools] is reported where its own answer
    puts it. *)
Lemma process_tools_attach_reports env mcp_tools matching_tools keep_tools
    i tool :
  Attach.http_session env = true →
  matching_tools !! i = Some tool →
  Py.truthy (tool_id_or_id tool) = true →
  let r := (Attach.process_tools schedule env mcp_tools matching_tools
              keep_tools).1 in
  (attach_accepted (Attach.attach_response env i) →
   Attach.attach_tool true tool (Attach.attach_response env i)
   ∈ Attach.successful_attachments r)
  ∧ (¬ attach_accepted (Attach.attach_response env i) →
     Attach.FailedResult (tool_id_or_id tool)
       (Py.get_default (t_name tool) "Unknown") "Unknown attachment failure"
     ∈ Attach.failed_attachments r).
Proof.
  intros Hs Hi Hid. unfold Attach.process_tools. rewrite Hs. simpl.
  pose proof (process_attach_item true _ (Attach.attach_response env) i tool
                Hi) as Hitem.
  unfold process_attach_gather in Hitem.
  pose proof (attach_tool_outcome true tool (Attach.attach_response env i))
    as Hiff.
  unfold Attach.record_attach in Hitem.
  split; intros Hacc.
  - assert (Attach.ar_success (Attach.attach_tool true tool
                          (Attach.attach_response env i)) = true) as E
      by (by apply Hiff).
    rewrite E in Hitem. by eapply elem_of_lefts_lookup.
  - destruct (Attach.ar_success (Attach.attach_tool true tool
                            (Attach.attach_response env i))) eqn:E.
    { exfalso. apply Hacc. by apply Hiff. }
    eapply elem_of_rights_lookup. rewrite Hitem. do 3 f_equal.
    unfold Attach.attach_tool in *. simpl in *. rewrite Hid in *. simpl in *.
    by destruct (Attach.attach_response env i) as [c ?|c ?| |];
      simpl in *; try destruct (c =? 200).
Qed.

(** What a completed pruning reports: a batch over the ids it detaches,
    each filed by its own answer. *)
Lemma pruning_reports env agent_id user_prompt drop_rate keep newly details
    trace :
  Prune._perform_tool_pruning set_iter schedule env agent_id user_prompt
    drop_rate keep newly = (Prune.Completed details, trace) →
  ∃ ids names,
    Prune.http_session env = true
    ∧ detach_requests trace ≡ₚ ids
    ∧ Prune.successful_detachments_mcp details
      = Prune.lefts (prune_detach_collect names ids
                       (Prune.detach_batch env ids))
    ∧ Prune.failed_detachments_mcp details
      = Prune.rights (prune_detach_collect names ids
                        (Prune.detach_batch env ids))
    ∧ Prune.mcp_tools_detached_count details
      = length (Prune.successful_detachments_mcp details)
    ∧ Prune.mcp_tools_failed_detachment_count details
      = length (Prune.failed_detachments_mcp details).
Proof.
  unfold Prune._perform_tool_pruning.
  destruct (Prune.fetch_agent_tools env agent_id) as [tools|] eqn:Hfetch;
    [|discriminate].
  destruct (Prune.categorize tools) as [core mcp] eqn:Hcat. simpl.
  destruct (size (Prune.id_set mcp) =? 0); [discriminate|].
  destruct (Prune.num_mcp_tools_to_keep _ _) as [e|num_keep]; [discriminate|].
  destruct (Prune.plan _ _ _ _ _ _) as [e|p]; [discriminate|].
  intros [= <- <-]. simpl.
  unfold Prune.fetch_agent_tools in Hfetch.
  destruct (Prune.http_session env) eqn:Hs; [|discriminate].
  exists (Prune.mcp_tools_to_detach_ids p), (Prune.id_to_name_map mcp).
  split_and!; try done.
  pose proof (PruneFacts.detach_requests_batch schedule schedule_perm true
                (Prune.mcp_tools_to_detach_ids p)) as Hb.
  exact Hb.
Qed.

(** The counters [_perform_tool_pruning] reports add up to the number
    of detach requests it sent. *)
Lemma pruning_counts env agent_id user_prompt drop_rate keep newly details
    trace :
  Prune._perform_tool_pruning set_iter schedule env agent_id user_prompt
    drop_rate keep newly = (Prune.Completed details, trace) →
  Prune.mcp_tools_detached_count details
  + Prune.mcp_tools_failed_detachment_count details
  = length (detach_requests trace).
Proof.
  intros (ids & names & _ & Hreq & Hl & Hr & -> & ->)%pruning_reports.
  rewrite Hl, Hr, lefts_rights_length, Hreq.
  unfold prune_detach_collect, Prune.detach_batch.
  apply length_zip_with_l_eq. by rewrite length_imap.
Qed.

(** C4 — Batch isolation. Each of the three batches the engine issues
    (the detach and the attach batch of [process_tools], the detach
    batch of [_perform_tool_pruning]) yields one outcome per item
    whatever the platform answers and whichever coroutine raises, and
    the outcome of an item is unchanged when another item's answer or
    result is replaced by an error. The outcome of an item is the one
    its own answer gives: a success exactly when the platform accepts
    its request, otherwise a failure carrying the item's id and its own
    error, be it a refusal, a timeout, an unreadable body or a coroutine
    that raised. The two operations report every item once, among the
    successes or among the failures according to its own answer. *)
Theorem batches_isolated http_session to_detach matching_tools penv ids
    names :
  (well_behaved (length to_detach)
     (process_detach_gather http_session to_detach)
     (Attach.detach_results to_detach)
   ∧ well_behaved (length matching_tools)
       (process_attach_gather http_session matching_tools)
       (Attach.attach_outcomes matching_tools)
   ∧ well_behaved (length ids) (prune_detach_gather penv ids)
       (prune_detach_collect names ids))
  ∧ (∀ answers i tool,
       to_detach !! i = Some tool →
       ∃ r, Attach.detach_results to_detach
              (process_detach_gather http_session to_detach answers) !! i
            = Some r
            ∧ dr_tool_id r = Attach.tr_tool_id tool
            ∧ (dr_success r = true
               ↔ http_session = true ∧ detach_accepted (answers i))
            ∧ (dr_success r = false → is_Some (dr_error r))
            ∧ (http_session = true → answers i = HttpTimeout →
               dr_error r = Some "Request timed out"))
  ∧ (∀ gathered i tool msg,
       to_detach !! i = Some tool → gathered !! i = Some (Py.Raised msg) →
       Attach.detach_results to_detach gathered !! i
       = Some (mkDetachResult false (Attach.tr_tool_id tool) (Some msg) None))
  ∧ (∀ answers i tool,
       matching_tools !! i = Some tool →
       ∃ o, Attach.attach_outcomes matching_tools
              (process_attach_gather http_session matching_tools answers) !! i
            = Some o
            ∧ ((∃ r, o = inl r ∧ Attach.ar_success r = true
                     ∧ Attach.ar_tool_id r = tool_id_or_id tool)
               ↔ http_session = true
                 ∧ Py.truthy (tool_id_or_id tool) = true
                 ∧ attach_accepted (answers i)))
  ∧ (∀ gathered i tool msg,
       matching_tools !! i = Some tool →
       gathered !! i = Some (Py.Raised msg) →
       Attach.attach_outcomes matching_tools gathered !! i
       = Some (inr (Attach.FailedResult (tool_id_or_id tool)
                      (Py.get_default (t_name tool) "Unknown") msg)))
  ∧ (∀ answers i tool_id,
       ids !! i = Some tool_id →
       ∃ o, prune_detach_collect names ids
              (prune_detach_gather penv ids answers) !! i = Some o
            ∧ match o with
              | inl info =>
                  Prune.di_tool_id info = tool_id
                  ∧ Prune.http_session penv = true
                  ∧ detach_accepted (answers i)
              | inr info =>
                  Prune.di_tool_id info = tool_id
                  ∧ is_Some (Prune.di_error info)
                  ∧ ¬ (Prune.http_session penv = true
                       ∧ detach_accepted (answers i))
              end)
  ∧ (∀ gathered i tool_id msg,
       ids !! i = Some tool_id → gathered !! i = Some (Py.Raised msg) →
       ∃ info, prune_detach_collect names ids gathered !! i = Some (inr info)
               ∧ Prune.di_tool_id info = tool_id
               ∧ Prune.di_error info = Some msg)
  ∧ (∀ env mcp_tools keep_tools,
       Attach.http_session env = true →
       let r := (Attach.process_tools schedule env mcp_tools matching_tools
                   keep_tools).1 in
       length (Attach.detached_tools r)
       + length (Attach.failed_detachments r)
       = length (Attach.tools_to_detach mcp_tools
                   (Attach.keep_tool_id_set keep_tools matching_tools))
       ∧ length (Attach.successful_attachments r)
         + length (Attach.failed_attachments r)
         = length matching_tools
       ∧ (∀ i tool,
            Attach.tools_to_detach mcp_tools
              (Attach.keep_tool_id_set keep_tools matching_tools) !! i
            = Some tool →
            (detach_accepted (Attach.detach_response env i) →
             Attach.tr_tool_id tool ∈ Attach.detached_tools r)
            ∧ (¬ detach_accepted (Attach.detach_response env i) →
               Some (Attach.tr_tool_id tool) ∈ Attach.failed_detachments r))
       ∧ (∀ i tool,
            matching_tools !! i = Some tool →
            Py.truthy (tool_id_or_id tool) = true →
            (attach_accepted (Attach.attach_response env i) →
             Attach.attach_tool true tool (Attach.attach_response env i)
             ∈ Attach.successful_attachments r)
            ∧ (¬ attach_accepted (Attach.attach_response env i) →
               Attach.FailedResult (tool_id_or_id tool)
                 (Py.get_default (t_name tool) "Unknown")
                 "Unknown attachment failure"
               ∈ Attach.failed_attachments r)))
  ∧ (∀ agent_id user_prompt drop_rate keep newly details trace,
       Prune._perform_tool_pruning set_iter schedule penv agent_id
         user_prompt drop_rate keep newly
       = (Prune.Completed details, trace) →
       Prune.mcp_tools_detached_count details
       + Prune.mcp_tools_failed_detachment_count details
       = length (detach_requests trace)
       ∧ ∃ sent, detach_requests trace ≡ₚ sent
           ∧ ∀ i tool_id,
               sent !! i = Some tool_id →
               (detach_accepted (Prune.detach_response penv i) →
                tool_id ∈ Prune.di_tool_id
                            <$> Prune.successful_detachments_mcp details)
               ∧ (¬ detach_accepted (Prune.detach_response penv i) →
                  tool_id ∈ Prune.di_tool_id
                              <$> Prune.failed_detachments_mcp details)).
Proof.
  split_and!.
  - apply process_detach_well_behaved.
  - apply process_attach_well_behaved.
  - apply prune_detach_well_behaved.
  - intros answers i tool Hi. eexists. split;
      [by apply process_detach_item|].
    apply detach_tool_outcome.
  - intros gathered i tool msg Hi Hg. unfold Attach.detach_results.
    by rewrite lookup_zip_with, Hi, Hg.
  - intros answers i tool Hi. eexists. split;
      [by apply process_attach_item|].
    unfold Attach.record_attach.
    destruct (Attach.ar_success (Attach.attach_tool http_session tool (answers i)))
      eqn:E.
    + pose proof (proj1 (attach_tool_outcome http_session tool (answers i)) E)
        as (-> & Hid & Hacc).
      split; [done|]. intros _. eexists.
      split_and!; [done..|].
      unfold Attach.attach_tool. simpl. rewrite Hid. simpl.
      by destruct (answers i) as [c ?|c ?| |]; simpl;
        try destruct (c =? 200).
    + split; [by intros (r & ? & _)|].
      intros H.
      apply (attach_tool_outcome http_session tool (answers i)) in H.
      congruence.
  - intros gathered i tool msg Hi Hg. unfold Attach.attach_outcomes.
    by rewrite lookup_zip_with, Hi, Hg.
  - intros answers i tool_id Hi. eexists. split;
      [by apply prune_detach_item|].
    apply record_detach_outcome.
  - intros gathered i tool_id msg Hi Hg. unfold prune_detach_collect.
    rewrite lookup_zip_with, Hi, Hg. simpl. by eexists.
  - intros env mcp_tools keep_tools Hs.
    destruct (process_tools_counts env mcp_tools matching_tools keep_tools Hs)
      as [H1 H2].
    split_and!; [done..| |].
    + intros i tool Hi. by apply process_tools_detach_reports.
    + intros i tool Hi Hid. by apply process_tools_attach_reports.
  - intros agent_id user_prompt drop_rate keep newly details trace Hrun.
    split; [by eapply pruning_counts|].
    destruct (pruning_reports _ _ _ _ _ _ _ _ Hrun)
      as (sent & nm & Hs & Hreq & Hl & Hr & _ & _).
    exists sent. split; [done|]. intros i tool_id Hi.
    pose proof (prune_detach_item penv sent nm (Prune.detach_response penv)
                  i tool_id Hi) as Hitem.
    assert (prune_detach_gather penv sent (Prune.detach_response penv)
            = Prune.detach_batch penv sent) as Hgather.
    { unfold prune_detach_gather. by destruct penv. }
    rewrite Hgather in Hitem.
    pose proof (record_detach_outcome nm (Prune.http_session penv) tool_id
                  (Prune.detach_response penv i)) as Hout.
    rewrite Hl, Hr.
    destruct (Prune.record_detach nm tool_id _) as [info|info] eqn:E.
    + destruct Hout as (Hid & _ & Hacc). split.
      * intros _. apply list_elem_of_fmap. exists info. split; [done|].
        by eapply elem_of_lefts_lookup.
      * intros Hnot. by destruct Hnot.
    + destruct Hout as (Hid & _ & Hnot). split.
      * intros Hacc. by destruct Hnot.
      * intros _. apply list_elem_of_fmap. exists info. split; [done|].
        by eapply elem_of_rights_lookup.
Qed.

End Engine.

(** One timeout in the detach batch of [process_tools]: the other two
    detachments and the attachment succeed, the timed-out one is the
    only failure. *)
Lemma batches_isolated_witness :
  let failing :=
    Attach.mkEnv true (λ _, Some "agent") (λ _, Some Scenario.small_agent)
      true true AttachScenario.store [AttachScenario.cached] (λ _ _, None)
      (λ i, if i =? 1 then HttpTimeout else HttpStatus 200 "")
      (λ _, HttpStatus 200 "") (Float.ratio 1 10)
      (Scenario.prune_env Scenario.small_agent) in
  let r := (Attach.process_tools id failing
              (Attach.unique_mcp_tools Scenario.small_agent ∅)
              [AttachScenario.cached] []).1 in
  length (Attach.detached_tools r) + length (Attach.failed_detachments r) = 3
  ∧ length (Attach.successful_attachments r)
    + length (Attach.failed_attachments r) = 1
  ∧ "t1" ∈ Attach.detached_tools r
  ∧ Some "t2" ∈ Attach.failed_detachments r
  ∧ "t3" ∈ Attach.detached_tools r.
Proof.
  intros failing r.
  destruct (proj1 (proj2 (proj2 (proj2 (proj2 (proj2 (proj2 (proj2
              (batches_isolated elements id
                 PruneFacts.sequential_schedule true []
                 [AttachScenario.cached]
                 (Scenario.prune_env Scenario.small_agent) [] ∅))))))))
              failing (Attach.unique_mcp_tools Scenario.small_agent ∅) []
              eq_refl) as (Hd & Ha & Hdet & _).
  split_and!; [exact Hd|exact Ha| | |].
  - apply (Hdet 0 (Attach.mkToolRef "t1" "t1") eq_refl).
    exists 200, "". split; [reflexivity|by left].
  - apply (Hdet 1 (Attach.mkToolRef "t2" "t2") eq_refl).
    intros (? & ? & ? & _). discriminate.
  - apply (Hdet 2 (Attach.mkToolRef "t3" "t3") eq_refl).
    exists 200, "". split; [reflexivity|by left].
Defined.

Example detach_batch_with_one_timeout :
  (λ r, (dr_success r, dr_tool_id r, dr_error r))
    <$> Attach.detach_results
          (Attach.tools_to_detach
             (Attach.unique_mcp_tools Scenario.small_agent ∅) ∅)
          (process_detach_gather true
             (Attach.tools_to_detach
                (Attach.unique_mcp_tools Scenario.small_agent ∅) ∅)
             (λ i, if i =? 1 then HttpTimeout
                   else if i =? 2 then HttpUnparsable 200 "Expecting value"
                        else HttpStatus 404 "{'detail': 'gone'}"))
  = [(true, "t1", None); (false, "t2", Some "Request timed out");
     (false, "t3", Some "Expecting value")].
Proof. reflexivity. Qed.

End BatchFacts.

(** ** Ordering inside one attach call *)

Module OrderFacts.
Import Order.

Lemma until_pruning_app_begin l rest :
  EvPruneBegin ∉ l → until_pruning (l ++ EvPruneBegin :: rest) = l.
Proof.
  induction l as [|e l IH]; simpl; [done|].
  intros Hnot. apply not_elem_of_cons in Hnot as [Hne Hnot].
  destruct e; try (f_equal; by apply IH). done.
Qed.

Lemma until_pruning_id l : EvPruneBegin ∉ l → until_pruning l = l.
Proof.
  induction l as [|e l IH]; simpl; [done|].
  intros Hnot. apply not_elem_of_cons in Hnot as [Hne Hnot].
  destruct e; try (f_equal; by apply IH). done.
Qed.


Lemma elem_of_detach_events session (ids : list string) e :
  e ∈ ids ≫= detach_tool_events session →
  ∃ tool_id, tool_id ∈ ids ∧ session = true ∧
             (e = EvDetachRequest tool_id ∨ e = EvDetachReturn tool_id).
Proof.
  intros (tool_id & He & Hin)%list_elem_of_bind.
  exists tool_id. unfold detach_tool_events in He.
  destruct session; [|by apply elem_of_nil in He].
  split_and!; [done..|].
  apply elem_of_cons in He as [->|He]; [by left|].
  apply list_elem_of_singleton in He as ->. by right.
Qed.

Lemma detach_events_paired session (ids : list string) tool_id :
  EvDetachRequest tool_id ∈ ids ≫= detach_tool_events session →
  EvDetachReturn tool_id ∈ ids ≫= detach_tool_events session.
Proof.
  intros (t & Hin & Hs & [E|E])%elem_of_detach_events; [|discriminate].
  injection E as E. subst t.
  apply list_elem_of_bind. exists tool_id. split; [|done].
  unfold detach_tool_events. rewrite Hs. set_solver.
Qed.

Lemma elem_of_attach_events session (tools : list Tool) e :
  e ∈ tools ≫= Attach.attach_tool_events session →
  ∃ tool tool_id, tool ∈ tools ∧ tool_id_or_id tool = Some tool_id ∧
                  session && Py.truthy (Some tool_id) = true ∧
                  (e = EvAttachRequest tool_id ∨ e = EvAttachReturn tool_id).
Proof.
  intros (tool & He & Hin)%list_elem_of_bind.
  unfold Attach.attach_tool_events in He.
  destruct (tool_id_or_id tool) as [tool_id|] eqn:Hid;
    [|by apply elem_of_nil in He].
  destruct (session && Py.truthy (Some tool_id)) eqn:Hs;
    [|by apply elem_of_nil in He].
  exists tool, tool_id. split_and!; [done..|].
  apply elem_of_cons in He as [->|He]; [by left|].
  apply list_elem_of_singleton in He as ->. by right.
Qed.

Lemma attach_events_paired session (tools : list Tool) tool_id :
  EvAttachRequest tool_id ∈ tools ≫= Attach.attach_tool_events session →
  EvAttachReturn tool_id ∈ tools ≫= Attach.attach_tool_events session.
Proof.
  intros (tool & t & Hin & Hid & Hs & [E|E])%elem_of_attach_events;
    [|discriminate].
  injection E as E. subst t.
  apply list_elem_of_bind. exists tool. split; [|done].
  unfold Attach.attach_tool_events. rewrite Hid, Hs. set_solver.
Qed.

(** Resolving the candidates only sends registration requests. *)
Lemma process_matching_tool_events env tool cache e :
  e ∈ (Attach.process_matching_tool env tool cache).2 →
  ∃ server name, e = EvRegister server name.
Proof.
  unfold Attach.process_matching_tool.
  destruct (t_name tool) as [tool_name|]; cbn -[Py.truthy];
    [|by intros ?%elem_of_nil].
  destruct (Py.truthy (Some tool_name)); cbn -[Py.truthy];
    [|by intros ?%elem_of_nil].
  set (registration :=
         match t_mcp_server_name tool with
         | Some originating_server => _
         | None => _
         end).
  assert (∀ e, e ∈ registration.2 → ∃ server name, e = EvRegister server name)
    as Hreg.
  { intros e'. subst registration.
    destruct (t_mcp_server_name tool) as [srv|]; cbn -[Py.truthy];
      [|by intros ?%elem_of_nil].
    destruct (Py.truthy (Some srv)); cbn -[Py.truthy];
      [|by intros ?%elem_of_nil].
    destruct (Attach.http_session env); [|by intros ?%elem_of_nil].
    intros ->%list_elem_of_singleton. eauto. }
  destruct (List.find _ cache) as [existing|]; [|apply Hreg].
  destruct (Py.truthy (id_or_tool_id existing)); [|apply Hreg].
  cbn. by intros ?%elem_of_nil.
Qed.



Section Engine.
Variable set_iter : gset string → list string.
Variable schedule : list Event → list Event.
Hypothesis schedule_perm : ∀ l, schedule l ≡ₚ l.

Lemma scheduled_inv l e : e ∈ schedule l → e ∈ l.
Proof. by rewrite (schedule_perm l). Qed.

Lemma scheduled l e : e ∈ l → e ∈ schedule l.
Proof. by rewrite (schedule_perm l). Qed.

(** [process_tools]: the detach batch, then the attach batch. *)
Lemma process_tools_phases env mcp_tools matching_tools keep_tools :
  ∃ d a,
    (Attach.process_tools schedule env mcp_tools matching_tools
       keep_tools).2 = d ++ a
    ∧ (∀ e, e ∈ d → is_detach e)
    ∧ (∀ e, e ∈ a → is_attach e)
    ∧ (∀ t, EvDetachRequest t ∈ d → EvDetachReturn t ∈ d)
    ∧ (∀ t, EvAttachRequest t ∈ a → EvAttachReturn t ∈ a).
Proof.
  unfold Attach.process_tools.
  destruct (Attach.http_session env) eqn:Hs; simpl.
  - eexists _, _. split; [reflexivity|]. split_and!.
    + intros e He%scheduled_inv.
      apply list_elem_of_bind in He as (t & He & _).
      unfold detach_tool_events in He.
      apply elem_of_cons in He as [->|He]; [done|].
      by apply list_elem_of_singleton in He as ->.
    + intros e He%scheduled_inv.
      apply elem_of_attach_events in He as (? & ? & _ & _ & _ & [->| ->]);
        done.
    + intros t Ht%scheduled_inv. apply scheduled.
      apply list_elem_of_bind in Ht as (r & Hr & Hin).
      apply list_elem_of_bind. exists r. split; [|done].
      unfold detach_tool_events in *.
      apply elem_of_cons in Hr as [E|Hr].
      * injection E as ->. set_solver.
      * by apply list_elem_of_singleton in Hr.
    + intros t Ht%scheduled_inv. apply scheduled.
      by apply attach_events_paired.
  - exists [], []. split_and!; try done; by intros ? ?%elem_of_nil.
Qed.



End Engine.


Example attach_trace_of_scenario :
  Attach.trace
    (Attach.attach_tools elements id (AttachScenario.env AttachScenario.store)
       (Some (AttachScenario.request "send chat message")))
  = [EvFetchAgent; EvSearch "send chat message" 3;
     EvDetachRequest "t1"; EvDetachReturn "t1";
     EvDetachRequest "t2"; EvDetachReturn "t2";
     EvDetachRequest "t3"; EvDetachReturn "t3";
     EvAttachRequest "tool-1"; EvAttachReturn "tool-1";
     EvPruneBegin; EvFetchAgent; EvSearch "send chat message" 100].
Proof. vm_compute. reflexivity. Qed.

End OrderFacts.

(** ** Attach calls *)

Module AttachFacts.
Import Attach.

(** With an empty query the candidate the Vector Store returns is still
    resolved and attached: the claim as worded fails. *)
Lemma empty_query_still_attaches :
  ¬ empty_query_claim elements id (AttachScenario.env AttachScenario.store)
      (AttachScenario.request "").
Proof.
  intros H. destruct (H eq_refl) as (_ & details & Hresp & Hcount).
  vm_compute in Hresp. injection Hresp as <-. discriminate Hcount.
Qed.

Section Engine.
Variable set_iter : gset string → list string.
Variable schedule : list Event → list Event.

Lemma manage_tools_empty_query env agent_id limit keep_tools :
  pruning (manage_tools set_iter schedule env agent_id "" limit keep_tools)
  = None.
Proof.
  unfold manage_tools.
  destruct (http_session env); [|done].
  destruct (agent_info env agent_id); [|done].
  destruct (agent_tools env agent_id); [|done].
  by destruct (weaviate_ready env || weaviate_ready_after_reinit env).
Qed.

(** [process_tools] attaches nothing when there is nothing to attach. *)
Lemma process_tools_nothing_to_attach env mcp_tools keep_tools :
  successful_attachments
    (process_tools schedule env mcp_tools [] keep_tools).1 = [].
Proof. unfold process_tools. by destruct (http_session env). Qed.

(** C9, amended — Attach with an empty query. Pruning is never invoked
    for an empty query. When moreover the request names an agent, the
    two fetches of the agent succeed, the Vector Store is ready and the
    search returns no candidate, the call answers success = true with
    0 attachments. The engine does not short-circuit the empty query:
    what the search returns for it is attached. *)
Theorem attach_empty_query env body :
  default "" (rq_query body) = "" →
  let run := attach_tools set_iter schedule env (Some body) in
  pruning run = None
  ∧ (∀ agent_id,
       rq_agent_id body = Some agent_id → agent_id ≠ "" →
       http_session env = true →
       is_Some (agent_info env agent_id) →
       is_Some (agent_tools env agent_id) →
       weaviate_ready env || weaviate_ready_after_reinit env = true →
       Search.search_tools (hybrid env) "" (default 10 (rq_limit body)) = [] →
       ∃ details,
         response run = Success details
         ∧ success_field (response run) = Some true
         ∧ d_success_count details = 0
         ∧ d_successful_attachments details = []).
Proof.
  intros Hq run. subst run. unfold attach_tools. rewrite Hq. split.
  - destruct (no_body (Some body)); [done|].
    destruct (rq_agent_id body) as [agent_id|]; [|done].
    destruct (negb (Py.truthy (Some agent_id))); [done|].
    apply manage_tools_empty_query.
  - intros agent_id Hid Hne Hs [name Hinfo] [tools Htools] Hw Hsearch.
    assert (no_body (Some body) = false) as ->.
    { destruct body as [q l a k]. simpl in Hid. subst a.
      by destruct q, l. }
    rewrite Hid.
    assert (Py.truthy (Some agent_id) = true) as ->.
    { simpl. destruct (String.eqb_spec agent_id ""); [done|done]. }
    unfold manage_tools. rewrite Hs, Hinfo, Htools, Hw, Hsearch. simpl.
    rewrite process_tools_nothing_to_attach. simpl.
    eexists. split_and!; reflexivity.
Qed.

End Engine.

(** The empty query against a Vector Store that returns nothing. *)
Lemma attach_empty_query_witness :
  let run := attach_tools elements id
               (AttachScenario.env AttachScenario.empty_store)
               (Some (AttachScenario.request "")) in
  pruning run = None
  ∧ ∃ details,
      response run = Success details
      ∧ success_field (response run) = Some true
      ∧ d_success_count details = 0
      ∧ d_successful_attachments details = [].
Proof.
  intros run.
  destruct (attach_empty_query elements id
              (AttachScenario.env AttachScenario.empty_store)
              (AttachScenario.request "") eq_refl) as [Hp Hok].
  split; [exact Hp|].
  apply (Hok "agent-1"); try reflexivity.
  - discriminate.
  - by eexists.
  - by eexists.
Defined.

(** Without an agent id the call is refused, empty query or not. *)
Example empty_query_without_agent :
  response (attach_tools elements id (AttachScenario.env AttachScenario.store)
              (Some (mkRequest (Some "") None None None)))
  = BadRequest "agent_id is required".
Proof. reflexivity. Qed.

(** C10 — On the attach path the [match_score] of a successful
    attachment is not computed from the candidate's distance: the
    candidate found with score 0.75 (distance 0.25), for which the
    specification expects 75, is reported with [match_score] 100,
    because [attach_tool] is handed the descriptor of the catalog cache,
    which has no distance. *)
Theorem attach_match_score_ignores_distance :
  let candidates :=
    Search.search_tools AttachScenario.store "send chat message" 3 in
  let run := attach_tools elements id
               (AttachScenario.env AttachScenario.store)
               (Some (AttachScenario.request "send chat message")) in
  (t_distance <$> candidates) = [Some (1 # 4)]
  ∧ (Qred ∘ expected_match_score <$> candidates) = [75 # 1]
  ∧ ∃ details,
      response run = Success details
      ∧ (ar_match_score <$> d_successful_attachments details) = [Some 100%Q].
Proof.
  split; [reflexivity|]. split; [vm_compute; reflexivity|].
  eexists. split; [vm_compute; reflexivity|]. reflexivity.
Qed.

End AttachFacts.

(** ** Sync cycle *)

Module SyncFacts.
Import Sync.

(** A descriptor that passes the obsolescence filter is not obsolete. *)
Lemma keeps_not_obsolete active tool :
  keeps active tool = true → ¬ obsolete active tool.
Proof.
  unfold keeps, obsolete. intros Hk [Hty Hsrv].
  rewrite bool_decide_eq_true_2 in Hk by done.
  destruct (get (d_mcp_server_name tool)) as [server|]; [|done].
  apply andb_true_iff in Hk as [_ Hin].
  by apply bool_decide_eq_true_1 in Hin.
Qed.

(** Whatever the platform and the servers answer, a list that
    [fetch_all_tools_async] returns holds no obsolete descriptor. *)
Lemma fetched_tools_not_obsolete env tools tool :
  fetch_all_tools_async env = Some tools → tool ∈ tools →
  ¬ obsolete (active_server_names env) tool.
Proof.
  unfold fetch_all_tools_async.
  destruct (letta_password env); simpl;
    [|intros [= <-]; by intros ?%elem_of_nil].
  destruct (categorize_tools_raises _); [done|]. intros [= <-].
  intros ([name t] & -> & Hin)%list_elem_of_fmap.
  unfold filtered_tools_by_name in Hin.
  apply list_elem_of_filter in Hin as [Hk _].
  by apply keeps_not_obsolete.
Qed.

(** A cycle can run to its end and leave an obsolete descriptor in the
    cache. The cache holds a tool of the server ["gone"], which the
    platform no longer lists; the cycle fetches a catalog without it but
    the cache file cannot be opened for writing: [write_tool_cache] logs
    the error, the cycle goes on to its end, and the cache is what it
    was. *)
Theorem finished_cycle_leaves_stale_cache :
  ¬ obsolescence_claim SyncScenario.env_read_only SyncScenario.stale_cache.
Proof.
  intros Hclaim.
  apply (Hclaim eq_refl [SyncScenario.old_tool] SyncScenario.old_tool eq_refl).
  - apply list_elem_of_here.
  - split; [reflexivity|]. simpl.
    apply (bool_decide_unpack _). vm_compute. exact I.
Qed.

(** C5 — Obsolescence, for the cycles that rewrite the cache. When the
    required variables are set, [fetch_all_tools_async] returns a
    catalog that is not empty and the cache write succeeds, the cache
    holds that catalog after the cycle, and no descriptor in it is an
    [external_mcp] tool whose [mcp_server_name] is missing or names a
    server outside the set of active servers fetched in that cycle. In
    every other cycle the cache file is left as it was, or torn by the
    write that failed. *)
Theorem synced_cache_has_no_obsolete_tool env file :
  (∀ tools,
     required_vars env = true →
     fetch_all_tools_async env = Some tools → tools ≠ [] →
     cache_write env = WriteOk →
     (sync_tools env file).2 = Holds tools
     ∧ ∀ tool, tool ∈ tools → ¬ obsolete (active_server_names env) tool)
  ∧ (¬ (required_vars env = true ∧ cache_write env = WriteOk
        ∧ ∃ tools, fetch_all_tools_async env = Some tools ∧ tools ≠ []) →
     (sync_tools env file).2 = file ∨ (sync_tools env file).2 = Torn).
Proof.
  split.
  - intros tools Hvars Hfetch Hne Hw.
    unfold sync_tools, write_tool_cache. rewrite Hvars, Hfetch, Hw. simpl.
    destruct tools as [|t tools]; [done|]. split; [done|].
    intros tool. by apply fetched_tools_not_obsolete.
  - intros Hnot. unfold sync_tools, write_tool_cache.
    destruct (required_vars env) eqn:Hvars; simpl; [|by left].
    destruct (fetch_all_tools_async env) as [[|t tools]|] eqn:Hfetch;
      [by left| |by left]. simpl.
    destruct (cache_write env) eqn:Hw; [|by left|by right].
    exfalso. apply Hnot. split_and!; [done..|]. by eexists.
Qed.

(** The cycle of the scenario drops the tool of the server that is gone;
    the same cycle on a cache file that cannot be opened leaves it. *)
Lemma synced_cache_has_no_obsolete_tool_witness :
  (∃ tools,
     (sync_tools SyncScenario.env Absent).2 = Holds tools
     ∧ ∀ tool, tool ∈ tools →
               ¬ obsolete (active_server_names SyncScenario.env) tool)
  ∧ ((sync_tools SyncScenario.env_read_only SyncScenario.stale_cache).2
     = SyncScenario.stale_cache
     ∨ (sync_tools SyncScenario.env_read_only SyncScenario.stale_cache).2
       = Torn).
Proof.
  split.
  - eexists.
    apply (proj1 (synced_cache_has_no_obsolete_tool SyncScenario.env Absent)).
    + reflexivity.
    + vm_compute. reflexivity.
    + discriminate.
    + reflexivity.
  - apply (proj2 (synced_cache_has_no_obsolete_tool
                    SyncScenario.env_read_only SyncScenario.stale_cache)).
    intros (_ & Hw & _). discriminate.
Defined.

Example sync_scenario_names :
  match (sync_tools SyncScenario.env Absent).2 with
  | Holds tools => d_name <$> tools
  | _ => []
  end = [Str "core_memory_append"; Str "send_message"; Str "read_channel"].
Proof. reflexivity. Qed.

(** A source type sent as [null] next to a string makes
    [categorize_tools] raise: no catalog is returned and the cycle
    fails before it reaches the cache. *)
Example null_source_type_fails_the_cycle :
  fetch_all_tools_async SyncScenario.env_null_source_type = None
  ∧ sync_tools SyncScenario.env_null_source_type SyncScenario.stale_cache
    = (Failed, SyncScenario.stale_cache).
Proof. by vm_compute. Qed.

(** A cycle that aborts or fails before the write leaves the cache as it
    was. *)
Lemma aborted_cycle_keeps_cache env file :
  (sync_tools env file).1 = Aborted → (sync_tools env file).2 = file.
Proof.
  unfold sync_tools.
  destruct (required_vars env); simpl; [|done].
  destruct (fetch_all_tools_async env) as [[|t tools]|]; simpl; try done.
  by destruct (later_step_raises env).
Qed.

End SyncFacts.

(** ** Cache writes *)

Module CacheFacts.
Import Cache.

(** A reader that comes between the truncation and the data sees an
    empty file: the write is not atomic for readers. *)
Lemma cache_write_not_atomic :
  ¬ atomic_for_readers TOOL_CACHE_FILE_PATH ["[2]"]
      {[ TOOL_CACHE_FILE_PATH := "[1]" ]}.
Proof.
  intros H.
  destruct (H [WriterStep; ReaderRead] (Some "")) as [E|E].
  - vm_compute. apply list_elem_of_here.
  - vm_compute in E. discriminate.
  - vm_compute in E. discriminate.
Qed.

Lemma append_assoc (a b c : string) : (a +:+ b) +:+ c = a +:+ (b +:+ c).
Proof.
  induction a as [|x a IH]; [done|].
  change (String x ((a +:+ b) +:+ c) = String x (a +:+ (b +:+ c))).
  by rewrite IH.
Qed.

Lemma append_empty_r (a : string) : a +:+ "" = a.
Proof.
  induction a as [|x a IH]; [done|].
  change (String x (a +:+ "") = String x a). by rewrite IH.
Qed.

(** While the data is being appended the file holds an initial part of
    the text. *)
Lemma appending_observes_initial_parts path s cs ticks :
  ∀ p fs,
    fs !! path = Some p → p +:+ text cs = s →
    ∀ observed, observed ∈ run path (Append <$> cs) ticks fs →
      ∃ q, observed = Some q ∧ initial_part q s.
Proof.
  revert cs. induction ticks as [|[|] ticks IH]; intros cs p fs Hp Hs observed;
    simpl.
  - by intros ?%elem_of_nil.
  - destruct cs as [|c cs]; simpl.
    + apply (IH [] p fs Hp Hs).
    + apply (IH cs (p +:+ c)).
      * rewrite Hp. simpl. apply lookup_insert_eq.
      * rewrite append_assoc. exact Hs.
  - intros [->|Hin]%elem_of_cons.
    + exists p. split; [done|]. by exists (text cs).
    + by apply (IH cs p fs Hp Hs).
Qed.

(** Once the writer has taken its last step the file holds the text. *)
Lemma appending_completes path s cs ticks :
  ∀ p fs fs',
    fs !! path = Some p → p +:+ text cs = s →
    after path (Append <$> cs) ticks fs = ([], fs') →
    fs' !! path = Some s.
Proof.
  revert cs. induction ticks as [|[|] ticks IH]; intros cs p fs fs' Hp Hs;
    simpl.
  - destruct cs; [|done]. intros [= <-]. simpl in Hs.
    rewrite append_empty_r in Hs. by rewrite <- Hs.
  - destruct cs as [|c cs]; simpl.
    + apply (IH [] p fs fs' Hp Hs).
    + apply (IH cs (p +:+ c)).
      * rewrite Hp. simpl. apply lookup_insert_eq.
      * rewrite append_assoc. exact Hs.
  - apply (IH cs p fs fs' Hp Hs).
Qed.

Lemma reads_of_settled_file path ticks fs observed :
  observed ∈ run path [] ticks fs → observed = fs !! path.
Proof.
  induction ticks as [|[|] ticks IH]; simpl.
  - by intros ?%elem_of_nil.
  - exact IH.
  - intros [->|Hin]%elem_of_cons; [done|]. by apply IH.
Qed.

(** C6, amended — Cache writes. A cache file is rewritten in place: the
    target is truncated, then the text is appended to it; there is no
    temporary file and no rename. A reader that reads after the writer
    has taken its last step observes exactly the text written; a reader
    that reads during the write observes the old content or an initial
    part of the text, possibly empty. *)
Theorem cache_write_in_place path chunks fs :
  (∀ ticks fs',
     after path (write_cache chunks) ticks fs = ([], fs') →
     ∀ later observed,
       observed ∈ run path [] later fs' → observed = Some (text chunks))
  ∧ (∀ ticks observed,
       observed ∈ run path (write_cache chunks) ticks fs →
       observed = fs !! path
       ∨ ∃ q, observed = Some q ∧ initial_part q (text chunks)).
Proof.
  split.
  - intros ticks fs' Hafter later observed Hobs.
    apply reads_of_settled_file in Hobs as ->.
    revert fs Hafter. unfold write_cache.
    induction ticks as [|[|] ticks IH]; intros fs; simpl.
    + discriminate.
    + apply (appending_completes path (text chunks) chunks ticks "").
      * apply lookup_insert_eq.
      * done.
    + apply IH.
  - intros ticks. unfold write_cache.
    induction ticks as [|[|] ticks IH]; intros observed; simpl.
    + by intros ?%elem_of_nil.
    + intros Hobs. right.
      apply (appending_observes_initial_parts path (text chunks) chunks
               ticks "" (<[path:=""]> fs)); [apply lookup_insert_eq|done..].
    + intros [->|Hin]%elem_of_cons; [by left|]. by apply IH.
Qed.

(** The tool cache rewritten in two pieces, a reader coming after. *)
Lemma cache_write_in_place_witness :
  read TOOL_CACHE_FILE_PATH
    (after TOOL_CACHE_FILE_PATH (write_tool_cache ["[2"; "]"])
       [WriterStep; ReaderRead; WriterStep; WriterStep]
       {[TOOL_CACHE_FILE_PATH := "[1]"]}).2
  = Some (text ["[2"; "]"]).
Proof.
  apply (proj1 (cache_write_in_place TOOL_CACHE_FILE_PATH ["[2"; "]"]
                  {[TOOL_CACHE_FILE_PATH := "[1]"]})
           [WriterStep; ReaderRead; WriterStep; WriterStep]
           (after TOOL_CACHE_FILE_PATH (write_tool_cache ["[2"; "]"])
              [WriterStep; ReaderRead; WriterStep; WriterStep]
              {[TOOL_CACHE_FILE_PATH := "[1]"]}).2
           eq_refl [ReaderRead]).
  apply list_elem_of_here.
Defined.

Example torn_read :
  run MCP_SERVERS_CACHE_FILE_PATH (write_mcp_servers_cache ["{"; "}"])
      [ReaderRead; WriterStep; ReaderRead; WriterStep; ReaderRead;
       WriterStep; ReaderRead]
      {[MCP_SERVERS_CACHE_FILE_PATH := "{old}"]}
  = [Some "{old}"; Some ""; Some "{"; Some "{}"].
Proof. vm_compute. reflexivity. Qed.

End CacheFacts.

(** ** Health *)

Module HealthFacts.
Import Health.

(** Weaviate up, tool cache loaded, MCP-server cache file missing: the
    endpoint says DEGRADED where the specification, read to the letter,
    says ERROR. *)
Lemma degraded_with_one_cache_failing : ¬ spec_claim mcp_file_missing.
Proof. intros [H _]. vm_compute in H. discriminate. Qed.

Lemma status_cases s :
  overall_status_string s = "OK" ∨ overall_status_string s = "DEGRADED"
  ∨ overall_status_string s = "ERROR".
Proof.
  unfold overall_status_string.
  destruct (_ && _ && _); [by left|].
  destruct (weaviate_ok s); [right; by left | right; by right].
Qed.

(** C8, amended — Health. The status is OK iff the Vector Store check,
    the in-memory tool-cache check and the MCP-server cache-file check
    all pass; DEGRADED iff the Vector Store check passes and at least one
    of the two cache checks fails; ERROR iff the Vector Store check
    fails; the HTTP status code is 200 iff the status is OK and 503
    otherwise. *)
Theorem health_status s :
  ((health_check s).1 = "OK"
     ↔ vector_store_passes s = true ∧ tool_cache_passes s = true
       ∧ mcp_cache_passes s = true)
  ∧ ((health_check s).1 = "DEGRADED"
     ↔ vector_store_passes s = true
       ∧ (tool_cache_passes s = false ∨ mcp_cache_passes s = false))
  ∧ ((health_check s).1 = "ERROR" ↔ vector_store_passes s = false)
  ∧ ((health_check s).2 = 200 ↔ (health_check s).1 = "OK")
  ∧ ((health_check s).2 = 503 ↔ (health_check s).1 ≠ "OK").
Proof.
  unfold health_check, overall_status_string, vector_store_passes,
    tool_cache_passes, mcp_cache_passes. simpl.
  destruct (weaviate_ok s),
    (bool_decide (tool_cache_in_memory_status s = "OK")),
    (bool_decide (mcp_servers_cache_file_status s = "OK"));
    simpl; split_and!; split; intros; try done;
    intuition (try discriminate; try done).
Qed.

(** The checks are what the specification names. *)
Lemma checks_meaning s :
  (tool_cache_passes s = true ↔ is_Some (_tool_cache s))
  ∧ (mcp_cache_passes s = true
     ↔ ∃ n, mcp_servers_cache_file s = Readable n).
Proof.
  unfold tool_cache_passes, mcp_cache_passes, tool_cache_in_memory_status,
    mcp_servers_cache_file_status.
  split.
  - destruct (_tool_cache s) as [c|]; simpl.
    + split; [by eexists | done].
    + destruct (negb (tool_cache_file_exists s)); simpl;
        (split; [discriminate | by intros [? ?]]).
  - destruct (mcp_servers_cache_file s) as [|e|n]; simpl.
    + split; [discriminate | by intros [? ?]].
    + split; [discriminate | by intros [? ?]].
    + split; [by eexists | done].
Qed.

Example health_of_scenario :
  health_check mcp_file_missing = ("DEGRADED", 503).
Proof. reflexivity. Qed.

End HealthFacts.

(** * Further properties of the engine *)

(** ** More on pruning *)

Module PruneMore.
Import Prune.

Lemma size_list_to_set_le (l : list string) :
  size (list_to_set l : gset string) ≤ length l.
Proof.
  induction l as [|x l IH].
  - by rewrite list_to_set_nil, size_empty.
  - rewrite list_to_set_cons. simpl.
    pose proof (PruneFacts.size_add_le x (list_to_set l)). lia.
Qed.

Lemma size_union_le (X Y : gset string) : size (X ∪ Y) ≤ size X + size Y.
Proof.
  rewrite size_union_alt.
  assert (size (Y ∖ X) ≤ size Y) by (apply subseteq_size; set_solver). lia.
Qed.

Lemma prioritize_newly_subset current target l acc :
  acc ⊆ list_to_set l ∩ current →
  foldl (prioritize_newly current target) acc l ⊆ list_to_set l ∩ current.
Proof.
  assert (∀ l' acc', acc' ⊆ list_to_set l ∩ current →
            (∀ x, x ∈ l' → x ∈ l) →
            foldl (prioritize_newly current target) acc' l'
            ⊆ list_to_set l ∩ current) as Hgen.
  { induction l' as [|x l' IH]; intros acc' Hacc Hl'; simpl; [done|].
    apply IH; [|intros y Hy; apply Hl'; by right].
    unfold prioritize_newly. case_bool_decide as Hx; simpl; [|done].
    destruct (size acc' <? target); [|done].
    assert (x ∈ l) by (apply Hl'; by left). set_solver. }
  intros Hacc. by apply Hgen.
Qed.

Lemma prioritize_library_subset keeps target l acc :
  acc ⊆ keeps → foldl (prioritize_library keeps target) acc l ⊆ keeps.
Proof.
  revert acc. induction l as [|[[x n] ty] l IH]; intros acc Hacc; simpl; [done|].
  apply IH.
  destruct (bool_decide (ty = Some external_mcp)); simpl; [|done].
  case_bool_decide as Hx; simpl; [|done].
  destruct (bool_decide (x ∉ acc) && (size acc <? target)); set_solver.
Qed.

Lemma library_info_origin data seen tool_id name ty :
  (tool_id, name, ty) ∈ library_info data seen →
  ∃ t, t ∈ data ∧ id_or_tool_id t = Some tool_id ∧ t_tool_type t = ty.
Proof.
  revert seen. induction data as [|t data IH]; intros seen; cbn -[Py.truthy].
  - by intros ?%elem_of_nil.
  - destruct (id_or_tool_id t) as [i|] eqn:Hi.
    + destruct (Py.truthy (Some i) && bool_decide (i ∉ seen)).
      * intros [E|Hin]%elem_of_cons.
        -- injection E as -> -> ->. exists t. split_and!; [by left|done..].
        -- destruct (IH _ Hin) as (t' & ? & ? & ?). exists t'.
           split_and!; [by right|done..].
      * intros Hin. destruct (IH _ Hin) as (t' & ? & ? & ?). exists t'.
        split_and!; [by right|done..].
    + intros Hin. destruct (IH _ Hin) as (t' & ? & ? & ?). exists t'.
      split_and!; [by right|done..].
Qed.

Section Facts.
Variable set_iter : gset string → list string.
Hypothesis set_iter_perm : ∀ s, set_iter s ≡ₚ elements s.
Variable schedule : list Event → list Event.
Hypothesis schedule_perm : ∀ l, schedule l ≡ₚ l.

Lemma must_keep_subset current newly keep :
  must_keep set_iter current newly keep ⊆ current.
Proof. rewrite (PruneFacts.must_keep_eq set_iter set_iter_perm schedule schedule_perm). set_solver. Qed.

(** The aggressive branch keeps nothing but must-keep ids. *)
Lemma aggressive_keeps_subset current newly keep info target :
  aggressive_keeps set_iter current newly
    (must_keep set_iter current newly keep) info target
  ⊆ must_keep set_iter current newly keep.
Proof.
  unfold aggressive_keeps.
  destruct (target <? size (must_keep set_iter current newly keep)); [|done].
  apply prioritize_library_subset.
  rewrite (PruneFacts.must_keep_eq set_iter set_iter_perm schedule schedule_perm).
  etrans; [apply prioritize_newly_subset; set_solver|].
  rewrite (PruneFacts.list_to_set_set_iter set_iter set_iter_perm).
  set_solver.
Qed.

(** The other branch keeps the must-keep set and ids of [external_mcp]
    entries of the library list that are on the agent, at most
    [num_keep] ids. *)
Lemma filled_keeps_shape current keeps info num_keep :
  size keeps < num_keep →
  size (filled_keeps current keeps info num_keep) ≤ num_keep
  ∧ ∀ x, x ∈ filled_keeps current keeps info num_keep →
         x ∈ keeps
         ∨ (x ∈ current ∧ ∃ n, (x, n, Some external_mcp) ∈ info).
Proof.
  intros Hlt. unfold filled_keeps.
  rewrite PruneFacts.foldl_add_all. split.
  - etrans; [apply size_union_le|].
    etrans; [apply Nat.add_le_mono_l, size_list_to_set_le|].
    rewrite length_take. lia.
  - intros x [Hx|Hx%elem_of_list_to_set]%elem_of_union; [by left|]. right.
    apply elem_of_take in Hx as (i & Hx%list_elem_of_lookup_2 & _).
    apply list_elem_of_fmap in Hx as ([[y n] ty] & -> & Hy).
    apply list_elem_of_filter in Hy as [Hy Hin]. simpl in *.
    apply andb_true_iff in Hy as [Hy _]. apply andb_true_iff in Hy as [Hy Hc].
    apply bool_decide_eq_true_1 in Hy as ->.
    apply bool_decide_eq_true_1 in Hc. split; [done|]. by exists n.
Qed.

(** Whatever the branch, only ids of MCP tools on the agent are kept. *)
Lemma final_subset_current current newly keep info num_keep final :
  final_mcp_tool_ids_to_keep set_iter current newly keep info num_keep
  = inr final →
  final ⊆ current.
Proof.
  unfold final_mcp_tool_ids_to_keep.
  pose proof (must_keep_subset current newly keep) as Hm.
  destruct (Nat.leb_spec num_keep
              (size (must_keep set_iter current newly keep))).
  - destruct (aggressive_target (size current)) as [e|target]; [done|].
    intros [= <-]. etrans; [apply aggressive_keeps_subset|done].
  - intros [= <-]. intros x Hx.
    apply filled_keeps_shape in Hx as [Hx|[Hx _]]; [by apply Hm|done|lia].
Qed.

(** In the aggressive branch nothing but must-keep ids is kept. *)
Lemma final_aggressive_subset current newly keep info num_keep final :
  num_keep ≤ size (must_keep set_iter current newly keep) →
  final_mcp_tool_ids_to_keep set_iter current newly keep info num_keep
  = inr final →
  final ⊆ must_keep set_iter current newly keep.
Proof.
  intros Hle. unfold final_mcp_tool_ids_to_keep.
  destruct (Nat.leb_spec num_keep
              (size (must_keep set_iter current newly keep))); [|lia].
  destruct (aggressive_target (size current)) as [e|target]; [done|].
  intros [= <-]. apply aggressive_keeps_subset.
Qed.

(** In the normal branch the kept set is the must-keep set and ids of
    [external_mcp] entries of the library list, at most [num_keep] ids. *)
Lemma final_normal current newly keep info num_keep :
  size (must_keep set_iter current newly keep) < num_keep →
  ∃ final,
    final_mcp_tool_ids_to_keep set_iter current newly keep info num_keep
    = inr final
    ∧ size final ≤ num_keep
    ∧ ∀ x, x ∈ final →
           x ∈ must_keep set_iter current newly keep
           ∨ ∃ n, (x, n, Some external_mcp) ∈ info.
Proof.
  intros Hlt. unfold final_mcp_tool_ids_to_keep.
  destruct (Nat.leb_spec num_keep
              (size (must_keep set_iter current newly keep))); [lia|].
  eexists. split; [reflexivity|].
  destruct (filled_keeps_shape current
              (must_keep set_iter current newly keep) info num_keep Hlt)
    as [Hsize Hor].
  split; [done|]. intros x Hx.
  destruct (Hor x Hx) as [?|[_ ?]]; [by left|by right].
Qed.

(** Once its targets are computed, the decision is taken. *)
Lemma final_defined current newly keep info num_keep target :
  aggressive_target (size current) = inr target →
  ∃ final,
    final_mcp_tool_ids_to_keep set_iter current newly keep info num_keep
    = inr final.
Proof.
  intros Htarget. unfold final_mcp_tool_ids_to_keep. rewrite Htarget.
  destruct (num_keep <=? size (must_keep set_iter current newly keep));
    by eexists.
Qed.

(** How the current MCP ids, the kept ids and the detach requests of a
    completed call relate. *)
Lemma pruning_shape env agent_id user_prompt drop_rate keep newly tools
    num_keep final :
  fetch_agent_tools env agent_id = Some tools →
  0 < size (id_set (categorize tools).2) →
  num_mcp_tools_to_keep (size (id_set (categorize tools).2)) drop_rate
  = inr num_keep →
  final_mcp_tool_ids_to_keep set_iter (id_set (categorize tools).2)
    (list_to_set newly) (list_to_set keep)
    (library_info
       (Search.search_tools (hybrid env) user_prompt (search_limit num_keep))
       ∅) num_keep
  = inr final →
  ∃ details trace,
    _perform_tool_pruning set_iter schedule env agent_id user_prompt
      drop_rate keep newly = (Completed details, trace)
    ∧ final_mcp_tool_ids_kept_on_agent details ≡ₚ elements final
    ∧ detach_requests trace
      ≡ₚ elements (id_set (categorize tools).2 ∖ final)
    ∧ target_mcp_tools_to_keep_after_pruning details = num_keep
    ∧ mcp_tools_on_agent_before details = size (id_set (categorize tools).2).
Proof.
  intros Hfetch Hpos Hkeep Hfinal.
  destruct (PruneFacts.pruning_completed set_iter schedule schedule_perm env
              agent_id user_prompt drop_rate keep newly tools num_keep final
              Hfetch Hpos Hkeep Hfinal)
    as (details & trace & Hrun & Hkept & Ht & Hn & Hreq).
  exists details, trace. split; [exact Hrun|].
  split; [rewrite Hkept; apply set_iter_perm|].
  split; [rewrite Hreq; apply set_iter_perm|done].
Qed.

(** X1 — A pruning call that finds MCP tools on the agent and computes
    its targets ([math.floor] raises on a product that is NaN or
    infinite) completes and splits the agent's MCP tools in two: every
    current MCP id is either reported as kept or sent one detach
    request, never both, never twice, and nothing else is kept or
    detached. *)
Theorem pruning_partitions_mcp_tools env agent_id user_prompt drop_rate keep
    newly tools target alternate :
  fetch_agent_tools env agent_id = Some tools →
  0 < size (id_set (categorize tools).2) →
  num_mcp_tools_to_keep (size (id_set (categorize tools).2)) drop_rate
  = inr target →
  aggressive_target (size (id_set (categorize tools).2)) = inr alternate →
  ∃ details trace,
    _perform_tool_pruning set_iter schedule env agent_id user_prompt
      drop_rate keep newly = (Completed details, trace)
    ∧ NoDup (detach_requests trace)
    ∧ NoDup (final_mcp_tool_ids_kept_on_agent details)
    ∧ ∀ tool_id,
        (tool_id ∈ id_set (categorize tools).2
         ↔ tool_id ∈ final_mcp_tool_ids_kept_on_agent details
           ∨ tool_id ∈ detach_requests trace)
        ∧ ¬ (tool_id ∈ final_mcp_tool_ids_kept_on_agent details
             ∧ tool_id ∈ detach_requests trace).
Proof.
  intros Hfetch Hpos Htarget Halt.
  destruct (final_defined (id_set (categorize tools).2) (list_to_set newly)
              (list_to_set keep)
              (library_info
                 (Search.search_tools (hybrid env) user_prompt
                    (search_limit target)) ∅) target alternate Halt)
    as [final Hfinal].
  destruct (pruning_shape env agent_id user_prompt drop_rate keep newly tools
              target final Hfetch Hpos Htarget Hfinal)
    as (details & trace & Hrun & Hkept & Hreq & _).
  exists details, trace. split; [done|].
  assert (final ⊆ id_set (categorize tools).2) as Hsub
    by (by eapply final_subset_current).
  split; [rewrite Hreq; apply NoDup_elements|].
  split; [rewrite Hkept; apply NoDup_elements|].
  intros tool_id. rewrite Hkept, Hreq, !elem_of_elements.
  split; [|set_solver].
  destruct (decide (tool_id ∈ final)); set_solver.
Qed.

(** X2 — Normal mode honours the target. When the engine's target [T],
    the floor of the double product [N * (1.0 - drop_rate)], is computed
    and the must-keep set is smaller than [T], the call completes, at
    most [T] ids are kept and at least [N − T] detach requests are
    sent. *)
Theorem pruning_normal_mode_keeps_at_most_target env agent_id user_prompt
    drop_rate keep newly tools target :
  fetch_agent_tools env agent_id = Some tools →
  0 < size (id_set (categorize tools).2) →
  num_mcp_tools_to_keep (size (id_set (categorize tools).2)) drop_rate
  = inr target →
  size ((list_to_set keep ∪ list_to_set newly)
        ∩ id_set (categorize tools).2) < target →
  ∃ details trace,
    _perform_tool_pruning set_iter schedule env agent_id user_prompt
      drop_rate keep newly = (Completed details, trace)
    ∧ target_mcp_tools_to_keep_after_pruning details = target
    ∧ mcp_tools_on_agent_before details = size (id_set (categorize tools).2)
    ∧ length (final_mcp_tool_ids_kept_on_agent details) ≤ target
    ∧ size (id_set (categorize tools).2) - target
      ≤ length (detach_requests trace).
Proof.
  intros Hfetch Hpos Htarget Hlt.
  rewrite <- (PruneFacts.must_keep_eq set_iter set_iter_perm schedule
                schedule_perm) in Hlt.
  destruct (final_normal (id_set (categorize tools).2) (list_to_set newly)
              (list_to_set keep)
              (library_info
                 (Search.search_tools (hybrid env) user_prompt
                    (search_limit target)) ∅) target Hlt)
    as (final & Hfinal & Hsize & _).
  destruct (pruning_shape env agent_id user_prompt drop_rate keep newly tools
              target final Hfetch Hpos Htarget Hfinal)
    as (details & trace & Hrun & Hkept & Hreq & Ht & Hn).
  exists details, trace. split; [done|].
  rewrite Hkept, Hreq.
  change (length (elements final)) with (size final).
  change (length (elements (id_set (categorize tools).2 ∖ final)))
    with (size (id_set (categorize tools).2 ∖ final)).
  split_and!; [done..|].
  pose proof (PruneFacts.size_difference_ge (id_set (categorize tools).2) final).
  lia.
Qed.

(** X3 — Relevance decides. In a call that computes its targets, an MCP
    tool that is not must-keep is kept only if the library search
    returned it as an [external_mcp] tool: a current MCP tool outside
    [keep ∪ newly] that the search does not return is sent a detach
    request, whatever the drop rate. *)
Theorem pruning_detaches_unranked_tools env agent_id user_prompt drop_rate keep
    newly tools tool_id target alternate :
  fetch_agent_tools env agent_id = Some tools →
  tool_id ∈ id_set (categorize tools).2 →
  num_mcp_tools_to_keep (size (id_set (categorize tools).2)) drop_rate
  = inr target →
  aggressive_target (size (id_set (categorize tools).2)) = inr alternate →
  tool_id ∉ keep → tool_id ∉ newly →
  (∀ limit t, t ∈ Search.search_tools (hybrid env) user_prompt limit →
              t_tool_type t = Some external_mcp →
              id_or_tool_id t ≠ Some tool_id) →
  ∃ details trace,
    _perform_tool_pruning set_iter schedule env agent_id user_prompt
      drop_rate keep newly = (Completed details, trace)
    ∧ tool_id ∈ detach_requests trace
    ∧ tool_id ∉ final_mcp_tool_ids_kept_on_agent details.
Proof.
  intros Hfetch Hcur Htarget Halt Hk Hn Hlib.
  assert (0 < size (id_set (categorize tools).2)) as Hpos.
  { destruct (decide (size (id_set (categorize tools).2) = 0)) as [Hz|]; [|lia].
    apply size_empty_inv in Hz. set_solver. }
  set (info := library_info
                 (Search.search_tools (hybrid env) user_prompt
                    (search_limit target)) ∅).
  destruct (final_defined (id_set (categorize tools).2) (list_to_set newly)
              (list_to_set keep) info target alternate Halt)
    as [final Hfinal].
  destruct (pruning_shape env agent_id user_prompt drop_rate keep newly tools
              target final Hfetch Hpos Htarget Hfinal)
    as (details & trace & Hrun & Hkept & Hreq & _).
  exists details, trace. split; [done|].
  assert (tool_id ∉ final) as Hnot.
  { intros Hin.
    assert (tool_id ∉ must_keep set_iter (id_set (categorize tools).2)
                        (list_to_set newly) (list_to_set keep)) as Hmust.
    { rewrite (PruneFacts.must_keep_eq set_iter set_iter_perm schedule
                 schedule_perm). set_solver. }
    destruct (decide (target ≤ size (must_keep set_iter
                (id_set (categorize tools).2) (list_to_set newly)
                (list_to_set keep)))) as [Hle|Hgt].
    - by apply (final_aggressive_subset _ _ _ _ _ _ Hle Hfinal) in Hin.
    - destruct (final_normal (id_set (categorize tools).2) (list_to_set newly)
                  (list_to_set keep) info target ltac:(lia))
        as (final' & Hfinal' & _ & Hor).
      rewrite Hfinal in Hfinal'. injection Hfinal' as <-.
      destruct (Hor _ Hin) as [?|[n Hinfo]]; [done|].
      subst info. apply library_info_origin in Hinfo as (t & Ht & Hid & Hty).
      by eapply Hlib. }
  rewrite Hkept, Hreq, !elem_of_elements. set_solver.
Qed.

(** X4 — Aggressive mode never adds a tool. When the engine's targets
    are computed, [T] being the floor of the double product
    [N * (1.0 - drop_rate)], and the must-keep set reaches [T], the call
    completes and every id reported as kept belongs to the must-keep
    set: tools the caller did not ask to keep are all sent a detach
    request, however relevant. *)
Theorem pruning_aggressive_keeps_only_must_keep env agent_id user_prompt
    drop_rate keep newly tools target alternate :
  fetch_agent_tools env agent_id = Some tools →
  0 < size (id_set (categorize tools).2) →
  num_mcp_tools_to_keep (size (id_set (categorize tools).2)) drop_rate
  = inr target →
  aggressive_target (size (id_set (categorize tools).2)) = inr alternate →
  target ≤ size ((list_to_set keep ∪ list_to_set newly)
                 ∩ id_set (categorize tools).2) →
  ∃ details trace,
    _perform_tool_pruning set_iter schedule env agent_id user_prompt
      drop_rate keep newly = (Completed details, trace)
    ∧ (∀ tool_id,
         tool_id ∈ final_mcp_tool_ids_kept_on_agent details →
         tool_id ∈ (list_to_set keep ∪ list_to_set newly)
                   ∩ id_set (categorize tools).2)
    ∧ ∀ tool_id,
        tool_id ∈ id_set (categorize tools).2 →
        tool_id ∉ keep → tool_id ∉ newly →
        tool_id ∈ detach_requests trace.
Proof.
  intros Hfetch Hpos Htarget Halt Hge.
  rewrite <- (PruneFacts.must_keep_eq set_iter set_iter_perm schedule
                schedule_perm) in Hge.
  destruct (final_defined (id_set (categorize tools).2) (list_to_set newly)
              (list_to_set keep)
              (library_info
                 (Search.search_tools (hybrid env) user_prompt
                    (search_limit target)) ∅) target alternate Halt)
    as [final Hfinal].
  destruct (pruning_shape env agent_id user_prompt drop_rate keep newly tools
              target final Hfetch Hpos Htarget Hfinal)
    as (details & trace & Hrun & Hkept & Hreq & _).
  exists details, trace. split; [done|].
  pose proof (final_aggressive_subset _ _ _ _ _ _ Hge Hfinal) as Hsub.
  rewrite (PruneFacts.must_keep_eq set_iter set_iter_perm schedule
             schedule_perm) in Hsub.
  split.
  - intros tool_id. rewrite Hkept, elem_of_elements. apply Hsub.
  - intros tool_id Hcur Hk Hn. rewrite Hreq, elem_of_elements.
    set_solver.
Qed.

End Facts.

(** The scenario with ten MCP tools: all ten are kept or detached. *)
Lemma pruning_partitions_mcp_tools_witness :
  ∃ details trace,
    _perform_tool_pruning elements id (Scenario.prune_env Scenario.agent10)
      "A" "p" (Float.ratio 6 10) ["t3"] [] = (Completed details, trace)
    ∧ NoDup (detach_requests trace)
    ∧ NoDup (final_mcp_tool_ids_kept_on_agent details)
    ∧ ∀ tool_id,
        (tool_id ∈ id_set (categorize Scenario.agent10).2
         ↔ tool_id ∈ final_mcp_tool_ids_kept_on_agent details
           ∨ tool_id ∈ detach_requests trace)
        ∧ ¬ (tool_id ∈ final_mcp_tool_ids_kept_on_agent details
             ∧ tool_id ∈ detach_requests trace).
Proof.
  apply (pruning_partitions_mcp_tools elements PruneFacts.elements_enumerates
           id PruneFacts.sequential_schedule
           (Scenario.prune_env Scenario.agent10) "A" "p" (Float.ratio 6 10)
           ["t3"] [] Scenario.agent10 4 8).
  - reflexivity.
  - vm_compute. lia.
  - vm_compute. reflexivity.
  - vm_compute. reflexivity.
Defined.

(** Ten MCP tools at drop rate 0.6: target 4, at least 6 requests. *)
Lemma pruning_normal_mode_keeps_at_most_target_witness :
  ∃ details trace,
    _perform_tool_pruning elements id (Scenario.prune_env Scenario.agent10)
      "A" "p" (Float.ratio 6 10) ["t3"] [] = (Completed details, trace)
    ∧ target_mcp_tools_to_keep_after_pruning details = 4
    ∧ mcp_tools_on_agent_before details
      = size (id_set (categorize Scenario.agent10).2)
    ∧ length (final_mcp_tool_ids_kept_on_agent details) ≤ 4
    ∧ size (id_set (categorize Scenario.agent10).2) - 4
      ≤ length (detach_requests trace).
Proof.
  apply (pruning_normal_mode_keeps_at_most_target elements
           PruneFacts.elements_enumerates id PruneFacts.sequential_schedule
           (Scenario.prune_env Scenario.agent10) "A" "p" (Float.ratio 6 10)
           ["t3"] [] Scenario.agent10 4).
  - reflexivity.
  - vm_compute. lia.
  - vm_compute. reflexivity.
  - vm_compute. lia.
Defined.

(** ["t8"] is on the agent, not to be kept and not in the library list. *)
Lemma pruning_detaches_unranked_tools_witness :
  ∃ details trace,
    _perform_tool_pruning elements id (Scenario.prune_env Scenario.agent10)
      "A" "p" Float.zero ["t3"] [] = (Completed details, trace)
    ∧ "t8" ∈ detach_requests trace
    ∧ "t8" ∉ final_mcp_tool_ids_kept_on_agent details.
Proof.
  apply (pruning_detaches_unranked_tools elements
           PruneFacts.elements_enumerates id PruneFacts.sequential_schedule
           (Scenario.prune_env Scenario.agent10) "A" "p" Float.zero ["t3"] []
           Scenario.agent10 "t8" 10 8).
  - reflexivity.
  - apply (bool_decide_unpack _). vm_compute. exact I.
  - vm_compute. reflexivity.
  - vm_compute. reflexivity.
  - apply (bool_decide_unpack _). vm_compute. exact I.
  - apply (bool_decide_unpack _). vm_compute. exact I.
  - intros limit t Ht _. vm_compute in Ht.
    repeat (apply elem_of_cons in Ht as [->|Ht]; [vm_compute; discriminate|]).
    by apply elem_of_nil in Ht.
Defined.

(** Five MCP tools at drop rate 0.1, four of them to keep: the target is
    4, the fifth tool goes although the search ranks it. *)
Lemma pruning_aggressive_keeps_only_must_keep_witness :
  ∃ details trace,
    _perform_tool_pruning elements id (Scenario.prune_env Scenario.agent5)
      "A" "p" (Float.ratio 1 10) ["t1"; "t2"; "t3"; "t4"] []
    = (Completed details, trace)
    ∧ (∀ tool_id,
         tool_id ∈ final_mcp_tool_ids_kept_on_agent details →
         tool_id ∈ (list_to_set ["t1"; "t2"; "t3"; "t4"] ∪ list_to_set [])
                   ∩ id_set (categorize Scenario.agent5).2)
    ∧ ∀ tool_id,
        tool_id ∈ id_set (categorize Scenario.agent5).2 →
        tool_id ∉ ["t1"; "t2"; "t3"; "t4"] → tool_id ∉ @nil string →
        tool_id ∈ detach_requests trace.
Proof.
  apply (pruning_aggressive_keeps_only_must_keep elements
           PruneFacts.elements_enumerates id PruneFacts.sequential_schedule
           (Scenario.prune_env Scenario.agent5) "A" "p" (Float.ratio 1 10)
           ["t1"; "t2"; "t3"; "t4"] [] Scenario.agent5 4 4).
  - reflexivity.
  - vm_compute. lia.
  - vm_compute. reflexivity.
  - vm_compute. reflexivity.
  - vm_compute. lia.
Defined.

End PruneMore.

(** ** More on attach calls *)

Module AttachMore.
Import Attach.

Lemma elem_of_detach_requests trace tool_id :
  tool_id ∈ detach_requests trace ↔ EvDetachRequest tool_id ∈ trace.
Proof.
  unfold detach_requests. rewrite list_elem_of_omap. split.
  - intros (e & He & Heq). destruct e; try discriminate.
    by injection Heq as ->.
  - intros He. by exists (EvDetachRequest tool_id).
Qed.

Lemma ids_after_set_ids v t :
  Py.truthy v = true →
  id_or_tool_id (set_ids v t) = v ∧ tool_id_or_id (set_ids v t) = v.
Proof.
  intros Hv. unfold id_or_tool_id, tool_id_or_id, Py.or_. simpl.
  by rewrite Hv.
Qed.

(** What [unique_mcp_tools] lets through, and what it leaves out. *)
Lemma unique_mcp_tools_sound tools seen t :
  t ∈ unique_mcp_tools tools seen →
  ∃ t0 tool_id,
    t0 ∈ tools ∧ t_tool_type t0 = Some external_mcp
    ∧ id_or_tool_id t0 = Some tool_id ∧ tool_id ≠ "" ∧ (tool_id ∉ seen)
    ∧ t = set_ids (Some tool_id) t0.
Proof.
  revert seen. induction tools as [|t0 tools IH]; intros seen;
    cbn -[Py.truthy].
  - by intros ?%elem_of_nil.
  - assert (t ∈ unique_mcp_tools tools seen →
            ∃ t1 tool_id, t1 ∈ t0 :: tools ∧ t_tool_type t1 = Some external_mcp
              ∧ id_or_tool_id t1 = Some tool_id ∧ tool_id ≠ "" ∧ (tool_id ∉ seen)
              ∧ t = set_ids (Some tool_id) t1) as Hrest.
    { intros Hin. destruct (IH _ Hin) as (t1 & i & ? & ? & ? & ? & ? & ?).
      exists t1, i. split_and!; try done. by right. }
    unfold is_external_mcp. case_bool_decide as Hty; [|exact Hrest].
    destruct (id_or_tool_id t0) as [i|] eqn:Hi; [|exact Hrest].
    destruct (Py.truthy (Some i)) eqn:Htr; [|exact Hrest].
    case_bool_decide as Hseen; [|exact Hrest]. cbn [andb].
    intros [->|Hin]%elem_of_cons.
    + apply PruneFacts.truthy_Some_nonempty in Htr as (s & [= <-] & Hne).
      exists t0, i. split_and!; try done. by left.
    + destruct (IH _ Hin) as (t1 & j & ? & ? & ? & ? & Hj & ?).
      exists t1, j. split_and!; try done; [by right|set_solver].
Qed.

Lemma unique_mcp_tools_NoDup tools seen :
  NoDup (omap t_id (unique_mcp_tools tools seen)).
Proof.
  revert seen. induction tools as [|t0 tools IH]; intros seen;
    cbn -[Py.truthy]; [constructor|].
  destruct (is_external_mcp t0); [|apply IH].
  destruct (id_or_tool_id t0) as [i|] eqn:Hi; [|apply IH].
  destruct (Py.truthy (Some i) && bool_decide (i ∉ seen)); [|apply IH].
  cbn. constructor; [|apply IH].
  intros (t & Ht & Hid)%list_elem_of_omap.
  apply unique_mcp_tools_sound in Ht as (t1 & j & _ & _ & _ & _ & Hj & ->).
  simpl in Hid. injection Hid as ->. set_solver.
Qed.

Lemma unique_mcp_tools_complete tools seen t0 tool_id :
  t0 ∈ tools → t_tool_type t0 = Some external_mcp →
  id_or_tool_id t0 = Some tool_id → tool_id ≠ "" → tool_id ∉ seen →
  ∃ t, t ∈ unique_mcp_tools tools seen ∧ t_id t = Some tool_id.
Proof.
  revert seen. induction tools as [|t1 tools IH]; intros seen Hin Hty Hid Hne Hs.
  - by apply elem_of_nil in Hin.
  - cbn -[Py.truthy].
    apply elem_of_cons in Hin as [<-|Hin].
    + unfold is_external_mcp. rewrite bool_decide_eq_true_2 by done.
      rewrite Hid.
      assert (Py.truthy (Some tool_id) = true) as ->
        by (simpl; by destruct (String.eqb_spec tool_id "")).
      rewrite bool_decide_eq_true_2 by done. cbn.
      eexists. split; [by left|done].
    + assert (∀ seen', tool_id ∉ seen' →
                ∃ t, t ∈ unique_mcp_tools tools seen' ∧ t_id t = Some tool_id)
        as Hrest by (intros; by apply IH).
      destruct (is_external_mcp t1); [|by apply Hrest].
      destruct (id_or_tool_id t1) as [i|] eqn:Hi; [|by apply Hrest].
      destruct (Py.truthy (Some i)) eqn:Htr; [|by apply Hrest].
      case_bool_decide as Hseen; [|by apply Hrest]. cbn [andb].
      destruct (decide (i = tool_id)) as [->|Hdiff].
      * eexists. split; [by left|done].
      * destruct (Hrest ({[i]} ∪ seen)) as (t & ? & ?); [set_solver|].
        exists t. split; [by right|done].
Qed.

(** X6 — The MCP tools [attach_tools] works on. The list built from the
    agent's listing holds exactly one entry per id of an [external_mcp]
    tool of the listing: no id twice, no tool of another type, no tool
    without id, and both id fields of an entry carry the id. *)
Theorem unique_mcp_tools_one_per_id tools :
  NoDup (omap t_id (unique_mcp_tools tools ∅))
  ∧ (∀ t, t ∈ unique_mcp_tools tools ∅ →
          t_tool_type t = Some external_mcp ∧ t_id t = t_tool_id t
          ∧ ∃ tool_id, t_id t = Some tool_id ∧ tool_id ≠ "")
  ∧ (∀ tool_id,
       tool_id ≠ "" →
       (tool_id ∈ omap t_id (unique_mcp_tools tools ∅)
        ↔ ∃ t0, t0 ∈ tools ∧ t_tool_type t0 = Some external_mcp
                ∧ id_or_tool_id t0 = Some tool_id)).
Proof.
  split_and!.
  - apply unique_mcp_tools_NoDup.
  - intros t (t0 & i & _ & Hty & _ & Hne & _ & ->)%unique_mcp_tools_sound.
    simpl. split_and!; [done..|]. by exists i.
  - intros tool_id Hne. rewrite list_elem_of_omap. split.
    + intros (t & Ht & Hid).
      apply unique_mcp_tools_sound in Ht as (t0 & i & ? & ? & ? & _ & _ & ->).
      simpl in Hid. injection Hid as ->. by exists t0.
    + intros (t0 & Hin & Hty & Hid).
      destruct (unique_mcp_tools_complete tools ∅ t0 tool_id) as (t & ? & ?);
        [done..|set_solver|]. by exists t.
Qed.

Lemma elem_of_keep_tool_id_set keep_tools matching_tools x :
  x ∈ keep_tool_id_set keep_tools matching_tools
  ↔ x ≠ "" ∧ (x ∈ keep_tools
              ∨ ∃ m, m ∈ matching_tools ∧ id_or_tool_id m = Some x).
Proof.
  unfold keep_tool_id_set.
  rewrite elem_of_union, !elem_of_list_to_set, list_elem_of_filter,
    list_elem_of_omap.
  assert (Py.truthy (Some x) = true ↔ x ≠ "") as Htr.
  { simpl. destruct (String.eqb_spec x ""); simpl; split; congruence. }
  split.
  - intros [[Hx Hin]|(m & Hm & Hid)].
    + split; [by apply Htr|by left].
    + destruct (Py.truthy (id_or_tool_id m)) eqn:Ht; [|done].
      rewrite Hid in Ht. split; [by apply Htr|]. right. by exists m.
  - intros [Hne [Hin|(m & Hm & Hid)]].
    + left. split; [by apply Htr|done].
    + right. exists m. split; [done|]. rewrite Hid.
      by rewrite (proj2 Htr Hne).
Qed.

(** X8 — A resolved candidate can be attached. Whatever
    [process_matching_tool] returns, from the catalog cache or from a
    registration, has a non-empty ["id"] and a non-empty ["tool_id"]; a
    candidate without name is dropped without any request. *)
Theorem resolved_tool_has_ids env tool cache :
  (∀ r, (process_matching_tool env tool cache).1 = Some r →
        Py.truthy (t_id r) = true ∧ Py.truthy (t_tool_id r) = true)
  ∧ (Py.truthy (t_name tool) = false →
     process_matching_tool env tool cache = (None, [])).
Proof.
  split.
  - unfold process_matching_tool.
    destruct (t_name tool) as [tool_name|]; [|done].
    destruct (Py.truthy (Some tool_name)); cbn -[Py.truthy]; [|done].
    set (registration :=
           match t_mcp_server_name tool with
           | Some originating_server => _
           | None => _
           end).
    assert (∀ r, registration.1 = Some r →
              Py.truthy (t_id r) = true ∧ Py.truthy (t_tool_id r) = true)
      as Hreg.
    { intros r. subst registration.
      destruct (t_mcp_server_name tool) as [srv|]; [|done].
      destruct (Py.truthy (Some srv)); cbn -[Py.truthy]; [|done].
      unfold register_tool.
      destruct (http_session env); cbn -[Py.truthy]; [|done].
      destruct (register_response env srv tool_name) as [rt|]; [|done].
      destruct (Py.truthy (t_id rt)) eqn:Hi,
        (Py.truthy (t_tool_id rt)) eqn:Hti; cbn -[Py.truthy];
        try done; intros [= <-]; cbn -[Py.truthy]; by rewrite ?Hi, ?Hti. }
    destruct (List.find _ cache) as [existing|]; [|apply Hreg].
    destruct (Py.truthy (id_or_tool_id existing)) eqn:Hid; [|apply Hreg].
    intros r [= <-]. by cbn -[Py.truthy].
  - unfold process_matching_tool.
    destruct (t_name tool) as [tool_name|]; [|done].
    by intros ->.
Qed.

Lemma attach_tool_success session tool answer :
  ar_success (attach_tool session tool answer) = true →
  session = true
  ∧ (∃ body, answer = HttpStatus 200 body ∨ answer = HttpUnparsable 200 body)
  ∧ Py.truthy (ar_tool_id (attach_tool session tool answer)) = true
  ∧ ar_tool_id (attach_tool session tool answer) = tool_id_or_id tool
  ∧ ar_match_score (attach_tool session tool answer)
    = Some (match_score tool).
Proof.
  unfold attach_tool.
  destruct session; cbn -[Py.truthy]; [|done].
  destruct (Py.truthy (tool_id_or_id tool)) eqn:Hid; cbn -[Py.truthy];
    [|done].
  destruct answer as [code body|code body| |msg]; cbn -[Py.truthy];
    [| |done..];
    (destruct (Nat.eqb_spec code 200) as [->|]; cbn -[Py.truthy]; [|done]);
    intros _; (split_and!; try done); exists body; [by left|by right].
Qed.

Lemma omap_length_le {A B} (f : A → option B) (l : list A) :
  length (omap f l) ≤ length l.
Proof.
  induction l as [|x l IH]; csimpl; [done|]. destruct (f x); csimpl; lia.
Qed.

Lemma elem_of_lefts_zip_with {A B C D} (f : A → B → C + D) l k c :
  c ∈ Prune.lefts (zip_with f l k) →
  ∃ i x y, l !! i = Some x ∧ k !! i = Some y ∧ f x y = inl c.
Proof.
  unfold Prune.lefts. rewrite list_elem_of_omap.
  intros (z & Hz & Hc).
  apply list_elem_of_lookup in Hz as (i & Hz).
  apply lookup_zip_with_Some in Hz as (x & y & -> & Hx & Hy).
  exists i, x, y. split_and!; [done..|].
  destruct (f x y); [by injection Hc as ->|done].
Qed.

Section Calls.
Variable set_iter : gset string → list string.
Variable schedule : list Event → list Event.
Hypothesis schedule_perm : ∀ l, schedule l ≡ₚ l.

Lemma detach_request_of_batch (to_detach : list ToolRef) tool_id :
  EvDetachRequest tool_id
  ∈ to_detach ≫= (λ t, detach_tool_events true (tr_tool_id t))
  ↔ ∃ r, r ∈ to_detach ∧ tr_tool_id r = tool_id.
Proof.
  rewrite list_elem_of_bind. split.
  - intros (r & Hr & Hin). exists r. split; [done|].
    unfold detach_tool_events in Hr.
    apply elem_of_cons in Hr as [E|Hr]; [by injection E|].
    by apply list_elem_of_singleton in Hr.
  - intros (r & Hin & <-). exists r. split; [|done].
    unfold detach_tool_events. by left.
Qed.

(** The detach requests of [process_tools] are for MCP tools handed in
    that are outside the keep set. *)
Lemma process_tools_detach_sound env mcp_tools matching_tools keep_tools
    tool_id :
  http_session env = true →
  tool_id ∈ detach_requests
              (process_tools schedule env mcp_tools matching_tools keep_tools).2 →
  tool_id ≠ ""
  ∧ (∃ tool, tool ∈ mcp_tools ∧ tool_id_or_id tool = Some tool_id)
  ∧ (tool_id ∉ keep_tools)
  ∧ ∀ m, m ∈ matching_tools → id_or_tool_id m ≠ Some tool_id.
Proof.
  intros Hs. unfold process_tools. rewrite Hs. cbn [negb snd].
  rewrite elem_of_detach_requests, elem_of_app, !(schedule_perm _).
  intros [Hin|Hin].
  - apply detach_request_of_batch in Hin as (r & Hr & <-).
    unfold tools_to_detach in Hr.
    apply list_elem_of_omap in Hr as (tool & Htool & Hsome).
    destruct (tool_id_or_id tool) as [i|] eqn:Hi; [|done].
    destruct (Py.truthy (Some i)) eqn:Htr; [|done].
    case_bool_decide as Hk; [|done]. cbn in Hsome. injection Hsome as <-.
    cbn. apply PruneFacts.truthy_Some_nonempty in Htr as (s & [= <-] & Hne).
    rewrite elem_of_keep_tool_id_set in Hk.
    split_and!; [done|by exists tool|..].
    + intros Hin. apply Hk. split; [done|by left].
    + intros m Hm Hid. apply Hk. split; [done|]. right. by exists m.
  - by apply OrderFacts.elem_of_attach_events
      in Hin as (? & ? & _ & _ & _ & [?|?]).
Qed.

(** X7 — [process_tools] detaches exactly what is not kept. With a live
    session, a detach request is sent for a tool id iff it is the id of
    one of the MCP tools handed in and is neither listed in [keep_tools]
    nor the id of a tool about to be attached. *)
Theorem process_tools_detaches_exactly_the_unkept env mcp_tools matching_tools
    keep_tools tool_id :
  http_session env = true →
  tool_id ∈ detach_requests
              (process_tools schedule env mcp_tools matching_tools keep_tools).2
  ↔ tool_id ≠ ""
    ∧ (∃ tool, tool ∈ mcp_tools ∧ tool_id_or_id tool = Some tool_id)
    ∧ (tool_id ∉ keep_tools)
    ∧ ∀ m, m ∈ matching_tools → id_or_tool_id m ≠ Some tool_id.
Proof.
  intros Hs. split; [by apply process_tools_detach_sound|].
  intros (Hne & (tool & Htool & Hid) & Hk & Hm).
  unfold process_tools. rewrite Hs. cbn [negb snd].
  rewrite elem_of_detach_requests, elem_of_app, !(schedule_perm _).
  left. apply detach_request_of_batch.
  exists (mkToolRef tool_id (Py.get_default (t_name tool) "Unknown")).
  split; [|done]. unfold tools_to_detach. apply list_elem_of_omap.
  exists tool. split; [done|]. rewrite Hid.
  assert (Py.truthy (Some tool_id) = true) as ->
    by (simpl; by destruct (String.eqb_spec tool_id "")).
  rewrite bool_decide_eq_true_2; [done|].
  rewrite elem_of_keep_tool_id_set. intros [_ [?|(m & ? & ?)]]; [done|].
  by eapply Hm.
Qed.

(** What a successful [manage_tools] did. *)
Lemma manage_tools_success env agent_id query limit keep_tools details :
  response (manage_tools set_iter schedule env agent_id query limit keep_tools)
  = Success details →
  ∃ current,
    http_session env = true ∧ agent_tools env agent_id = Some current
    ∧ let candidates := Search.search_tools (hybrid env) query limit in
      let processed :=
        (λ tool, process_matching_tool env tool (tool_cache env))
          <$> candidates in
      let results :=
        process_tools schedule env (unique_mcp_tools current ∅)
          (omap fst processed) keep_tools in
      details
      = mkDetails (detached_tools results.1) (failed_detachments results.1)
          (length candidates) (length (omap fst processed))
          (length (successful_attachments results.1))
          (length (failed_attachments results.1))
          (successful_attachments results.1) (failed_attachments results.1)
          keep_tools agent_id
      ∧ Order.until_pruning
          (trace (manage_tools set_iter schedule env agent_id query limit
                    keep_tools))
        = [EvFetchAgent; EvSearch query limit] ++ (processed ≫= snd)
          ++ results.2.
Proof.
  unfold manage_tools.
  destruct (http_session env) eqn:Hs; [|done].
  destruct (agent_info env agent_id); [|done].
  destruct (agent_tools env agent_id) as [current|]; [|done].
  destruct (weaviate_ready env || weaviate_ready_after_reinit env); [|done].
  cbn [negb].
  set (processed := (λ tool, process_matching_tool env tool (tool_cache env))
                      <$> Search.search_tools (hybrid env) query limit).
  set (results := process_tools schedule env (unique_mcp_tools current ∅)
                    (omap fst processed) keep_tools).
  assert (EvPruneBegin
          ∉ [EvFetchAgent; EvSearch query limit] ++ (processed ≫= snd)
            ++ results.2) as Hnot.
  { rewrite !elem_of_app. intros [H|[H|H]].
    - apply elem_of_cons in H as [?|H]; [done|].
      by apply list_elem_of_singleton in H.
    - apply list_elem_of_bind in H as (p & He & Hp).
      subst processed. apply list_elem_of_fmap in Hp as (tool & -> & _).
      by apply OrderFacts.process_matching_tool_events in He as (? & ? & ?).
    - destruct (OrderFacts.process_tools_phases schedule schedule_perm env
                  (unique_mcp_tools current ∅) (omap fst processed) keep_tools)
        as (d & a & Hda & Hd & Ha & _).
      fold results in Hda. rewrite Hda in H.
      apply elem_of_app in H as [H|H]; [by apply Hd in H|by apply Ha in H]. }
  destruct (Py.truthy (Some query)
            && negb (bool_decide (successful_attachments results.1 = [])));
    cbn [response trace]; intros [= <-]; exists current;
    (split; [done|]); (split; [done|]); (split; [done|]).
  - by apply OrderFacts.until_pruning_app_begin.
  - by apply OrderFacts.until_pruning_id.
Qed.

(** What an [attach_tools] call that answers 200 did. *)
Lemma attach_tools_success env data details :
  response (attach_tools set_iter schedule env data) = Success details →
  ∃ body agent_id,
    data = Some body ∧ rq_agent_id body = Some agent_id
    ∧ attach_tools set_iter schedule env data
      = manage_tools set_iter schedule env agent_id
          (default "" (rq_query body)) (default 10 (rq_limit body))
          (default [] (rq_keep_tools body)).
Proof.
  unfold attach_tools.
  destruct data as [body|]; [|done].
  destruct (no_body (Some body)); [done|].
  destruct (rq_agent_id body) as [agent_id|] eqn:Hid; [|done].
  destruct (negb (Py.truthy (Some agent_id))); [done|].
  intros _. exists body, agent_id. split_and!; [done|exact Hid|reflexivity].
Qed.

(** X9 — The counts of an attach response add up. In a 200 answer every
    resolved candidate is reported once, as a successful or as a failed
    attachment; the resolved candidates are at most the search hits; and
    each successful attachment carries a non-empty tool id and a match
    score. *)
Theorem attach_response_counts env data details :
  response (attach_tools set_iter schedule env data) = Success details →
  d_success_count details + d_failure_count details
  = d_passed_filter_count details
  ∧ d_passed_filter_count details ≤ d_processed_count details
  ∧ d_success_count details = length (d_successful_attachments details)
  ∧ d_failure_count details = length (d_failed_attachments details)
  ∧ ∀ r, r ∈ d_successful_attachments details →
         ar_success r = true ∧ Py.truthy (ar_tool_id r) = true
         ∧ is_Some (ar_match_score r).
Proof.
  intros Hresp.
  destruct (attach_tools_success env data details Hresp)
    as (body & agent_id & -> & Hid & Hrun).
  rewrite Hrun in Hresp.
  destruct (manage_tools_success _ _ _ _ _ _ Hresp)
    as (current & Hs & Htools & Hd & _).
  cbv zeta in Hd. rewrite Hd. cbn [d_success_count d_failure_count
    d_passed_filter_count d_processed_count d_successful_attachments
    d_failed_attachments].
  split_and!; [|..|done|done|].
  - apply (BatchFacts.process_tools_counts schedule env _ _ _ Hs).
  - rewrite <- (length_fmap
                 (λ tool, process_matching_tool env tool (tool_cache env))
                 (Search.search_tools (hybrid env) (default "" (rq_query body))
                    (default 10 (rq_limit body)))).
    apply omap_length_le.
  - intros r. unfold process_tools. rewrite Hs. cbn [negb fst
      successful_attachments]. unfold attach_outcomes, attach_gather.
    intros (i & tool & y & Htool & Hy & Hrec)%elem_of_lefts_zip_with.
    apply list_lookup_imap_Some in Hy as (tool' & Htool' & ->).
    rewrite Htool in Htool'. injection Htool' as <-.
    unfold record_attach in Hrec.
    destruct (ar_success (attach_tool true tool (attach_response env i)))
      eqn:Hok; [|done].
    injection Hrec as <-.
    destruct (attach_tool_success _ _ _ Hok) as (_ & _ & Hid' & _ & Hm).
    split_and!; [done..|]. rewrite Hm. by eexists.
Qed.

(** X10 — Before pruning, an attach call detaches only MCP tools it was
    not told to keep. Every detach request sent before the chained
    pruning begins carries the id of an [external_mcp] tool of the agent's
    listing, and that id is not listed in [keep_tools]. *)
Theorem attach_detaches_only_unkept_mcp_tools env data tool_id :
  tool_id ∈ detach_requests
              (Order.until_pruning
                 (trace (attach_tools set_iter schedule env data))) →
  ∃ body agent_id tools tool,
    data = Some body ∧ rq_agent_id body = Some agent_id
    ∧ agent_tools env agent_id = Some tools
    ∧ tool ∈ tools ∧ t_tool_type tool = Some external_mcp
    ∧ id_or_tool_id tool = Some tool_id
    ∧ tool_id ∉ default [] (rq_keep_tools body).
Proof.
  intros Hin.
  destruct (response (attach_tools set_iter schedule env data))
    as [e|e|e|details] eqn:Hresp.
  1-3: exfalso; revert Hresp Hin; unfold attach_tools;
    destruct data as [body|]; [|by intros _ ?%elem_of_nil];
    (destruct (no_body (Some body)); [by intros _ ?%elem_of_nil|]);
    (destruct (rq_agent_id body) as [agent_id|]; [|by intros _ ?%elem_of_nil]);
    (destruct (negb (Py.truthy (Some agent_id)));
       [by intros _ ?%elem_of_nil|]);
    unfold manage_tools;
    (destruct (http_session env); [|by intros _ ?%elem_of_nil]);
    (destruct (agent_info env agent_id); [|by intros _ ?%elem_of_nil]);
    (destruct (agent_tools env agent_id); [|by intros _ ?%elem_of_nil]);
    (destruct (weaviate_ready env || weaviate_ready_after_reinit env);
       [|by intros _ ?%elem_of_nil]);
    cbn [negb];
    by destruct (Py.truthy _ && negb _).
  destruct (attach_tools_success env data details Hresp)
    as (body & agent_id & -> & Hid & Hrun).
  rewrite Hrun in Hresp, Hin.
  destruct (manage_tools_success _ _ _ _ _ _ Hresp)
    as (current & Hs & Htools & _ & Htrace).
  cbv zeta in Htrace. rewrite Htrace in Hin.
  apply elem_of_detach_requests in Hin.
  rewrite !elem_of_app in Hin. destruct Hin as [Hin|[Hin|Hin]].
  - apply elem_of_cons in Hin as [?|Hin]; [done|].
    by apply list_elem_of_singleton in Hin.
  - apply list_elem_of_bind in Hin as (p & He & Hp).
    apply list_elem_of_fmap in Hp as (tool & -> & _).
    by apply OrderFacts.process_matching_tool_events in He as (? & ? & ?).
  - apply elem_of_detach_requests, process_tools_detach_sound in Hin
      as (Hne & (t & Ht & Htid) & Hk & _); [|done].
    apply unique_mcp_tools_sound in Ht as (t0 & i & Ht0 & Hty & Hi & Hi' & _ & ->).
    assert (Py.truthy (Some i) = true) as Htr
      by (simpl; by destruct (String.eqb_spec i "")).
    destruct (ids_after_set_ids (Some i) t0 Htr) as [_ Hti].
    rewrite Hti in Htid. injection Htid as ->.
    by exists body, agent_id, current, t0.
Qed.

End Calls.

(** The attach call of the scenario: one hit, resolved and attached. *)
Lemma attach_response_counts_witness :
  ∃ details,
    response (attach_tools elements id (AttachScenario.env AttachScenario.store)
                (Some (AttachScenario.request "send chat message")))
    = Success details
    ∧ d_success_count details + d_failure_count details
      = d_passed_filter_count details
    ∧ d_passed_filter_count details ≤ d_processed_count details.
Proof.
  eexists. split; [vm_compute; reflexivity|].
  destruct (attach_response_counts elements id PruneFacts.sequential_schedule
              (AttachScenario.env AttachScenario.store)
              (Some (AttachScenario.request "send chat message")) _ eq_refl)
    as (H1 & H2 & _).
  split; [exact H1|exact H2].
Defined.

(** In the scenario ["t2"] is detached before pruning: it is an MCP tool
    of the agent. *)
Lemma attach_detaches_only_unkept_mcp_tools_witness :
  ∃ body agent_id tools tool,
    Some (AttachScenario.request "send chat message") = Some body
    ∧ rq_agent_id body = Some agent_id
    ∧ agent_tools (AttachScenario.env AttachScenario.store) agent_id
      = Some tools
    ∧ tool ∈ tools ∧ t_tool_type tool = Some external_mcp
    ∧ id_or_tool_id tool = Some "t2"
    ∧ "t2" ∉ default [] (rq_keep_tools body).
Proof.
  apply (attach_detaches_only_unkept_mcp_tools elements id
           PruneFacts.sequential_schedule
           (AttachScenario.env AttachScenario.store)
           (Some (AttachScenario.request "send chat message")) "t2").
  apply (bool_decide_unpack _). vm_compute. exact I.
Defined.

(** The small agent's MCP tools, nothing to attach, ["t2"] to keep. *)
Lemma process_tools_detaches_exactly_the_unkept_witness :
  "t1" ∈ detach_requests
           (process_tools id (AttachScenario.env AttachScenario.store)
              (unique_mcp_tools Scenario.small_agent ∅) [] ["t2"]).2
  ∧ "t2" ∉ detach_requests
             (process_tools id (AttachScenario.env AttachScenario.store)
                (unique_mcp_tools Scenario.small_agent ∅) [] ["t2"]).2.
Proof.
  split.
  - apply (process_tools_detaches_exactly_the_unkept id
             PruneFacts.sequential_schedule
             (AttachScenario.env AttachScenario.store)
             (unique_mcp_tools Scenario.small_agent ∅) [] ["t2"] "t1" eq_refl).
    split_and!.
    + discriminate.
    + eexists. split; [apply list_elem_of_here|reflexivity].
    + apply (bool_decide_unpack _). vm_compute. exact I.
    + intros m Hm. by apply elem_of_nil in Hm.
  - intros Hin.
    apply (process_tools_detaches_exactly_the_unkept id
             PruneFacts.sequential_schedule
             (AttachScenario.env AttachScenario.store)
             (unique_mcp_tools Scenario.small_agent ∅) [] ["t2"] "t2" eq_refl)
      in Hin as (_ & _ & Hk & _).
    apply Hk. apply list_elem_of_here.
Defined.

(** An agent with one core tool and three MCP tools: ["t2"] is one of the
    ids the list is built with. *)
Lemma unique_mcp_tools_one_per_id_witness :
  NoDup (omap t_id (unique_mcp_tools Scenario.small_agent ∅))
  ∧ "t2" ∈ omap t_id (unique_mcp_tools Scenario.small_agent ∅).
Proof.
  destruct (unique_mcp_tools_one_per_id Scenario.small_agent)
    as (Hnodup & _ & Hall).
  split; [exact Hnodup|].
  apply Hall; [discriminate|].
  exists (Scenario.mcp_tool "t2"). split_and!; [|reflexivity..].
  apply list_elem_of_further, list_elem_of_further, list_elem_of_here.
Defined.

(** The candidate known to the catalog cache under ["tool-1"], and a
    candidate without name. *)
Lemma resolved_tool_has_ids_witness :
  (∃ r, (process_matching_tool (AttachScenario.env AttachScenario.store)
           AttachScenario.candidate [AttachScenario.cached]).1 = Some r
        ∧ Py.truthy (t_id r) = true ∧ Py.truthy (t_tool_id r) = true)
  ∧ process_matching_tool (AttachScenario.env AttachScenario.store)
      (mkTool None None None None None None None) [AttachScenario.cached]
    = (None, []).
Proof.
  split.
  - destruct (resolved_tool_has_ids (AttachScenario.env AttachScenario.store)
                AttachScenario.candidate [AttachScenario.cached]) as [Hids _].
    exists (set_ids (Some "tool-1") AttachScenario.cached).
    split; [vm_compute; reflexivity|].
    apply Hids. vm_compute; reflexivity.
  - destruct (resolved_tool_has_ids (AttachScenario.env AttachScenario.store)
                (mkTool None None None None None None None)
                [AttachScenario.cached]) as [_ Hdrop].
    apply Hdrop. reflexivity.
Defined.

End AttachMore.

(** ** The tool cache mirror *)

Module ToolCacheFacts.
Import ToolCache.

Lemma must_reload_after_load force mtime cache :
  must_reload force mtime (mkMirror (Some cache) mtime) = force.
Proof.
  unfold must_reload. simpl.
  assert (Qle_bool mtime mtime = true) as ->
    by (apply Qle_bool_iff, Qle_refl).
  by destruct force.
Qed.

(** X11 — Reading twice is reading once. A second [read_tool_cache] of an
    unchanged file, with the same [force_reload], returns the same list as
    the first and leaves the mirror as the first left it; this holds for a
    missing, unreadable or garbled file too. *)
Theorem read_tool_cache_idempotent force file m :
  read_tool_cache force file (read_tool_cache force file m).2
  = read_tool_cache force file m.
Proof.
  destruct file as [|mtime content]; [done|]. simpl.
  destruct (must_reload force mtime m) eqn:Hreload.
  - destruct content as [| | |tools]; simpl.
    + by destruct (must_reload force mtime reset).
    + by destruct (must_reload force mtime reset).
    + unfold must_reload. simpl. by rewrite orb_true_r.
    + rewrite must_reload_after_load. by destruct force.
  - simpl. rewrite Hreload.
    done.
Qed.

(** X12 — Freshness is decided by the mtime alone. After a load of a
    file that held the list [old] at mtime [t1], an unforced read of the
    file holding the list [new] at mtime [t2] returns [new] when
    [t1 < t2], and still [old] when [t2 <= t1], whatever [new] is. *)
Theorem reload_iff_mtime_advances force m t1 t2 old new :
  let loaded := (read_tool_cache true (Present t1 (JsonList old)) m).2 in
  ((t1 < t2)%Q →
   read_tool_cache force (Present t2 (JsonList new)) loaded
   = (new, mkMirror (Some new) t2))
  ∧ ((t2 <= t1)%Q →
     read_tool_cache false (Present t2 (JsonList new)) loaded
     = (old, mkMirror (Some old) t1)).
Proof.
  simpl. split; intros Hlt.
  - unfold must_reload. simpl.
    assert (Qle_bool t2 t1 = false) as ->.
    { apply not_true_is_false. intros Hle%Qle_bool_iff.
      by apply Qlt_not_le in Hlt. }
    by rewrite orb_true_r.
  - unfold must_reload. simpl.
    by rewrite (proj2 (Qle_bool_iff t2 t1) Hlt).
Qed.

(** X13 — A broken tool cache file is invisible to the health check.
    A forced [read_tool_cache] of a file that is missing, unreadable or
    garbled returns the empty list and resets the mirror; and after any
    read of such a file, forced or not, the in-memory check of the health
    endpoint reads OK. *)
Theorem broken_cache_file_reads_healthy force file m file_exists :
  (file = Missing ∨ ∃ mtime, file = Present mtime Unreadable
                             ∨ file = Present mtime Garbled) →
  read_tool_cache true file m = ([], reset)
  ∧ in_memory_status (read_tool_cache force file m).2 file_exists = "OK".
Proof.
  assert (∀ mtime, must_reload force mtime m = false →
            in_memory_status m file_exists = "OK") as Hkeep.
  { intros mtime Hr. unfold must_reload in Hr.
    apply orb_false_iff in Hr as [Hr _]. apply orb_false_iff in Hr as [_ Hr].
    apply bool_decide_eq_false_1 in Hr.
    unfold in_memory_status, Health.tool_cache_in_memory_status. simpl.
    by destruct (_tool_cache m). }
  intros [->|(mtime & [-> | ->])]; simpl; try done;
    (split; [done|]);
    destruct (must_reload force mtime m) eqn:Hr; try done;
    by eapply Hkeep.
Qed.

Lemma reload_iff_mtime_advances_witness :
  read_tool_cache false (Present 20 (JsonList [Scenario.mcp_tool "t2"]))
    (read_tool_cache true (Present 10 (JsonList [Scenario.mcp_tool "t1"]))
       initial).2
  = ([Scenario.mcp_tool "t2"],
     mkMirror (Some [Scenario.mcp_tool "t2"]) 20).
Proof.
  apply (proj1 (reload_iff_mtime_advances false initial 10 20
                  [Scenario.mcp_tool "t1"] [Scenario.mcp_tool "t2"])).
  reflexivity.
Defined.

Lemma broken_cache_file_reads_healthy_witness :
  read_tool_cache true (Present 10 Garbled) initial = ([], reset)
  ∧ in_memory_status (read_tool_cache false (Present 10 Garbled) initial).2 true
    = "OK".
Proof.
  apply (broken_cache_file_reads_healthy false (Present 10 Garbled) initial
           true).
  right. exists 10%Q. by right.
Defined.

Example stale_read_keeps_old_list :
  (read_tool_cache false (Present 10 (JsonList [Scenario.mcp_tool "t2"]))
     (read_tool_cache true (Present 10 (JsonList [Scenario.mcp_tool "t1"]))
        initial).2).1
  = [Scenario.mcp_tool "t1"].
Proof. reflexivity. Qed.

End ToolCacheFacts.

(** ** More on the sync cycle *)

Module SyncMore.
Import Sync SyncInv.

Lemma elem_of_dict_set k v d k' v' :
  (k', v') ∈ dict_set k v d → (k' = k ∧ v' = v) ∨ (k', v') ∈ d.
Proof.
  induction d as [|[k0 v0] d IH]; simpl.
  - intros [= -> ->]%list_elem_of_singleton. by left.
  - case_bool_decide as Hk.
    + intros [[= -> ->]|Hin]%elem_of_cons; [by left|].
      right. by right.
    + intros [[= -> ->]|Hin]%elem_of_cons.
      * right. by left.
      * destruct (IH Hin) as [?|?]; [by left|]. right. by right.
Qed.

Lemma dict_set_here k v d : (k, v) ∈ dict_set k v d.
Proof.
  induction d as [|[k0 v0] d IH]; simpl; [by left|].
  case_bool_decide; [by left|by right].
Qed.

Lemma dict_set_keys k v d :
  (dict_set k v d).*1 = if decide (k ∈ d.*1) then d.*1 else d.*1 ++ [k].
Proof.
  induction d as [|[k0 v0] d IH].
  - destruct (decide (k ∈ ([] : Dict).*1)) as [Hin|_]; [|done].
    by apply elem_of_nil in Hin.
  - cbn [dict_set]. case_bool_decide as Hk.
    + subst k0. destruct (decide (k ∈ ((k, v0) :: d).*1)) as [_|Hn]; [done|].
      exfalso. apply Hn. by left.
    + rewrite fmap_cons, IH. cbn [fst].
      destruct (decide (k ∈ d.*1)) as [Hin|Hnin];
        destruct (decide (k ∈ ((k0, v0) :: d).*1)) as [Hin'|Hnin'];
        try done.
      * exfalso. apply Hnin'. by right.
      * apply elem_of_cons in Hin' as [?|?]; [done|]. done.
Qed.

Lemma dict_get_Some k d v : dict_get k d = Some v → (k, v) ∈ d.
Proof.
  unfold dict_get. induction d as [|[k0 v0] d IH]; simpl; [done|].
  case_bool_decide as Hk; simpl in *.
  - subst k0. intros [= ->]. by left.
  - intros H. right. by apply IH.
Qed.

Lemma dict_get_None k d : dict_get k d = None ↔ k ∉ d.*1.
Proof.
  unfold dict_get. induction d as [|[k0 v0] d IH]; simpl.
  - split; [by intros _ ?%elem_of_nil|done].
  - case_bool_decide as Hk; simpl in *.
    + subst k0. split; [done|]. intros H. exfalso. apply H. by left.
    + rewrite IH, not_elem_of_cons. naive_solver.
Qed.

Lemma keyed_dict_set k v d :
  keyed_by_name d → name_key v = Some k → keyed_by_name (dict_set k v d).
Proof.
  intros [Hnd Hkey] Hv. split.
  - rewrite dict_set_keys. destruct (decide (k ∈ d.*1)); [done|].
    apply NoDup_app. split_and!; [done| |apply NoDup_singleton].
    intros x Hx ->%list_elem_of_singleton. done.
  - intros k' v' [[-> ->]|Hin]%elem_of_dict_set; [done|by apply Hkey].
Qed.

Lemma keyed_by_name_of letta_tools : keyed_by_name (by_name letta_tools).
Proof.
  unfold by_name.
  assert (∀ d, keyed_by_name d →
            keyed_by_name
              (foldl (λ d tool, match name_key tool with
                                | Some n => dict_set n tool d
                                | None => d
                                end) d letta_tools)) as Hgen.
  { induction letta_tools as [|t l IH]; intros d Hd; simpl; [done|].
    apply IH. destruct (name_key t) eqn:Hn; [|done]. by apply keyed_dict_set. }
  apply Hgen. split; [constructor|]. by intros ? ? ?%elem_of_nil.
Qed.

(** What [process_mcp_tool] queues for registration carries the name and
    the server. *)
Lemma queued_is_tagged server tool_data name :
  name_key tool_data = Some name →
  let tagged := with_mcp_server_name (Str server) tool_data in
  let tagged := if present (d_tool_type tagged) then tagged
                else with_tool_type (Str external_mcp) tagged in
  name_key tagged = Some name ∧ d_mcp_server_name tagged = Str server.
Proof.
  intros Hname. simpl. by destruct (present (d_tool_type tool_data)).
Qed.

Lemma process_mcp_tool_keeps_shape server st tool_data :
  keyed_by_name st.1 → tagged st.2 →
  keyed_by_name (process_mcp_tool server st tool_data).1
  ∧ tagged (process_mcp_tool server st tool_data).2.
Proof.
  destruct st as [d pending]. simpl. intros Hd Hp.
  destruct (name_key tool_data) as [name|] eqn:Hname; [|done].
  destruct (dict_get name d) as [existing|] eqn:Hget.
  - destruct (present (d_mcp_server_name existing)) eqn:Hsrv; [done|]. simpl.
    split; [|done]. apply keyed_dict_set; [done|].
    apply dict_get_Some in Hget. by apply Hd in Hget.
  - simpl. split; [done|].
    intros s n td [Hin|[= -> -> ->]%list_elem_of_singleton]%elem_of_app;
      [by apply Hp|].
    by apply queued_is_tagged.
Qed.

Lemma process_server_keeps_shape env st server :
  keyed_by_name st.1 → tagged st.2 →
  keyed_by_name (process_server env st server).1
  ∧ tagged (process_server env st server).2.
Proof.
  unfold process_server. destruct (server_tools env server) as [l|]; [|done].
  revert st. induction l as [|t l IH]; intros st Hd Hp; simpl; [done|].
  destruct (process_mcp_tool_keeps_shape server st t Hd Hp). by apply IH.
Qed.

Lemma process_servers_keep_shape env servers st :
  keyed_by_name st.1 → tagged st.2 →
  keyed_by_name (foldl (process_server env) st servers).1
  ∧ tagged (foldl (process_server env) st servers).2.
Proof.
  revert st. induction servers as [|s l IH]; intros st Hd Hp; simpl; [done|].
  destruct (process_server_keeps_shape env st s Hd Hp). by apply IH.
Qed.

Lemma apply_registration_keeps_shape pending d result :
  tagged pending → keyed_by_name d →
  keyed_by_name (apply_registration pending d result).
Proof.
  intros Hp Hd. unfold apply_registration.
  destruct result as [r|]; [|done].
  destruct (name_key r) as [rname|] eqn:Hr; [|done].
  destruct (List.find _ pending) as [[[s n] td]|] eqn:Hfind.
  - apply keyed_dict_set; [done|].
    apply find_some in Hfind as [Hin Heq].
    apply bool_decide_eq_true_1 in Heq. simpl in Heq. subst n.
    apply list_elem_of_In in Hin. by apply Hp in Hin as [? _].
  - by apply keyed_dict_set.
Qed.

Lemma add_unregistered_keeps_shape pending d p :
  tagged pending → p ∈ pending → keyed_by_name d →
  keyed_by_name (add_unregistered d p).
Proof.
  intros Hp Hin Hd. destruct p as [[s n] td]. simpl.
  destruct (dict_get n d); [done|].
  apply keyed_dict_set; [done|]. by apply Hp in Hin as [? _].
Qed.

(** The map before the filter is well formed. *)
Lemma collected_keyed env : keyed_by_name (collected env).
Proof.
  unfold collected.
  destruct (process_servers_keep_shape env (default [] (mcp_servers env))
              (by_name (default [] (main_tools env)), []))
    as [Hd Hp]; [apply keyed_by_name_of|by intros ? ? ? ?%elem_of_nil|].
  destruct (foldl (process_server env) _ _) as [d pending]. simpl in *.
  assert (∀ results d', keyed_by_name d' →
            keyed_by_name (foldl (apply_registration pending) d' results))
    as Hreg.
  { induction results as [|r l IH]; intros d' Hd'; simpl; [done|].
    by apply IH, apply_registration_keeps_shape. }
  assert (∀ l d', (∀ p, p ∈ l → p ∈ pending) → keyed_by_name d' →
            keyed_by_name (foldl add_unregistered d' l)) as Hadd.
  { induction l as [|p l IH]; intros d' Hl Hd'; simpl; [done|].
    apply IH; [intros q Hq; apply Hl; by right|].
    eapply add_unregistered_keeps_shape; [done|apply Hl; by left|done]. }
  apply Hadd; [done|]. by apply Hreg.
Qed.

(** The list a call returns is the filtered map, and [categorize_tools]
    went through it without raising. *)
Lemma fetched_is_filtered env tools :
  letta_password env = true →
  fetch_all_tools_async env = Some tools →
  tools = snd <$> filtered_tools_by_name (active_server_names env)
                                         (collected env)
  ∧ categorize_tools_raises tools = false.
Proof.
  intros Hpw. unfold fetch_all_tools_async. rewrite Hpw. simpl.
  destruct (categorize_tools_raises _) eqn:Hraise; [done|].
  by intros [= <-].
Qed.

Lemma name_of_key v k :
  name_key v = Some k → d_name v = of_value k.
Proof.
  unfold name_key. destruct (d_name v); [done|by intros [= <-]..].
Qed.

(** X14 — One entry per name. Whatever the platform and the MCP servers
    answer, every descriptor of a list [fetch_all_tools_async] returns
    has a name that is a string and no two of them have the same name:
    the catalog written to the cache can be keyed by name. *)
Theorem fetched_catalog_names_unique env tools :
  fetch_all_tools_async env = Some tools →
  NoDup (d_name <$> tools)
  ∧ ∀ tool, tool ∈ tools → ∃ name, d_name tool = Str name.
Proof.
  destruct (letta_password env) eqn:Hpw.
  2:{ unfold fetch_all_tools_async. rewrite Hpw. simpl. intros [= <-].
      split; [constructor|by intros ? ?%elem_of_nil]. }
  intros [-> Hraise]%fetched_is_filtered; [|done].
  destruct (collected_keyed env) as [Hnd Hkey].
  set (d := collected env) in *.
  set (f := filtered_tools_by_name (active_server_names env) d) in *.
  assert (∀ k v, (k, v) ∈ f → name_key v = Some k) as Hf.
  { intros k v Hin. apply list_elem_of_filter in Hin as [_ Hin].
    by apply Hkey. }
  assert (NoDup f.*1) as Hfnd.
  { subst f. unfold filtered_tools_by_name.
    eapply sublist_NoDup; [exact Hnd|].
    apply fmap_sublist, sublist_filter. }
  split.
  - assert (d_name <$> f.*2 = of_value <$> f.*1) as ->.
    { clear Hfnd Hraise. induction f as [|[k v] f IH]; [done|]. simpl.
      rewrite (name_of_key v k) by (apply Hf; by left). f_equal. apply IH.
      intros k' v' Hin. apply Hf. by right. }
    apply NoDup_fmap; [|done]. by intros [?|] [?|] ?; simplify_eq/=.
  - intros tool Htool.
    apply orb_false_iff in Hraise as [Hraise _].
    apply orb_false_iff in Hraise as [Hnames _].
    assert (is_null (d_name tool) = false) as Hnull.
    { destruct (is_null (d_name tool)) eqn:E; [|done].
      assert (existsb (λ t, is_null (d_name t)) f.*2 = true) as Hex.
      { apply existsb_exists. exists tool. split; [|done].
        by apply list_elem_of_In. }
      congruence. }
    apply list_elem_of_fmap in Htool as ([k v] & -> & Hin). simpl in *.
    apply Hf, name_of_key in Hin. rewrite Hin in *.
    destruct k as [name|]; [by exists name|done].
Qed.

(** The scenario: three names, all different. *)
Lemma fetched_catalog_names_unique_witness :
  ∃ tools,
    fetch_all_tools_async SyncScenario.env = Some tools
    ∧ NoDup (d_name <$> tools)
    ∧ ∀ tool, tool ∈ tools → ∃ name, d_name tool = Str name.
Proof.
  eexists. split; [vm_compute; reflexivity|].
  apply (fetched_catalog_names_unique SyncScenario.env).
  vm_compute. reflexivity.
Defined.

Lemma by_name_origin letta_tools k v :
  (k, v) ∈ by_name letta_tools → v ∈ letta_tools ∧ name_key v = Some k.
Proof.
  intros Hin. split; [|by apply (keyed_by_name_of letta_tools)].
  revert Hin. unfold by_name.
  assert (∀ d, (k, v) ∈ foldl (λ d tool, match name_key tool with
                                         | Some n => dict_set n tool d
                                         | None => d
                                         end) d letta_tools →
            v ∈ letta_tools ∨ (k, v) ∈ d) as Hgen.
  { induction letta_tools as [|t l IH]; intros d; simpl; [by right|].
    intros Hin. destruct (IH _ Hin) as [?|Hd]; [left; by right|].
    destruct (name_key t); [|by right].
    apply elem_of_dict_set in Hd as [[_ ->]|?]; [left; by left|by right]. }
  intros Hin. destruct (Hgen _ Hin) as [?|?%elem_of_nil]; done.
Qed.

Section Discovery.
Variable env : Env.
(** The listed servers and the names the platform knows. *)
Variable servers : list string.
Variable known : list Key.

(** While the MCP listings are processed the keys of the map stay the
    names the platform knows, and a tool waits for registration only under
    a name the platform does not know, for a listed server. *)
Definition processing (st : Dict * list Pending) : Prop :=
  st.1.*1 = known
  ∧ ∀ s n td, (s, n, td) ∈ st.2 → (n ∉ known) ∧ s ∈ servers.

Lemma processing_step server st tool_data :
  server ∈ servers → processing st →
  processing (process_mcp_tool server st tool_data).
Proof.
  intros Hs [Hk Hp]. destruct st as [d pending]. simpl in *.
  destruct (name_key tool_data) as [name|]; [|done].
  destruct (dict_get name d) as [existing|] eqn:Hget.
  - destruct (present (d_mcp_server_name existing)); [done|].
    split; [|done]. simpl.
    rewrite dict_set_keys. rewrite decide_True; [done|].
    apply dict_get_Some in Hget. apply list_elem_of_fmap.
    by exists (name, existing).
  - split; [done|]. simpl.
    intros s n td [Hin|[= -> -> ->]%list_elem_of_singleton]%elem_of_app;
      [by eapply Hp|].
    split; [|done]. rewrite <- Hk. by apply dict_get_None.
Qed.

Lemma pending_grows server st tool_data p :
  p ∈ st.2 → p ∈ (process_mcp_tool server st tool_data).2.
Proof.
  destruct st as [d pending]. simpl.
  destruct (name_key tool_data) as [name|]; [|done].
  destruct (dict_get name d) as [existing|].
  - by destruct (present (d_mcp_server_name existing)).
  - simpl. intros Hin. apply elem_of_app. by left.
Qed.

Lemma listing_enqueued server l st tool_data n :
  server ∈ servers → processing st →
  tool_data ∈ l → name_key tool_data = Some n → n ∉ known →
  ∃ td, (server, n, td) ∈ (foldl (process_mcp_tool server) st l).2.
Proof.
  intros Hs. revert st. induction l as [|t l IH]; intros st Hst Hin Hn Hk.
  - by apply elem_of_nil in Hin.
  - simpl. apply elem_of_cons in Hin as [<-|Hin].
    + assert (∃ td, (server, n, td)
                    ∈ (process_mcp_tool server st tool_data).2) as [td Htd].
      { destruct Hst as [Hkeys _]. destruct st as [d pending]. simpl in *.
        rewrite Hn.
        assert (dict_get n d = None) as -> by (apply dict_get_None; congruence).
        eexists. apply elem_of_app. right. by left. }
      exists td. clear IH.
      generalize dependent (process_mcp_tool server st tool_data).
      induction l as [|t' l IH']; intros st' Htd; simpl; [done|].
      apply IH'. by apply pending_grows.
    + apply IH; [by apply processing_step|done..].
Qed.

Lemma processing_listing server l st :
  server ∈ servers → processing st →
  processing (foldl (process_mcp_tool server) st l)
  ∧ ∀ p, p ∈ st.2 → p ∈ (foldl (process_mcp_tool server) st l).2.
Proof.
  intros Hs. revert st. induction l as [|t l IH]; intros st Hst; simpl;
    [done|].
  destruct (IH (process_mcp_tool server st t)) as [H1 H2];
    [by apply processing_step|].
  split; [done|]. intros p Hp. by apply H2, pending_grows.
Qed.

Lemma processing_servers l st :
  (∀ s, s ∈ l → s ∈ servers) → processing st →
  processing (foldl (process_server env) st l)
  ∧ (∀ p, p ∈ st.2 → p ∈ (foldl (process_server env) st l).2)
  ∧ ∀ s tools tool_data n,
      s ∈ l → server_tools env s = Some tools → tool_data ∈ tools →
      name_key tool_data = Some n → n ∉ known →
      ∃ td, (s, n, td) ∈ (foldl (process_server env) st l).2.
Proof.
  revert st. induction l as [|s0 l IH]; intros st Hl Hst; simpl.
  - split_and!; [done..|]. by intros ? ? ? ? ?%elem_of_nil.
  - assert (s0 ∈ servers) as Hs0 by (apply Hl; by left).
    assert (processing (process_server env st s0)
            ∧ ∀ p, p ∈ st.2 → p ∈ (process_server env st s0).2) as [Hst' Hmono].
    { unfold process_server. destruct (server_tools env s0); [|done].
      by apply processing_listing. }
    destruct (IH (process_server env st s0)) as (H1 & H2 & H3);
      [intros; apply Hl; by right|done|].
    split_and!; [done|intros p Hp; by apply H2, Hmono|].
    intros s tools tool_data n [->|Hin]%elem_of_cons Htools Htool Hn Hk.
    + assert (∃ td, (s0, n, td) ∈ (process_server env st s0).2) as [td Htd].
      { unfold process_server. rewrite Htools.
        by eapply listing_enqueued. }
      exists td. by apply H2.
    + by eapply H3.
Qed.

Variable pending : list Pending.
Hypothesis pending_tagged : tagged pending.
Hypothesis pending_listed :
  ∀ s n td, (s, n, td) ∈ pending → (n ∉ known) ∧ s ∈ servers.

(** Once the listings are processed: an entry filed under a name that
    waits for registration carries a listed server. *)
Definition placed (d : Dict) : Prop :=
  ∀ k v s0 td0, (k, v) ∈ d → (s0, k, td0) ∈ pending →
                ∃ s, s ∈ servers ∧ d_mcp_server_name v = Str s.

Lemma placed_registration d result :
  placed d → placed (apply_registration pending d result).
Proof.
  intros Hd. unfold apply_registration.
  destruct result as [r|]; [|done].
  destruct (name_key r) as [rname|]; [|done].
  destruct (List.find _ pending) as [[[s n] td]|] eqn:Hfind.
  - apply find_some in Hfind as [Hin Heq].
    apply bool_decide_eq_true_1 in Heq. simpl in Heq. subst n.
    apply list_elem_of_In in Hin.
    intros k v s0 td0 [[-> ->]|Hkv]%elem_of_dict_set Hp; [|by eapply Hd].
    exists s. split; [by eapply pending_listed|]. simpl.
    by apply pending_tagged in Hin as [_ ?].
  - intros k v s0 td0 [[-> ->]|Hkv]%elem_of_dict_set Hp; [|by eapply Hd].
    exfalso. apply list_elem_of_In in Hp.
    apply (find_none _ _ Hfind) in Hp. simpl in Hp.
    by apply bool_decide_eq_false_1 in Hp.
Qed.

Lemma placed_unregistered d p :
  p ∈ pending → placed d → placed (add_unregistered d p).
Proof.
  intros Hin Hd. destruct p as [[s n] td]. simpl.
  destruct (dict_get n d); [done|].
  intros k v s0 td0 [[-> ->]|Hkv]%elem_of_dict_set Hp; [|by eapply Hd].
  exists s. split; [by eapply pending_listed|done].
Qed.

Lemma add_unregistered_keys d p k :
  k ∈ d.*1 → k ∈ (add_unregistered d p).*1.
Proof.
  destruct p as [[s n] td]. simpl. destruct (dict_get n d); [done|].
  rewrite dict_set_keys. destruct (decide (n ∈ d.*1)); [done|].
  intros Hk. apply elem_of_app. by left.
Qed.

Lemma add_unregistered_covers l d :
  (∀ s n td, (s, n, td) ∈ l → n ∈ (foldl add_unregistered d l).*1)
  ∧ ∀ k, k ∈ d.*1 → k ∈ (foldl add_unregistered d l).*1.
Proof.
  revert d. induction l as [|p l IH]; intros d; simpl.
  - split; [by intros ? ? ? ?%elem_of_nil|done].
  - destruct (IH (add_unregistered d p)) as [H1 H2]. split.
    + intros s n td [<-|Hin]%elem_of_cons; [|by eapply H1].
      apply H2. simpl. destruct (dict_get n d) eqn:Hget.
      * apply dict_get_Some in Hget. apply list_elem_of_fmap.
        by eexists (n, _).
      * apply list_elem_of_fmap. eexists (n, _). split; [done|].
        apply dict_set_here.
    + intros k Hk. by apply H2, add_unregistered_keys.
Qed.

End Discovery.

(** X16 — Tools of listed servers stay discoverable. When the password
    is set, no listed server has the empty name and the call returns a
    catalog, every tool with a string name that a listed MCP server
    offers and the platform does not know is in that catalog under its
    name, tagged with a listed server, whether its registration succeeds
    or fails. *)
Theorem mcp_only_tool_stays_discoverable env servers s tools tool_data n
    catalog :
  letta_password env = true →
  mcp_servers env = Some servers → "" ∉ servers →
  s ∈ servers → server_tools env s = Some tools →
  tool_data ∈ tools → d_name tool_data = Str n →
  (∀ t, t ∈ default [] (main_tools env) → d_name t ≠ Str n) →
  fetch_all_tools_async env = Some catalog →
  ∃ t, t ∈ catalog ∧ d_name t = Str n
       ∧ ∃ s', d_mcp_server_name t = Str s' ∧ s' ∈ servers.
Proof.
  intros Hpw Hservers Hne Hs Htools Htool Hn Hunknown Hfetch.
  apply fetched_is_filtered in Hfetch as [-> _]; [|done].
  assert (name_key tool_data = Some (Some n)) as Hkey
    by (unfold name_key; by rewrite Hn).
  set (d0 := by_name (default [] (main_tools env))).
  assert (Some n ∉ d0.*1) as Hfresh.
  { intros ([k v] & Hk0 & Hin)%list_elem_of_fmap. simpl in Hk0. subst k.
    apply by_name_origin in Hin as [Hv Hk].
    apply (Hunknown v Hv). by apply name_of_key in Hk. }
  destruct (processing_servers env servers d0.*1 servers (d0, []))
    as (Hproc & _ & Hall); [done|split; [done|by intros ? ? ? ?%elem_of_nil]|].
  destruct (Hall s tools tool_data (Some n) Hs Htools Htool Hkey Hfresh)
    as [td Htd].
  destruct (process_servers_keep_shape env servers (d0, []))
    as [Hkeyed Htag];
    [apply keyed_by_name_of|by intros ? ? ? ?%elem_of_nil|].
  assert (∃ v, (Some n, v) ∈ collected env
               ∧ ∃ s', s' ∈ servers ∧ d_mcp_server_name v = Str s')
    as (v & Hv & s' & Hs' & Hsrv).
  { unfold collected. rewrite Hservers. simpl. fold d0.
    destruct (foldl (process_server env) (d0, []) servers)
      as [d1 pending] eqn:Hfold. simpl in *.
    destruct Hproc as [Hkeys Hlisted].
    set (d2 := foldl (apply_registration pending) d1
                     (register_tool_async env <$> pending)).
    assert (placed servers pending d2) as Hd2.
    { subst d2.
      assert (placed servers pending d1) as Hd1.
      { intros k v s0 td0 Hkv Hp. exfalso.
        apply Hlisted in Hp as [Hk _]. apply Hk. rewrite <- Hkeys.
        apply list_elem_of_fmap. by exists (k, v). }
      revert Hd1. generalize (register_tool_async env <$> pending).
      intros l. generalize d1.
      induction l as [|r l IH]; intros d Hd; simpl; [done|].
      apply IH, (placed_registration servers d0.*1); [done| |done].
      intros ? ? ? ?. by eapply Hlisted. }
    assert (∀ l d, (∀ p, p ∈ l → p ∈ pending) → placed servers pending d →
              placed servers pending (foldl add_unregistered d l)) as Hadd.
    { induction l as [|p l IH]; intros d Hl Hd; simpl; [done|].
      apply IH; [intros q Hq; apply Hl; by right|].
      apply (placed_unregistered servers d0.*1);
        [intros ? ? ? ?; by eapply Hlisted|apply Hl; by left|done]. }
    pose proof (Hadd pending d2 ltac:(done) Hd2) as Hfinal.
    destruct (add_unregistered_covers pending d2) as [Hcover _].
    apply Hcover in Htd as Hkey'.
    apply list_elem_of_fmap in Hkey' as ([k v] & Hk & Hkv). simpl in *.
    subst k. exists v. split; [done|]. by eapply Hfinal. }
  exists v. split_and!.
  - apply list_elem_of_fmap. exists (Some n, v). split; [done|].
    apply list_elem_of_filter. split; [|done]. simpl.
    unfold keeps. case_bool_decide; [|done]. rewrite Hsrv. simpl.
    apply andb_true_iff. split.
    + destruct (String.eqb_spec s' ""); [|done]. by subst s'.
    + apply bool_decide_eq_true_2. unfold active_server_names.
      rewrite Hservers. simpl. by apply elem_of_list_to_set.
  - apply (name_of_key v (Some n)). by apply (collected_keyed env).
  - by exists s'.
Qed.

(** The scenario: ["read_channel"] is offered by ["chat"] only. *)
Lemma mcp_only_tool_stays_discoverable_witness :
  ∃ catalog t,
    fetch_all_tools_async SyncScenario.env = Some catalog
    ∧ t ∈ catalog ∧ d_name t = Str "read_channel"
    ∧ ∃ s', d_mcp_server_name t = Str s' ∧ s' ∈ ["chat"].
Proof.
  eexists.
  assert (∀ (A : Type) (P Q : A → Prop) (R : Prop),
            R → (∃ t, P t ∧ Q t) → ∃ t, R ∧ P t ∧ Q t) as Hshape.
  { intros A P Q R HR (t & ? & ?). by exists t. }
  apply Hshape; [vm_compute; reflexivity|].
  apply (mcp_only_tool_stays_discoverable SyncScenario.env ["chat"] "chat"
           SyncScenario.chat_tools (SyncScenario.named "read_channel")
           "read_channel").
  - reflexivity.
  - reflexivity.
  - intros Hin. apply elem_of_cons in Hin as [?|Hin]; [discriminate|].
    by apply elem_of_nil in Hin.
  - apply list_elem_of_here.
  - reflexivity.
  - apply list_elem_of_further, list_elem_of_here.
  - reflexivity.
  - intros t Ht. simpl in Ht.
    repeat (apply elem_of_cons in Ht as [->|Ht]; [discriminate|]).
    by apply elem_of_nil in Ht.
  - vm_compute. reflexivity.
Defined.

End SyncMore.
